(** * Smart meal planner: recommendation and scheduling engine

    A shallow embedding of the decision logic of [app.py]:
    [PurchaseTimingAnalyzer], [FamilyPreferencesManager],
    [SmartMealRotator], [SaleBasedRecommendationEngine] and
    [CalendarIntegrator], followed by the properties of the specification
    that concern them.

    Conventions of the embedding.
    - A Python [str] is a [string]; one [ascii] per byte of its UTF-8
      encoding.  [lower] and [strip] act on the ASCII letters and the ASCII
      white space; other bytes are carried unchanged.
    - A Python [int] is a [Z]; a [float] (prices, savings, percentages,
      hours) is the rational number it denotes, a [Q].  Rounding of float
      addition is not modelled.
    - A Python [list] is a [list]; a [dict] with a fixed set of keys is a
      [Record]; a [dict] used as a map is a [gmap].
    - Methods take the state of [self] as an explicit argument and return
      the new state when they mutate it. *)

From Stdlib Require Import ZArith QArith Ascii String.
From stdpp Require Import gmap strings list sorting.

Local Open Scope string_scope.
Local Open Scope list_scope.
Local Open Scope Z_scope.

(** ** Python strings *)

Module PyStr.

(** [c.lower()] for one ASCII character. *)
Definition lower_char (c : ascii) : ascii :=
  let n := N_of_ascii c in
  if ((65 <=? n) && (n <=? 90))%N then ascii_of_N (n + 32) else c.

(** [s.lower()] *)
Fixpoint lower (s : string) : string :=
  match s with
  | EmptyString => EmptyString
  | String c s' => String (lower_char c) (lower s')
  end.

(** White space removed by [str.strip()]: tab, line feed, vertical tab,
    form feed, carriage return, the four separators 0x1c-0x1f, space. *)
Definition is_space (c : ascii) : bool :=
  let n := N_of_ascii c in
  (((9 <=? n) && (n <=? 13)) || ((28 <=? n) && (n <=? 32)))%N.

Fixpoint lstrip (s : string) : string :=
  match s with
  | EmptyString => EmptyString
  | String c s' => if is_space c then lstrip s' else s
  end.

Definition rstrip (s : string) : string :=
  String.rev (lstrip (String.rev s)).

(** [s.strip()] *)
Definition strip (s : string) : string := rstrip (lstrip s).

(** [needle in hay]: [needle] occurs in [hay] as a contiguous run. *)
Fixpoint contains (needle hay : string) : bool :=
  String.prefix needle hay ||
  match hay with
  | EmptyString => false
  | String _ hay' => contains needle hay'
  end.

(** [sep.join(l)] *)
Fixpoint join (sep : string) (l : list string) : string :=
  match l with
  | [] => ""
  | [s] => s
  | s :: l' => s +:+ sep +:+ join sep l'
  end.

End PyStr.

(** ** Python lists *)

Module PyList.

(** [x in l] *)
Definition py_in {A} `{EqDecision A} (x : A) (l : list A) : bool :=
  bool_decide (x ∈ l).

(** [l.remove(x)]: drops the first occurrence.  The callers test
    [x in l] first, so the [ValueError] of an absent [x] cannot arise;
    on an absent [x] the list is returned as it is. *)
Fixpoint remove_first {A} `{EqDecision A} (x : A) (l : list A) : list A :=
  match l with
  | [] => []
  | y :: l' => if decide (x = y) then l' else y :: remove_first x l'
  end.

(** [l[i:]], negative [i] counting from the end. *)
Definition slice_from {A} (i : Z) (l : list A) : list A :=
  if i <? 0 then drop (length l - Z.to_nat (- i))%nat l
  else drop (Z.to_nat i) l.

(** [l[:j]], negative [j] counting from the end. *)
Definition slice_to {A} (j : Z) (l : list A) : list A :=
  if j <? 0 then take (length l - Z.to_nat (- j))%nat l
  else take (Z.to_nat j) l.

(** [any(p(x) for x in l)] *)
Definition any {A} (p : A → bool) (l : list A) : bool := existsb p l.

(** [len(l)] *)
Definition len {A} (l : list A) : Z := Z.of_nat (length l).

End PyList.

Import PyStr PyList.

(** ** Exceptions *)

Inductive exn := ZeroDivisionError.

Inductive result (A : Type) :=
| Ok (a : A)
| Raise (e : exn).
Arguments Ok {A} a.
Arguments Raise {A} e.

(** [a / n] with an integer divisor, as the interpreter evaluates it. *)
Definition truediv (a : Q) (n : Z) : result Q :=
  if n =? 0 then Raise ZeroDivisionError else Ok (a / inject_Z n)%Q.

(** Comparisons of numbers. *)
Definition Qltb (a b : Q) : bool :=
  match (a ?= b)%Q with Lt => true | _ => false end.
Definition Qgeb (a b : Q) : bool := negb (Qltb a b).
Definition Qgtb (a b : Q) : bool := Qltb b a.

(** [sum(...)] over numbers, from the integer 0. *)
Definition Qsum (l : list Q) : Q := fold_left Qplus l 0%Q.

(** ** Sale items, as [extract_sale_items] builds them *)

Record SaleItem := {
  name : string;
  regular_price : Q;
  sale_price : Q;
  savings : Q;
  category : string;
  discount_percentage : Q
}.

(** ** PurchaseTimingAnalyzer *)

Module PurchaseTimingAnalyzer.

Record t := { buy_thresholds_excellent : Z;
              buy_thresholds_good : Z;
              buy_thresholds_modest : Z }.

(** [__init__] *)
Definition init : t :=
  {| buy_thresholds_excellent := 25;
     buy_thresholds_good := 15;
     buy_thresholds_modest := 8 |}.

(** The [reason] entry interpolates the percentage into its text; the
    embedding keeps the band and the number. *)
Inductive Reason :=
| ExcellentDiscount (d : Q)
| GoodDiscount (d : Q)
| ModestDiscount (d : Q)
| SmallDiscount.

Record Recommendation := {
  action : string;
  reason : Reason;
  confidence : string;
  timing : string
}.

Definition get_recommendation (self : t) (item_name : string)
    (discount_percentage : Q) : Recommendation :=
  if Qgeb discount_percentage (inject_Z (buy_thresholds_excellent self)) then
    {| action := "🛒 Buy Now & Stock Up";
       reason := ExcellentDiscount discount_percentage;
       confidence := "High";
       timing := "Great deal - buy extra for meal prep" |}
  else if Qgeb discount_percentage (inject_Z (buy_thresholds_good self)) then
    {| action := "🛒 Buy for This Week";
       reason := GoodDiscount discount_percentage;
       confidence := "Medium";
       timing := "Good price for immediate use" |}
  else if Qgeb discount_percentage (inject_Z (buy_thresholds_modest self)) then
    {| action := "🤔 Consider If Needed";
       reason := ModestDiscount discount_percentage;
       confidence := "Medium";
       timing := "Buy if you need it this week" |}
  else
    {| action := "⏰ Wait for Better Deal";
       reason := SmallDiscount;
       confidence := "Low";
       timing := "Wait unless urgently needed" |}.

Definition _get_weekly_strategy (self : t) (total_savings : Q)
    (high_value_count : Z) : string :=
  if Qgtb total_savings 20 then
    "Great week for savings! Focus on items with 20%+ discounts."
  else if Qgtb total_savings 10 then
    "Decent savings available. Consider stocking up on non-perishables."
  else
    "Light sales week. Good time to use up what you have at home.".

Record WeeklySavings := {
  total_possible_savings : Q;
  high_value_count : Z;
  average_discount : Q;
  recommendation : string
}.

Definition analyze_weekly_savings (self : t) (sale_items : list SaleItem)
    : result WeeklySavings :=
  let total_savings := Qsum (map savings sale_items) in
  let high_value_items :=
    filter (λ item, Qgeb (discount_percentage item) 20 = true) sale_items in
  match
    (match sale_items with
     | [] => Ok 0%Q
     | _ => truediv (Qsum (map discount_percentage sale_items))
                    (len sale_items)
     end)
  with
  | Raise e => Raise e
  | Ok avg =>
      Ok {| total_possible_savings := total_savings;
            high_value_count := len high_value_items;
            average_discount := avg;
            recommendation :=
              _get_weekly_strategy self total_savings (len high_value_items) |}
  end.

End PurchaseTimingAnalyzer.

(** ** Recipes *)

Record Recipe := {
  title : string;
  main_ingredients : list string;
  all_ingredients : list string;
  time : Z;
  calories : Z;
  tags : list string
}.

#[global] Instance Recipe_eq_dec : EqDecision Recipe.
Proof. solve_decision. Defined.

(** ** FamilyPreferencesManager *)

Module FamilyPreferencesManager.

Record Preferences := {
  disliked_ingredients : list string;
  loved_ingredients : list string;
  neutral_ingredients : list string;
  never_suggest_again : list string;
  family_favorites : list string;
  dietary_restrictions : list string;
  spice_tolerance : string;
  texture_preferences : list (string * bool)
}.

(** One entry of the history: [{"recipe": ..., "date": ...}]. *)
Record Meal := { recipe : string; date : string }.

Record MealHistory := {
  last_4_weeks : list Meal;
  ingredient_frequency : gmap string Z
}.

Record t := { preferences : Preferences; meal_history : MealHistory }.

(** [__init__] *)
Definition init : t :=
  {| preferences :=
       {| disliked_ingredients := [];
          loved_ingredients := [];
          neutral_ingredients := [];
          never_suggest_again := [];
          family_favorites := [];
          dietary_restrictions := [];
          spice_tolerance := "medium";
          texture_preferences :=
            [("creamy", true); ("crunchy", true);
             ("spicy", true); ("sweet", true)] |};
     meal_history :=
       {| last_4_weeks := []; ingredient_frequency := ∅ |} |}.

Definition set_disliked_loved (self : t) (d l : list string) : t :=
  let p := preferences self in
  {| preferences :=
       {| disliked_ingredients := d;
          loved_ingredients := l;
          neutral_ingredients := neutral_ingredients p;
          never_suggest_again := never_suggest_again p;
          family_favorites := family_favorites p;
          dietary_restrictions := dietary_restrictions p;
          spice_tolerance := spice_tolerance p;
          texture_preferences := texture_preferences p |};
     meal_history := meal_history self |}.

Definition set_never_suggest_again (self : t) (b : list string) : t :=
  let p := preferences self in
  {| preferences :=
       {| disliked_ingredients := disliked_ingredients p;
          loved_ingredients := loved_ingredients p;
          neutral_ingredients := neutral_ingredients p;
          never_suggest_again := b;
          family_favorites := family_favorites p;
          dietary_restrictions := dietary_restrictions p;
          spice_tolerance := spice_tolerance p;
          texture_preferences := texture_preferences p |};
     meal_history := meal_history self |}.

Definition set_family_favorites (self : t) (f : list string) : t :=
  let p := preferences self in
  {| preferences :=
       {| disliked_ingredients := disliked_ingredients p;
          loved_ingredients := loved_ingredients p;
          neutral_ingredients := neutral_ingredients p;
          never_suggest_again := never_suggest_again p;
          family_favorites := f;
          dietary_restrictions := dietary_restrictions p;
          spice_tolerance := spice_tolerance p;
          texture_preferences := texture_preferences p |};
     meal_history := meal_history self |}.

Definition set_last_4_weeks (self : t) (h : list Meal) : t :=
  {| preferences := preferences self;
     meal_history :=
       {| last_4_weeks := h;
          ingredient_frequency :=
            ingredient_frequency (meal_history self) |} |}.

Definition add_dislike (self : t) (ingredient : string) : t :=
  let ingredient := strip (lower ingredient) in
  let d := disliked_ingredients (preferences self) in
  let l := loved_ingredients (preferences self) in
  if negb (py_in ingredient d) then
    let d := d ++ [ingredient] in
    if py_in ingredient l then
      set_disliked_loved self d (remove_first ingredient l)
    else set_disliked_loved self d l
  else self.

Definition add_love (self : t) (ingredient : string) : t :=
  let ingredient := strip (lower ingredient) in
  let d := disliked_ingredients (preferences self) in
  let l := loved_ingredients (preferences self) in
  if negb (py_in ingredient l) then
    let l := l ++ [ingredient] in
    if py_in ingredient d then
      set_disliked_loved self (remove_first ingredient d) l
    else set_disliked_loved self d l
  else self.

Definition ban_recipe (self : t) (recipe_title : string) : t :=
  let b := never_suggest_again (preferences self) in
  if negb (py_in recipe_title b) then
    set_never_suggest_again self (b ++ [recipe_title])
  else self.

Definition add_favorite (self : t) (recipe_title : string) : t :=
  let f := family_favorites (preferences self) in
  if negb (py_in recipe_title f) then
    set_family_favorites self (f ++ [recipe_title])
  else self.

(** The two nested loops with their early [return True]. *)
Fixpoint any_ingredient_has (disliked : string)
    (recipe_ingredients : list string) : bool :=
  match recipe_ingredients with
  | [] => false
  | recipe_ing :: rest =>
      if contains disliked recipe_ing then true
      else any_ingredient_has disliked rest
  end.

Fixpoint any_disliked_in (dislikes recipe_ingredients : list string)
    : bool :=
  match dislikes with
  | [] => false
  | disliked :: rest =>
      if any_ingredient_has disliked recipe_ingredients then true
      else any_disliked_in rest recipe_ingredients
  end.

Definition recipe_contains_dislikes (self : t) (r : Recipe) : bool :=
  let recipe_ingredients := map lower (all_ingredients r) in
  any_disliked_in (disliked_ingredients (preferences self))
                  recipe_ingredients.

Definition recipe_is_banned (self : t) (r : Recipe) : bool :=
  py_in (title r) (never_suggest_again (preferences self)).

Definition was_served_recently (self : t) (r : Recipe) (weeks_back : Z)
    : bool :=
  let recent_meals :=
    slice_from (- weeks_back * 7) (last_4_weeks (meal_history self)) in
  py_in (title r) (map recipe recent_meals).

Definition log_meal (self : t) (recipe_title : string) (date : string) : t :=
  let h := last_4_weeks (meal_history self)
           ++ [ {| recipe := recipe_title; date := date |} ] in
  if len h >? 28 then set_last_4_weeks self (slice_from (-28) h)
  else set_last_4_weeks self h.

(** A run of calls, for the properties that speak of every sequence. *)
Inductive Call :=
| AddDislike (ingredient : string)
| AddLove (ingredient : string).

Definition call (self : t) (c : Call) : t :=
  match c with
  | AddDislike x => add_dislike self x
  | AddLove x => add_love self x
  end.

Definition calls (cs : list Call) (self : t) : t := fold_left call cs self.

(** A run of [log_meal(title, date)] calls. *)
Definition log_meals (ms : list (string * string)) (self : t) : t :=
  fold_left (λ s m, log_meal s (fst m) (snd m)) ms self.

(** The two lists of ingredients, and the history. *)
Definition dislikes (self : t) : list string :=
  disliked_ingredients (preferences self).
Definition loves (self : t) : list string :=
  loved_ingredients (preferences self).
Definition history (self : t) : list Meal := last_4_weeks (meal_history self).

(** What every run of [add_dislike] and [add_love] keeps: neither list
    repeats an entry, and the two share none. *)
Definition exclusive (self : t) : Prop :=
  NoDup (dislikes self) ∧ NoDup (loves self) ∧
  ∀ x, x ∈ dislikes self → x ∉ loves self.

(** The entry [log_meal(title, date)] appends. *)
Definition to_meal (m : string * string) : Meal :=
  {| recipe := fst m; date := snd m |}.

(** The other two lists of the preferences. *)
Definition bans (self : t) : list string :=
  never_suggest_again (preferences self).
Definition favorites (self : t) : list string :=
  family_favorites (preferences self).

(** Any of the five calls that change the state. *)
Inductive Action :=
| Dislike (ingredient : string)
| Love (ingredient : string)
| Ban (recipe_title : string)
| Favorite (recipe_title : string)
| Log (recipe_title date : string).

Definition act (self : t) (a : Action) : t :=
  match a with
  | Dislike x => add_dislike self x
  | Love x => add_love self x
  | Ban x => ban_recipe self x
  | Favorite x => add_favorite self x
  | Log x d => log_meal self x d
  end.

Definition run (actions : list Action) (self : t) : t :=
  fold_left act actions self.

(** The titles a run bans, and the ones it marks as favorites. *)
Definition banned_in (actions : list Action) : list string :=
  omap (λ a, match a with Ban x => Some x | _ => None end) actions.

Definition favorites_in (actions : list Action) : list string :=
  omap (λ a, match a with Favorite x => Some x | _ => None end) actions.

End FamilyPreferencesManager.

(** ** The random source

    [random.shuffle] belongs to the interpreter's library.  Its generator is
    modelled as a supply of raw draws, consumed one per call of
    [randbelow]; every property below holds for every supply. *)

Module Random.

Definition Rng := list nat.

Definition randbelow (n : nat) (g : Rng) : nat * Rng :=
  match g with
  | [] => (0%nat, [])
  | d :: g' => ((d mod n)%nat, g')
  end.

(** [x[i], x[j] = x[j], x[i]] *)
Definition swap {A} (x : list A) (i j : nat) : list A :=
  match x !! i, x !! j with
  | Some a, Some b => <[j:=a]> (<[i:=b]> x)
  | _, _ => x
  end.

(** [for i in reversed(range(1, len(x))): j = randbelow(i + 1); swap] *)
Fixpoint shuffle_from {A} (i : nat) (x : list A) (g : Rng)
    : list A * Rng :=
  match i with
  | O => (x, g)
  | S i' =>
      let '(j, g') := randbelow (S i) g in
      shuffle_from i' (swap x i j) g'
  end.

Definition shuffle {A} (x : list A) (g : Rng) : list A * Rng :=
  shuffle_from (length x - 1) x g.

End Random.

(** ** SmartMealRotator *)

Module SmartMealRotator.

Module Prefs := FamilyPreferencesManager.

Record RecipeDatabase := {
  weekday_breakfast : list Recipe;
  weekday_lunch : list Recipe;
  weekday_dinner : list Recipe;
  weekend_breakfast : list Recipe;
  weekend_dinner : list Recipe
}.

Definition mk (t : string) (m a : list string) (tm c : Z)
    (g : list string) : Recipe :=
  {| title := t; main_ingredients := m; all_ingredients := a;
     time := tm; calories := c; tags := g |}.

Definition _create_recipe_database : RecipeDatabase :=
  {| weekday_breakfast :=
       [ mk "Turkey Sausage and Egg Scramble"
            ["turkey sausage"; "eggs"; "spinach"]
            ["turkey breakfast sausage"; "eggs"; "fresh spinach";
             "bell pepper"; "onion"; "olive oil"]
            8 280 ["high-protein"; "healthy"];
         mk "Greek Yogurt Parfait with Granola"
            ["greek yogurt"; "granola"; "berries"]
            ["greek yogurt"; "granola"; "mixed berries"; "honey"; "nuts"]
            5 320 ["quick"; "healthy"; "protein"];
         mk "Avocado Toast with Turkey Bacon"
            ["whole grain bread"; "avocado"; "turkey bacon"]
            ["whole grain bread"; "avocado"; "turkey bacon"; "tomato";
             "lime"]
            8 350 ["healthy-fats"; "satisfying"];
         mk "Smoothie Bowl with Protein"
            ["protein powder"; "frozen fruit"; "spinach"]
            ["protein powder"; "frozen berries"; "banana"; "spinach";
             "almond milk"; "chia seeds"]
            5 300 ["smoothie"; "antioxidants"] ];
     weekday_lunch :=
       [ mk "Grilled Chicken Caesar Wrap"
            ["grilled chicken"; "romaine"; "whole wheat tortilla"]
            ["grilled chicken breast"; "romaine lettuce";
             "whole wheat tortilla"; "light caesar dressing"; "parmesan"]
            10 380 ["portable"; "high-protein"];
         mk "Quinoa Power Bowl"
            ["quinoa"; "chickpeas"; "vegetables"]
            ["quinoa"; "chickpeas"; "cucumber"; "cherry tomatoes";
             "feta cheese"; "olive oil"]
            15 420 ["vegetarian"; "complete-protein"];
         mk "Turkey and Hummus Wrap"
            ["sliced turkey"; "hummus"; "vegetables"]
            ["sliced turkey"; "hummus"; "whole wheat wrap"; "lettuce";
             "cucumber"; "red bell pepper"]
            5 340 ["quick"; "lean-protein"];
         mk "Black Bean and Rice Bowl"
            ["black beans"; "brown rice"; "salsa"]
            ["black beans"; "brown rice"; "salsa"; "corn"; "bell peppers";
             "cilantro"]
            12 360 ["vegetarian"; "fiber-rich"] ];
     weekday_dinner :=
       [ mk "Baked Salmon with Roasted Vegetables"
            ["salmon"; "broccoli"; "sweet potato"]
            ["salmon fillets"; "broccoli"; "sweet potato"; "olive oil";
             "lemon"; "herbs"]
            25 420 ["omega-3"; "one-pan"];
         mk "Grilled Chicken with Quinoa"
            ["chicken breast"; "quinoa"; "green beans"]
            ["chicken breast"; "quinoa"; "green beans"; "garlic";
             "olive oil"; "lemon"]
            20 380 ["lean-protein"; "complete"];
         mk "Turkey Meatballs with Zucchini Noodles"
            ["ground turkey"; "zucchini"; "marinara"]
            ["lean ground turkey"; "zucchini"; "marinara sauce"; "garlic";
             "italian herbs"]
            25 320 ["low-carb"; "lean"];
         mk "Sheet Pan Chicken Fajitas"
            ["chicken strips"; "bell peppers"; "onions"]
            ["chicken breast strips"; "bell peppers"; "onions";
             "fajita seasoning"; "olive oil"]
            20 320 ["one-pan"; "colorful"] ];
     weekend_breakfast :=
       [ mk "Buttermilk Pancakes with Turkey Sausage"
            ["flour"; "buttermilk"; "turkey sausage"]
            ["flour"; "buttermilk"; "eggs"; "butter"; "turkey sausage";
             "syrup"]
            25 480 ["comfort"; "weekend-special"];
         mk "Chicken and Waffles (Light)"
            ["chicken tenders"; "waffle mix"]
            ["chicken tenderloins"; "waffle mix"; "honey"; "hot sauce"]
            40 520 ["soul-food"; "special"];
         mk "Southern Breakfast Hash"
            ["potatoes"; "turkey sausage"; "eggs"]
            ["diced potatoes"; "turkey sausage"; "eggs"; "bell peppers";
             "onions"]
            30 450 ["hearty"; "one-pan"] ];
     weekend_dinner :=
       [ mk "Southern Fried Chicken with Mac and Cheese"
            ["chicken pieces"; "pasta"; "cheese"]
            ["chicken pieces"; "flour"; "buttermilk"; "elbow pasta";
             "cheddar cheese"]
            60 720 ["soul-food"; "comfort"];
         mk "BBQ Ribs with Collard Greens"
            ["pork ribs"; "collard greens"]
            ["pork ribs"; "bbq sauce"; "collard greens"; "smoked turkey";
             "onions"]
            180 650 ["soul-food"; "slow-cooked"];
         mk "Shrimp and Grits"
            ["shrimp"; "grits"; "bacon"]
            ["shrimp"; "stone-ground grits"; "bacon"; "bell peppers";
             "onions"]
            35 460 ["lowcountry"; "seafood"] ] |}.

(** The rotator keeps a reference to the preference manager, whose
    current state is passed in at each call, and its own database. *)
Record t := { expanded_recipes : RecipeDatabase }.

(** [__init__] *)
Definition init : t := {| expanded_recipes := _create_recipe_database |}.

(** The group chosen at the head of [get_smart_recommendations]. *)
Definition select_group (self : t) (meal_type day_type : string)
    : list Recipe :=
  if bool_decide (day_type = "weekend") then
    if bool_decide (meal_type = "breakfast") then
      weekend_breakfast (expanded_recipes self)
    else if bool_decide (meal_type = "dinner") then
      weekend_dinner (expanded_recipes self)
    else weekday_lunch (expanded_recipes self)
  else
    if bool_decide (meal_type = "breakfast") then
      weekday_breakfast (expanded_recipes self)
    else if bool_decide (meal_type = "lunch") then
      weekday_lunch (expanded_recipes self)
    else weekday_dinner (expanded_recipes self).

(** What a recipe must pass in the first loop. *)
Definition passes_first (prefs : Prefs.t) (r : Recipe) : bool :=
  if Prefs.recipe_contains_dislikes prefs r then false
  else if Prefs.recipe_is_banned prefs r then false
  else if Prefs.was_served_recently prefs r 2 then false
  else true.

(** The condition of the second loop. *)
Definition passes_second (prefs : Prefs.t) (r : Recipe) : bool :=
  negb (Prefs.recipe_contains_dislikes prefs r) &&
  negb (Prefs.recipe_is_banned prefs r) &&
  negb (Prefs.was_served_recently prefs r 1).

Definition first_pass (prefs : Prefs.t) (recipes : list Recipe)
    : list Recipe :=
  fold_left
    (λ filtered_recipes r,
       if passes_first prefs r then filtered_recipes ++ [r]
       else filtered_recipes)
    recipes [].

Definition second_pass (prefs : Prefs.t) (recipes : list Recipe)
    (filtered_recipes : list Recipe) : list Recipe :=
  fold_left
    (λ filtered_recipes r,
       if passes_second prefs r then
         if negb (py_in r filtered_recipes) then filtered_recipes ++ [r]
         else filtered_recipes
       else filtered_recipes)
    recipes filtered_recipes.

(** [filtered_recipes] as it stands after the two loops. *)
Definition filtered_pool (prefs : Prefs.t) (recipes : list Recipe)
    (count : Z) : list Recipe :=
  let filtered_recipes := first_pass prefs recipes in
  if len filtered_recipes <? count then
    second_pass prefs recipes filtered_recipes
  else filtered_recipes.

Definition is_favorite (prefs : Prefs.t) (r : Recipe) : bool :=
  py_in (title r) (Prefs.family_favorites (Prefs.preferences prefs)).

(** The loop over [non_favorites], with its [break]. *)
Fixpoint fill (count : Z) (result non_favorites : list Recipe)
    : list Recipe :=
  match non_favorites with
  | [] => result
  | r :: rest =>
      if len result >=? count then result
      else if negb (py_in r result) then fill count (result ++ [r]) rest
      else fill count result rest
  end.

Definition get_smart_recommendations (self : t) (prefs : Prefs.t)
    (g : Random.Rng) (meal_type day_type : string) (count : Z)
    : list Recipe * Random.Rng :=
  let recipes := select_group self meal_type day_type in
  let filtered_recipes := filtered_pool prefs recipes count in
  let favorites := filter (λ r, is_favorite prefs r = true) filtered_recipes in
  let non_favorites :=
    filter (λ r, is_favorite prefs r = false) filtered_recipes in
  let '(favorites, g) := Random.shuffle favorites g in
  let '(non_favorites, g) := Random.shuffle non_favorites g in
  let result := slice_to (Z.max 1 (count / 3)) favorites in
  let result := fill count result non_favorites in
  (slice_to count result, g).

(** The words of the specification, for the statements below: a recipe
    is banned when its title is on the never-suggest list, was served within
    the last 2 weeks when its title is among the 14 most recent entries of
    the history, and is compliant when it has no disliked ingredient and is
    neither. *)
Definition banned (prefs : Prefs.t) (r : Recipe) : Prop :=
  title r ∈ Prefs.never_suggest_again (Prefs.preferences prefs).

Definition served_within_2_weeks (prefs : Prefs.t) (r : Recipe) : Prop :=
  title r ∈ map Prefs.recipe
              (drop (length (Prefs.history prefs) - 14) (Prefs.history prefs)).

Definition compliant (prefs : Prefs.t) (r : Recipe) : Prop :=
  Prefs.recipe_contains_dislikes prefs r = false ∧
  ¬ banned prefs r ∧ ¬ served_within_2_weeks prefs r.

#[global] Instance compliant_dec (prefs : Prefs.t) (r : Recipe) :
  Decision (compliant prefs r).
Proof. unfold compliant, banned, served_within_2_weeks. apply _. Defined.

(** The favorites and the others of the pool that survives the two
    loops. *)
Definition pool_favorites (prefs : Prefs.t) (pool : list Recipe)
    : list Recipe :=
  filter (λ r, is_favorite prefs r = true) pool.

Definition pool_non_favorites (prefs : Prefs.t) (pool : list Recipe)
    : list Recipe :=
  filter (λ r, is_favorite prefs r = false) pool.

Definition get_recipes_by_day_type (self : t) (day_type meal : string)
    : list Recipe :=
  if bool_decide (day_type = "weekend") then
    if bool_decide (meal = "breakfast") then
      weekend_breakfast (expanded_recipes self)
    else if bool_decide (meal = "dinner") then
      weekend_dinner (expanded_recipes self)
    else weekday_lunch (expanded_recipes self)
  else
    if bool_decide (meal = "breakfast") then
      weekday_breakfast (expanded_recipes self)
    else if bool_decide (meal = "lunch") then
      weekday_lunch (expanded_recipes self)
    else if bool_decide (meal = "dinner") then
      weekday_dinner (expanded_recipes self)
    else [].

(** Served within the last week: the title is among the 7 most recent
    entries of the history. *)
Definition served_within_1_week (prefs : Prefs.t) (r : Recipe) : Prop :=
  title r ∈ map Prefs.recipe
              (drop (length (Prefs.history prefs) - 7) (Prefs.history prefs)).

(** What both loops ask of a recipe. *)
Definition acceptable (prefs : Prefs.t) (r : Recipe) : Prop :=
  Prefs.recipe_contains_dislikes prefs r = false ∧
  ¬ banned prefs r ∧ ¬ served_within_1_week prefs r.

End SmartMealRotator.

(** ** SaleBasedRecommendationEngine *)

Module SaleBasedRecommendationEngine.

Module Prefs := FamilyPreferencesManager.

(** [{"ingredient": ..., "sale_info": item}] *)
Record SaleMatch := { ingredient : string; sale_info : SaleItem }.

Record SaleMatches := {
  proteins : list SaleMatch;
  vegetables : list SaleMatch;
  pantry : list SaleMatch
}.

Definition protein_keywords : list string :=
  ["chicken"; "turkey"; "salmon"; "ground turkey"; "beef"; "pork"; "fish"].
Definition vegetable_keywords : list string :=
  ["broccoli"; "spinach"; "bell pepper"; "sweet potato"; "asparagus";
   "green beans"].
Definition pantry_keywords : list string :=
  ["rice"; "quinoa"; "pasta"; "beans"; "cheese"].

Definition _extract_protein_type (item_name : string) : string :=
  if contains "chicken breast" item_name || contains "chicken" item_name
  then "chicken breast"
  else if contains "ground turkey" item_name then "ground turkey"
  else if contains "salmon" item_name then "salmon"
  else if contains "turkey" item_name then "turkey"
  else if contains "beef" item_name then "ground beef"
  else if contains "pork" item_name then "pork"
  else "protein".

Definition veg_map : list (string * string) :=
  [("broccoli", "broccoli"); ("spinach", "spinach");
   ("bell pepper", "bell pepper"); ("sweet potato", "sweet potato");
   ("asparagus", "asparagus"); ("green beans", "green beans");
   ("carrots", "carrots"); ("onion", "onion")].

Fixpoint first_in_map (m : list (string * string)) (item_name : string)
    (default : string) : string :=
  match m with
  | [] => default
  | (veg, standard_name) :: m' =>
      if contains veg item_name then standard_name
      else first_in_map m' item_name default
  end.

Definition _extract_vegetable_type (item_name : string) : string :=
  first_in_map veg_map item_name "vegetables".

Definition _extract_pantry_type (item_name : string) : string :=
  if contains "rice" item_name then "rice"
  else if contains "quinoa" item_name then "quinoa"
  else if contains "cheese" item_name then "cheese"
  else if contains "pasta" item_name then "pasta"
  else if contains "beans" item_name then "beans"
  else "pantry item".

(** One turn of the loop over [sale_items]. *)
Definition classify (sale_matches : SaleMatches) (item : SaleItem)
    : SaleMatches :=
  let name := lower (name item) in
  if any (λ protein, contains protein name) protein_keywords then
    {| proteins := proteins sale_matches
                   ++ [ {| ingredient := _extract_protein_type name;
                           sale_info := item |} ];
       vegetables := vegetables sale_matches;
       pantry := pantry sale_matches |}
  else if any (λ veg, contains veg name) vegetable_keywords then
    {| proteins := proteins sale_matches;
       vegetables := vegetables sale_matches
                     ++ [ {| ingredient := _extract_vegetable_type name;
                             sale_info := item |} ];
       pantry := pantry sale_matches |}
  else if any (λ p, contains p name) pantry_keywords then
    {| proteins := proteins sale_matches;
       vegetables := vegetables sale_matches;
       pantry := pantry sale_matches
                 ++ [ {| ingredient := _extract_pantry_type name;
                         sale_info := item |} ] |}
  else sale_matches.

Definition get_sale_ingredient_matches (sale_items : list SaleItem)
    : SaleMatches :=
  fold_left classify sale_items
    {| proteins := []; vegetables := []; pantry := [] |}.

(** One entry of [sale_benefits]. *)
Record SaleBenefit := {
  type : string;
  benefit_ingredient : string;
  benefit_savings : Q;
  discount : Q
}.

(** The copy of a recipe with its three added keys. *)
Record ScoredRecipe := {
  base : Recipe;
  sale_score : Z;
  sale_benefits : list SaleBenefit;
  total_sale_savings : Q
}.

(** [any(m["ingredient"].lower() in ing for ing in recipe_ingredients)] *)
Definition on_sale_in (recipe_ingredients : list string) (m : SaleMatch)
    : bool :=
  any (λ ing, contains (lower (ingredient m)) ing) recipe_ingredients.

(** One of the three loops over a bucket, adding [points] per match. *)
Definition score_bucket (points : Z) (kind : string)
    (recipe_ingredients : list string) (bucket : list SaleMatch)
    (acc : Z * list SaleBenefit) : Z * list SaleBenefit :=
  fold_left
    (λ '(score, benefits) m,
       if on_sale_in recipe_ingredients m then
         (score + points,
          benefits ++ [ {| type := kind;
                           benefit_ingredient := ingredient m;
                           benefit_savings := savings (sale_info m);
                           discount := discount_percentage (sale_info m) |} ])
       else (score, benefits))
    bucket acc.

(** The body of the loop over [all_recipes]. *)
Definition score_recipe (sale_matches : SaleMatches) (r : Recipe)
    : ScoredRecipe :=
  let recipe_ingredients := map lower (all_ingredients r) in
  let acc := (0, []) in
  let acc := score_bucket 10 "protein" recipe_ingredients
               (proteins sale_matches) acc in
  let acc := score_bucket 5 "vegetable" recipe_ingredients
               (vegetables sale_matches) acc in
  let acc := score_bucket 3 "pantry" recipe_ingredients
               (pantry sale_matches) acc in
  {| base := r;
     sale_score := fst acc;
     sale_benefits := snd acc;
     total_sale_savings := Qsum (map benefit_savings (snd acc)) |}.

(** The sort key [(x["sale_score"], x["total_sale_savings"])] and the
    order of tuples on it. *)
Definition key (x : ScoredRecipe) : Z * Q :=
  (sale_score x, total_sale_savings x).

Definition key_lt (a b : Z * Q) : bool :=
  if negb (fst a =? fst b) then fst a <? fst b
  else Qltb (snd a) (snd b).

(** [l.sort(key=key, reverse=True)]: descending, and stable (elements
    with equal keys keep their order).  A stable sort has one possible
    output, so the insertion sort below computes the list the
    interpreter's sort leaves. *)
Fixpoint insert_desc (x : ScoredRecipe) (l : list ScoredRecipe)
    : list ScoredRecipe :=
  match l with
  | [] => [x]
  | y :: l' =>
      if key_lt (key x) (key y) then y :: insert_desc x l'
      else x :: y :: l'
  end.

Definition sort_desc (l : list ScoredRecipe) : list ScoredRecipe :=
  foldr insert_desc [] l.

(** Everything after the call of the rotator. *)
Definition rank (sale_matches : SaleMatches) (all_recipes : list Recipe)
    (count : Z) : list ScoredRecipe :=
  let scored_recipes := map (score_recipe sale_matches) all_recipes in
  slice_to count (sort_desc scored_recipes).

Definition get_sale_based_recommendations (rotator : SmartMealRotator.t)
    (prefs : Prefs.t) (g : Random.Rng) (sale_items : list SaleItem)
    (meal_type day_type : string) (count : Z)
    : list ScoredRecipe * Random.Rng :=
  let sale_matches := get_sale_ingredient_matches sale_items in
  let '(all_recipes, g) :=
    SmartMealRotator.get_smart_recommendations rotator prefs g
      meal_type day_type (count * 2) in
  (rank sale_matches all_recipes count, g).

(** An item's lower-cased name carries a keyword of one of the three
    lists: the test [classify] makes before it files the item. *)
Definition has_keyword (item : SaleItem) : bool :=
  any (λ k, contains k (lower (name item))) protein_keywords
  || any (λ k, contains k (lower (name item))) vegetable_keywords
  || any (λ k, contains k (lower (name item))) pantry_keywords.

Definition filed (m : SaleMatches) : list SaleMatch :=
  proteins m ++ vegetables m ++ pantry m.

(** A sale item as [extract_sale_items] derives it from the two prices
    (the rounding to cents and to tenths of a percent left out). *)
Definition sale_item (n : string) (regular sale : Q) (c : string)
    : SaleItem :=
  {| name := n; regular_price := regular; sale_price := sale;
     savings := regular - sale; category := c;
     discount_percentage := (regular - sale) / regular * 100 |}.

(** The words of the specification.  A sale entry matches a recipe when
    its (lower-cased) ingredient name is a substring of some (lower-cased)
    ingredient of the recipe's full list. *)
Definition matches (r : Recipe) (m : SaleMatch) : Prop :=
  Exists (λ ing, contains (lower (ingredient m)) (lower ing) = true)
         (all_ingredients r).

#[global] Instance matches_dec (r : Recipe) (m : SaleMatch) :
  Decision (matches r m).
Proof. unfold matches. apply _. Defined.

(** The entries of a bucket that match a recipe, in the bucket's order. *)
Definition matched (r : Recipe) (bucket : list SaleMatch) : list SaleMatch :=
  filter (matches r) bucket.

(** Descending order on (sale score, total savings), compared entry by
    entry: [a] may stand before [b]. *)
Definition ranks_before (a b : ScoredRecipe) : Prop :=
  sale_score b < sale_score a ∨
  (sale_score a = sale_score b ∧
   (total_sale_savings b <= total_sale_savings a)%Q).

(** The three tests of [classify], on an item. *)
Definition names_protein (item : SaleItem) : bool :=
  any (λ protein, contains protein (lower (name item))) protein_keywords.
Definition names_vegetable (item : SaleItem) : bool :=
  any (λ veg, contains veg (lower (name item))) vegetable_keywords.
Definition names_pantry (item : SaleItem) : bool :=
  any (λ p, contains p (lower (name item))) pantry_keywords.

(** Every entry of a bucket was filed by [classify]: its item passed the
    bucket's test and its label was extracted from the item's lower-cased
    name. *)
Definition filed_by_classify (sale_matches : SaleMatches) : Prop :=
  Forall (λ m, names_protein (sale_info m) = true ∧
               ingredient m
               = _extract_protein_type (lower (name (sale_info m))))
         (proteins sale_matches) ∧
  Forall (λ m, names_vegetable (sale_info m) = true ∧
               ingredient m
               = _extract_vegetable_type (lower (name (sale_info m))))
         (vegetables sale_matches) ∧
  Forall (λ m, names_pantry (sale_info m) = true ∧
               ingredient m
               = _extract_pantry_type (lower (name (sale_info m))))
         (pantry sale_matches).

(** The labels [_extract_protein_type] can give. *)
Definition protein_labels : list string :=
  ["chicken breast"; "ground turkey"; "salmon"; "turkey"; "ground beef";
   "pork"; "protein"].

(** A recipe as the engine returns it when nothing on sale matches it. *)
Definition unscored (r : Recipe) : ScoredRecipe :=
  {| base := r; sale_score := 0; sale_benefits := [];
     total_sale_savings := 0 |}.

(** Two scored recipes tie: the sort key does not tell them apart. *)
Definition ties_with (k : Z * Q) (x : ScoredRecipe) : Prop :=
  sale_score x = fst k ∧ (total_sale_savings x == snd k)%Q.

#[global] Instance ties_with_dec (k : Z * Q) (x : ScoredRecipe) :
  Decision (ties_with k x).
Proof.
  unfold ties_with.
  destruct (Qeq_dec (total_sale_savings x) (snd k));
    destruct (decide (sale_score x = fst k));
    [left | right | right | right]; tauto.
Defined.

End SaleBasedRecommendationEngine.

(** ** CalendarIntegrator *)

Module CalendarIntegrator.

(** A calendar event; [duration_hours] may be absent. *)
Record Event := { event_name : string; duration_hours : option Q }.

Record t := {
  calendar_events : gmap string (list Event);
  busy_day_threshold : Z
}.

(** [__init__] *)
Definition init : t :=
  {| calendar_events := ∅; busy_day_threshold := 6 |}.

Definition add_mock_events (self : t) (date_str : string)
    (events : list Event) : t :=
  {| calendar_events := <[date_str := events]> (calendar_events self);
     busy_day_threshold := busy_day_threshold self |}.

Record MealRecommendation := {
  meal_style : string;
  prep_style : string;
  message : string;
  prep_time : string
}.

Definition _get_meal_recommendation (is_busy : bool) (busy_hours : Q)
    : MealRecommendation :=
  if Qgeb busy_hours 8 then
    {| meal_style := "late_night_ready";
       prep_style := "slow_cooker_or_instant_pot";
       message := "Very busy day - use slow cooker or Instant Pot";
       prep_time := "Set up in morning (10 min max)" |}
  else if Qgeb busy_hours 6 then
    {| meal_style := "quick_and_easy";
       prep_style := "minimal_prep";
       message := "Busy day - keep meals simple and quick";
       prep_time := "20 minutes or less" |}
  else if Qgeb busy_hours 4 then
    {| meal_style := "normal_with_prep";
       prep_style := "some_prep_ok";
       message := "Moderate schedule - normal meals with some prep OK";
       prep_time := "30-45 minutes OK" |}
  else
    {| meal_style := "any_style";
       prep_style := "full_cooking_ok";
       message := "Light schedule - perfect day for cooking projects!";
       prep_time := "Any cooking time fine" |}.

Record DayAnalysis := {
  is_busy : bool;
  total_hours : Q;
  event_count : Z;
  events : list Event;
  recommendation : MealRecommendation
}.

Definition is_busy_day (self : t) (date_str : string) : DayAnalysis :=
  let events := default [] (calendar_events self !! date_str) in
  let event_count := len events in
  let total_busy_hours :=
    fold_left (λ total event, (total + default 1%Q (duration_hours event))%Q)
              events 0%Q in
  let is_busy :=
    Qgeb total_busy_hours (inject_Z (busy_day_threshold self))
    || (event_count >=? 4) in
  {| is_busy := is_busy;
     total_hours := total_busy_hours;
     event_count := event_count;
     events := events;
     recommendation := _get_meal_recommendation is_busy total_busy_hours |}.

(** A day of the weekly meal plan; [date] and [day_name] are read with
    [.get(key, "")]. *)
Record DayInfo := {
  date : option string;
  day_name : option string;
  is_weekend : bool;
  breakfast : string;
  lunch : string;
  dinner : string;
  late_night : bool;
  prep_needed : bool
}.

(** An entry of [busy_days] or [light_days]. *)
Record DayEntry := {
  day : string;
  entry_date : string;
  busy_hours : Q;
  entry_recommendation : MealRecommendation
}.

Record WeeklyRecommendations := {
  meal_prep_strategy : string;
  shopping_strategy : string;
  cooking_strategy : string;
  specific_suggestions : list string
}.

Record WeeklyAnalysis := {
  busy_days : list DayEntry;
  light_days : list DayEntry;
  best_prep_days : list string;
  late_night_needed : list string;
  cooking_project_days : list string;
  weekly_recommendations : option WeeklyRecommendations
}.

Definition _generate_weekly_recommendations (analysis : WeeklyAnalysis)
    : WeeklyRecommendations :=
  let busy_day_count := len (busy_days analysis) in
  let '(strategy, suggestions) :=
    if busy_day_count >=? 4 then
      ("Heavy prep recommended - prep 3-4 meals on Sunday",
       ["Sunday: 2-3 hours of meal prep";
        "Focus on slow cooker and one-pot meals"])
    else if busy_day_count >=? 2 then
      ("Moderate prep - focus on proteins and grains",
       ["Sunday: 1-2 hours protein and grain prep"])
    else
      ("Minimal prep needed - cook fresh most days",
       ["Light prep - just wash and chop vegetables"]) in
  let '(shopping, suggestions) :=
    match late_night_needed analysis with
    | [] => ("", suggestions)
    | _ => ("Buy slow cooker/Instant Pot ingredients",
            suggestions ++ ["Late night meals needed: " +:+
                            join ", " (late_night_needed analysis)])
    end in
  let '(cooking, suggestions) :=
    match cooking_project_days analysis with
    | [] => ("", suggestions)
    | _ => ("Perfect days for cooking projects: " +:+
            join ", " (cooking_project_days analysis),
            suggestions ++
            ["Try new recipes or make-ahead meals on light days"])
    end in
  {| meal_prep_strategy := strategy;
     shopping_strategy := shopping;
     cooking_strategy := cooking;
     specific_suggestions := suggestions |}.

(** One turn of the loop over [week_meal_plan.items()]. *)
Definition analyze_day (self : t) (weekly_analysis : WeeklyAnalysis)
    (item : string * DayInfo) : WeeklyAnalysis :=
  let day_info := snd item in
  let date_str := default "" (date day_info) in
  let day_name := default "" (day_name day_info) in
  let day_analysis := is_busy_day self date_str in
  let entry :=
    {| day := day_name; entry_date := date_str;
       busy_hours := total_hours day_analysis;
       entry_recommendation := recommendation day_analysis |} in
  if is_busy day_analysis then
    {| busy_days := busy_days weekly_analysis ++ [entry];
       light_days := light_days weekly_analysis;
       best_prep_days := best_prep_days weekly_analysis;
       late_night_needed :=
         if Qgeb (total_hours day_analysis) 8
         then late_night_needed weekly_analysis ++ [day_name]
         else late_night_needed weekly_analysis;
       cooking_project_days := cooking_project_days weekly_analysis;
       weekly_recommendations := weekly_recommendations weekly_analysis |}
  else
    {| busy_days := busy_days weekly_analysis;
       light_days := light_days weekly_analysis ++ [entry];
       best_prep_days :=
         if py_in day_name ["Sunday"; "Saturday"]
         then best_prep_days weekly_analysis ++ [day_name]
         else best_prep_days weekly_analysis;
       late_night_needed := late_night_needed weekly_analysis;
       cooking_project_days :=
         if py_in day_name ["Sunday"; "Saturday"]
         then cooking_project_days weekly_analysis
         else if Qltb (total_hours day_analysis) 2
         then cooking_project_days weekly_analysis ++ [day_name]
         else cooking_project_days weekly_analysis;
       weekly_recommendations := weekly_recommendations weekly_analysis |}.

(** The weekly plan is a [dict] read in insertion order: a list of
    [(day_key, day_info)] pairs. *)
Definition analyze_weekly_schedule (self : t)
    (week_meal_plan : list (string * DayInfo)) : WeeklyAnalysis :=
  let weekly_analysis :=
    fold_left (analyze_day self) week_meal_plan
      {| busy_days := []; light_days := []; best_prep_days := [];
         late_night_needed := []; cooking_project_days := [];
         weekly_recommendations := None |} in
  {| busy_days := busy_days weekly_analysis;
     light_days := light_days weekly_analysis;
     best_prep_days := best_prep_days weekly_analysis;
     late_night_needed := late_night_needed weekly_analysis;
     cooking_project_days := cooking_project_days weekly_analysis;
     weekly_recommendations :=
       Some (_generate_weekly_recommendations weekly_analysis) |}.

(** A day of the plan as the application first fills it in: no meal
    chosen, no flag set. *)
Definition plan_day (date_str name : string) : DayInfo :=
  {| date := Some date_str;
     day_name := Some name;
     is_weekend := py_in name ["Saturday"; "Sunday"];
     breakfast := ""; lunch := ""; dinner := "";
     late_night := false; prep_needed := false |}.

(** What the loop of [analyze_weekly_schedule] reads of a day of the
    plan: its name, its date, and the analysis of that date. *)
Definition name_of (item : string * DayInfo) : string :=
  default "" (day_name (snd item)).
Definition date_of (item : string * DayInfo) : string :=
  default "" (date (snd item)).
Definition busy_on (self : t) (item : string * DayInfo) : bool :=
  is_busy (is_busy_day self (date_of item)).
Definition hours_on (self : t) (item : string * DayInfo) : Q :=
  total_hours (is_busy_day self (date_of item)).
Definition weekend_named (item : string * DayInfo) : bool :=
  py_in (name_of item) ["Sunday"; "Saturday"].

(** The hours of a list of events: an event without [duration_hours]
    counts for one hour. *)
Definition hours_of (events : list Event) : Q :=
  fold_left (λ total event, (total + default 1%Q (duration_hours event))%Q)
            events 0%Q.

(** The entry the loop appends for a day of the plan. *)
Definition entry_of (self : t) (item : string * DayInfo) : DayEntry :=
  {| day := name_of item;
     entry_date := date_of item;
     busy_hours := hours_on self item;
     entry_recommendation := recommendation (is_busy_day self (date_of item)) |}.

End CalendarIntegrator.

(** ** MealPrepScheduler *)

Module MealPrepScheduler.

Module Cal := CalendarIntegrator.

(** An entry of [prep_tasks]. *)
Record PrepTaskInfo := {
  info_time_minutes : Z;
  keeps_days : Z;
  examples : list string
}.

Record PrepTasks := {
  tasks_proteins : PrepTaskInfo;
  tasks_vegetables : PrepTaskInfo;
  tasks_grains : PrepTaskInfo;
  tasks_sauces_dressings : PrepTaskInfo
}.

(** A scheduled task; only the mid-week tasks carry a [day]. *)
Record Task := {
  category : string;
  task : string;
  time_minutes : Z;
  day : option string;
  keeps_until : string
}.

(** An entry of [daily_tasks]. *)
Record DailyTask := {
  morning : list string;
  evening : list string;
  prep_type : string
}.

Record IngredientsByCategory := {
  proteins : list string;
  vegetables : list string;
  grains : list string;
  sauces_dressings : list string;
  other : list string
}.

(** The plan [analyze_week_schedule] returns, and the schedule
    [create_prep_schedule] makes of it: the same keys. *)
Record PrepPlan := {
  sunday_prep : list Task;
  mid_week_prep : list Task;
  daily_tasks : gmap string DailyTask;
  total_prep_time : Z;
  ingredients_by_category : IngredientsByCategory
}.

Record t := { prep_tasks : PrepTasks }.

(** [__init__] (the attribute [weekly_prep_plan], which no method reads,
    is left out). *)
Definition init : t :=
  {| prep_tasks :=
       {| tasks_proteins :=
            {| info_time_minutes := 30; keeps_days := 3;
               examples := ["Cook chicken breast"; "Brown ground turkey";
                            "Season salmon"] |};
          tasks_vegetables :=
            {| info_time_minutes := 20; keeps_days := 4;
               examples := ["Chop bell peppers"; "Steam broccoli";
                            "Roast sweet potatoes"] |};
          tasks_grains :=
            {| info_time_minutes := 25; keeps_days := 5;
               examples := ["Cook quinoa"; "Prepare brown rice";
                            "Cook pasta"] |};
          tasks_sauces_dressings :=
            {| info_time_minutes := 15; keeps_days := 7;
               examples := ["Make marinara"; "Prep salad dressing";
                            "Mix seasonings"] |} |} |}.

Definition protein_words : list string :=
  ["chicken"; "turkey"; "salmon"; "beef"; "pork"; "fish"; "eggs"].
Definition vegetable_words : list string :=
  ["broccoli"; "spinach"; "bell pepper"; "sweet potato"; "asparagus";
   "carrots"; "onion"; "lettuce"].
Definition grain_words : list string :=
  ["rice"; "quinoa"; "pasta"; "bread"; "potato"].
Definition sauce_words : list string :=
  ["sauce"; "dressing"; "marinade"; "seasoning"].

Definition categorize_ingredient (self : t) (ingredient : string) : string :=
  let ingredient_lower := lower ingredient in
  if any (λ protein, contains protein ingredient_lower) protein_words then
    "proteins"
  else if any (λ veg, contains veg ingredient_lower) vegetable_words then
    "vegetables"
  else if any (λ grain, contains grain ingredient_lower) grain_words then
    "grains"
  else if any (λ sauce, contains sauce ingredient_lower) sauce_words then
    "sauces_dressings"
  else "other".

Definition _get_basic_ingredients_for_meal (self : t) (meal_name : string)
    : list string :=
  let meal_lower := lower meal_name in
  if contains "chicken" meal_lower then
    ["chicken breast"; "olive oil"; "seasonings"; "vegetables"]
  else if contains "salmon" meal_lower then
    ["salmon"; "lemon"; "asparagus"; "olive oil"]
  else if contains "turkey" meal_lower && contains "meatball" meal_lower then
    ["ground turkey"; "marinara sauce"; "pasta"; "herbs"]
  else if contains "quinoa" meal_lower then
    ["quinoa"; "vegetables"; "dressing"]
  else if contains "scramble" meal_lower then
    ["eggs"; "turkey sausage"; "bell pepper"; "spinach"]
  else ["protein"; "vegetables"; "seasonings"].

(** [prep_plan["ingredients_by_category"][category].append(ingredient)];
    the callers pass one of the four keys that are not ["other"]. *)
Definition append_to_category (c : IngredientsByCategory)
    (category ingredient : string) : IngredientsByCategory :=
  if bool_decide (category = "proteins") then
    {| proteins := proteins c ++ [ingredient]; vegetables := vegetables c;
       grains := grains c; sauces_dressings := sauces_dressings c;
       other := other c |}
  else if bool_decide (category = "vegetables") then
    {| proteins := proteins c; vegetables := vegetables c ++ [ingredient];
       grains := grains c; sauces_dressings := sauces_dressings c;
       other := other c |}
  else if bool_decide (category = "grains") then
    {| proteins := proteins c; vegetables := vegetables c;
       grains := grains c ++ [ingredient];
       sauces_dressings := sauces_dressings c; other := other c |}
  else if bool_decide (category = "sauces_dressings") then
    {| proteins := proteins c; vegetables := vegetables c;
       grains := grains c;
       sauces_dressings := sauces_dressings c ++ [ingredient];
       other := other c |}
  else
    {| proteins := proteins c; vegetables := vegetables c;
       grains := grains c; sauces_dressings := sauces_dressings c;
       other := other c ++ [ingredient] |}.

(** What the first loop carries: [all_ingredients], [late_night_days] and
    [prep_plan["daily_tasks"]]. *)
Record Gathered := {
  all_ingredients : list string;
  late_night_days : list string;
  gathered_tasks : gmap string DailyTask
}.

(** The inner loop over the three meals of a day. *)
Definition meals_of (day_info : Cal.DayInfo) : list string :=
  [Cal.breakfast day_info; Cal.lunch day_info; Cal.dinner day_info].

Definition gather_meal (self : t) (all_ingredients : list string)
    (meal : string) : list string :=
  if bool_decide (meal ≠ "") then
    all_ingredients ++ _get_basic_ingredients_for_meal self meal
  else all_ingredients.

(** One turn of the loop over [week_meal_plan.items()]. *)
Definition gather_day (self : t) (acc : Gathered)
    (item : string * Cal.DayInfo) : Gathered :=
  let day_info := snd item in
  let day_name := default "Unknown" (Cal.day_name day_info) in
  let '(late, tasks) :=
    if Cal.late_night day_info then
      (late_night_days acc ++ [day_name],
       <[day_name :=
           {| morning := ["Set up slow cooker or prep Instant Pot meal"];
              evening := ["Meal ready when you arrive home"];
              prep_type := "late_night" |}]> (gathered_tasks acc))
    else (late_night_days acc, gathered_tasks acc) in
  {| all_ingredients :=
       fold_left (gather_meal self) (meals_of day_info) (all_ingredients acc);
     late_night_days := late;
     gathered_tasks := tasks |}.

(** One turn of the loop over [set(all_ingredients)]. *)
Definition file_ingredient (self : t) (c : IngredientsByCategory)
    (ingredient : string) : IngredientsByCategory :=
  let category := categorize_ingredient self ingredient in
  if bool_decide (category ≠ "other") then
    append_to_category c category ingredient
  else c.

(** [set_iter] stands for the order in which the interpreter walks
    [set(all_ingredients)]: some list of the distinct elements.  The order
    depends on the hashes of the strings; the properties below hold for
    every such order. *)
Definition analyze_week_schedule (self : t)
    (set_iter : list string → list string)
    (week_meal_plan : list (string * Cal.DayInfo)) : PrepPlan :=
  let gathered :=
    fold_left (gather_day self) week_meal_plan
      {| all_ingredients := []; late_night_days := [];
         gathered_tasks := ∅ |} in
  {| sunday_prep := [];
     mid_week_prep := [];
     daily_tasks := gathered_tasks gathered;
     total_prep_time := 0;
     ingredients_by_category :=
       fold_left (file_ingredient self) (set_iter (all_ingredients gathered))
         {| proteins := []; vegetables := []; grains := [];
            sauces_dressings := []; other := [] |} |}.

(** [sum(task["time_minutes"] for task in tasks)] *)
Definition sum_minutes (tasks : list Task) : Z :=
  fold_left (λ total task, total + time_minutes task) tasks 0.

(** [schedule = prep_plan.copy()] is a shallow copy: the list under
    ["mid_week_prep"] is shared with the argument, so the [append] to it is
    seen through both.  The call returns the schedule, and the argument as
    the call leaves it. *)
Definition create_prep_schedule (self : t) (prep_plan : PrepPlan)
    : PrepPlan * PrepPlan :=
  let c := ingredients_by_category prep_plan in
  let sunday_tasks := [] in
  let total_sunday_time := 0 in
  let '(sunday_tasks, total_sunday_time) :=
    match proteins c with
    | [] => (sunday_tasks, total_sunday_time)
    | _ =>
        let task_time := info_time_minutes (tasks_proteins (prep_tasks self)) in
        (sunday_tasks ++
         [ {| category := "proteins";
              task := "Prep proteins: " +:+ join ", " (slice_to 3 (proteins c));
              time_minutes := task_time;
              day := None;
              keeps_until := "Wednesday" |} ],
         total_sunday_time + task_time)
    end in
  let '(sunday_tasks, total_sunday_time) :=
    match grains c with
    | [] => (sunday_tasks, total_sunday_time)
    | _ =>
        let task_time := info_time_minutes (tasks_grains (prep_tasks self)) in
        (sunday_tasks ++
         [ {| category := "grains";
              task := "Cook grains: " +:+ join ", " (slice_to 2 (grains c));
              time_minutes := task_time;
              day := None;
              keeps_until := "Friday" |} ],
         total_sunday_time + task_time)
    end in
  let '(sunday_tasks, total_sunday_time, mid_week) :=
    match vegetables c with
    | [] => (sunday_tasks, total_sunday_time, mid_week_prep prep_plan)
    | _ =>
        let veg_task_time :=
          info_time_minutes (tasks_vegetables (prep_tasks self)) in
        let sunday_veggies :=
          slice_to (len (vegetables c) / 2) (vegetables c) in
        let midweek_veggies :=
          slice_from (len (vegetables c) / 2) (vegetables c) in
        let '(sunday_tasks, total_sunday_time) :=
          match sunday_veggies with
          | [] => (sunday_tasks, total_sunday_time)
          | _ =>
              (sunday_tasks ++
               [ {| category := "vegetables";
                    task := "Prep vegetables: " +:+ join ", " sunday_veggies;
                    time_minutes := veg_task_time / 2;
                    day := None;
                    keeps_until := "Wednesday" |} ],
               total_sunday_time + veg_task_time / 2)
          end in
        let mid_week :=
          match midweek_veggies with
          | [] => mid_week_prep prep_plan
          | _ =>
              mid_week_prep prep_plan ++
              [ {| category := "vegetables";
                   task := "Fresh vegetables: " +:+ join ", " midweek_veggies;
                   time_minutes := veg_task_time / 2;
                   day := Some "Wednesday";
                   keeps_until := "Saturday" |} ]
          end in
        (sunday_tasks, total_sunday_time, mid_week)
    end in
  ({| sunday_prep := sunday_tasks;
      mid_week_prep := mid_week;
      daily_tasks := daily_tasks prep_plan;
      total_prep_time := total_sunday_time + sum_minutes mid_week;
      ingredients_by_category := c |},
   {| sunday_prep := sunday_prep prep_plan;
      mid_week_prep := mid_week;
      daily_tasks := daily_tasks prep_plan;
      total_prep_time := total_prep_time prep_plan;
      ingredients_by_category := c |}).

(** An order of [set(...)] for the examples: first occurrences. *)
Definition first_seen (l : list string) : list string := remove_dups l.

(** The ingredients a meal slot contributes: none when it is empty. *)
Definition meal_ingredients (self : t) (meal : string) : list string :=
  if bool_decide (meal ≠ "") then _get_basic_ingredients_for_meal self meal
  else [].

(** All the ingredients of the meals of a plan, day by day and meal by
    meal, repeats included. *)
Definition planned_ingredients (self : t)
    (week_meal_plan : list (string * Cal.DayInfo)) : list string :=
  flat_map (λ item, flat_map (meal_ingredients self) (meals_of (snd item)))
           week_meal_plan.

(** What is known of the order of a set: each element once. *)
Definition walks_set (set_iter : list string → list string) : Prop :=
  ∀ l, NoDup (set_iter l) ∧ ∀ x, x ∈ set_iter l ↔ x ∈ l.

(** The entry of [daily_tasks] for a late-night day. *)
Definition late_night_task : DailyTask :=
  {| morning := ["Set up slow cooker or prep Instant Pot meal"];
     evening := ["Meal ready when you arrive home"];
     prep_type := "late_night" |}.

(** The name under which [analyze_week_schedule] files a day. *)
Definition prep_name_of (item : string * Cal.DayInfo) : string :=
  default "Unknown" (Cal.day_name (snd item)).

(** A meal that brings the default ingredients: it names none of the five
    dishes [_get_basic_ingredients_for_meal] knows. *)
Definition plain_meal (meal : string) : Prop :=
  contains "chicken" (lower meal) = false ∧
  contains "salmon" (lower meal) = false ∧
  contains "turkey" (lower meal) && contains "meatball" (lower meal) = false ∧
  contains "quinoa" (lower meal) = false ∧
  contains "scramble" (lower meal) = false.


(** The mid-week task [create_prep_schedule] appends when a vegetable is
    planned. *)
Definition midweek_task (self : t) (c : IngredientsByCategory) : Task :=
  {| category := "vegetables";
     task := "Fresh vegetables: " +:+
             join ", " (slice_from (len (vegetables c) / 2) (vegetables c));
     time_minutes := info_time_minutes (tasks_vegetables (prep_tasks self)) / 2;
     day := Some "Wednesday";
     keeps_until := "Saturday" |}.

End MealPrepScheduler.

(** * Properties *)

(** ** Numbers *)

Lemma Qltb_lt (a b : Q) : Qltb a b = true ↔ (a < b)%Q.
Proof.
  unfold Qltb. rewrite Qlt_alt. destruct (a ?= b)%Q; split; congruence.
Qed.

Lemma Qltb_ge (a b : Q) : Qltb a b = false ↔ (b <= a)%Q.
Proof.
  rewrite <- not_true_iff_false, Qltb_lt. split.
  - apply Qnot_lt_le.
  - apply Qle_not_lt.
Qed.

Lemma Qgeb_ge (a b : Q) : Qgeb a b = true ↔ (b <= a)%Q.
Proof. unfold Qgeb. rewrite negb_true_iff. apply Qltb_ge. Qed.

Lemma Qgeb_lt (a b : Q) : Qgeb a b = false ↔ (a < b)%Q.
Proof. unfold Qgeb. rewrite negb_false_iff. apply Qltb_lt. Qed.

(** Settles the tests of a chain of bands from the bounds at hand: a
    test [d >= n] holds under [n <= d], and fails under [d < m] for any
    [m <= n]. *)
Ltac settle_bands :=
  repeat match goal with
  | H : _ ∧ _ |- _ => destruct H
  | H : (?n <= ?d)%Q |- context [Qgeb ?d ?n] =>
      rewrite (proj2 (Qgeb_ge d n) H)
  | H : (?d < ?m)%Q |- context [Qgeb ?d ?n] =>
      rewrite (proj2 (Qgeb_lt d n)
                 (Qlt_le_trans d m n H
                    ltac:(apply Qle_bool_imp_le; reflexivity)))
  end.

(** ** Purchase timing *)

Section PurchaseTiming.
Import PurchaseTimingAnalyzer.

(** C4.  For every discount percentage [d], [get_recommendation] answers
    by the first band, from the highest, whose inclusive lower bound [d]
    reaches: 25 and above is "buy now & stock up" with high confidence,
    15 and above "buy for this week" with medium confidence, 8 and above
    "consider if needed" with medium confidence, anything lower "wait for
    better deal" with low confidence.  So 25.0 buys now, 24.9 buys for the
    week, 8.0 considers and 7.9 waits. *)
Theorem get_recommendation_bands (item_name : string) (d : Q) :
  let r := get_recommendation init item_name d in
  ((25 <= d)%Q →
     action r = "🛒 Buy Now & Stock Up" ∧ confidence r = "High") ∧
  ((15 <= d)%Q ∧ (d < 25)%Q →
     action r = "🛒 Buy for This Week" ∧ confidence r = "Medium") ∧
  ((8 <= d)%Q ∧ (d < 15)%Q →
     action r = "🤔 Consider If Needed" ∧ confidence r = "Medium") ∧
  ((d < 8)%Q →
     action r = "⏰ Wait for Better Deal" ∧ confidence r = "Low") ∧
  action (get_recommendation init item_name 25) = "🛒 Buy Now & Stock Up" ∧
  action (get_recommendation init item_name (249 # 10))
    = "🛒 Buy for This Week" ∧
  action (get_recommendation init item_name 8) = "🤔 Consider If Needed" ∧
  action (get_recommendation init item_name (79 # 10))
    = "⏰ Wait for Better Deal".
Proof.
  cbv zeta. unfold get_recommendation, init.
  cbn [buy_thresholds_excellent buy_thresholds_good buy_thresholds_modest].
  change (inject_Z 25) with 25%Q. change (inject_Z 15) with 15%Q.
  change (inject_Z 8) with 8%Q.
  repeat split; intros; settle_bands; reflexivity.
Qed.

(** [analyze_weekly_savings] raises on no list at all: past the empty
    list the divisor is a positive length. *)
Lemma analyze_weekly_savings_total (sale_items : list SaleItem) :
  ∃ r, analyze_weekly_savings init sale_items = Ok r.
Proof.
  unfold analyze_weekly_savings.
  destruct sale_items as [|item rest]; [eauto|].
  unfold truediv, len. cbn [length].
  destruct (Z.eqb_spec (Z.of_nat (S (length rest))) 0); [lia | eauto].
Qed.

(** C9.  On the empty list of sale items [analyze_weekly_savings] does
    not fail: the division by the length of the list is not evaluated, and
    the result is total savings 0, no high-value item, average discount 0
    and the message of a light sales week.  On no list does the call raise
    [ZeroDivisionError]. *)
Theorem analyze_weekly_savings_empty :
  analyze_weekly_savings init [] =
    Ok {| total_possible_savings := 0;
          high_value_count := 0;
          average_discount := 0;
          recommendation :=
            "Light sales week. Good time to use up what you have at home." |} ∧
  ∀ sale_items, analyze_weekly_savings init sale_items
                ≠ Raise ZeroDivisionError.
Proof.
  split; [reflexivity|].
  intros sale_items.
  destruct (analyze_weekly_savings_total sale_items) as [r ->].
  discriminate.
Qed.

End PurchaseTiming.


(** ** Python lists *)

Lemma py_in_true {A} `{EqDecision A} (x : A) (l : list A) :
  py_in x l = true ↔ x ∈ l.
Proof. unfold py_in. apply bool_decide_eq_true. Qed.

Lemma py_in_false {A} `{EqDecision A} (x : A) (l : list A) :
  py_in x l = false ↔ x ∉ l.
Proof. unfold py_in. apply bool_decide_eq_false. Qed.

Lemma elem_of_remove_first {A} `{EqDecision A} (x y : A) (l : list A) :
  y ∈ remove_first x l → y ∈ l.
Proof.
  induction l as [|z l IH]; cbn; [done|].
  destruct (decide (x = z)) as [->|Hne].
  - intros Hy. rewrite elem_of_cons. now right.
  - rewrite !elem_of_cons. intros [->|Hy]; [now left | right; auto].
Qed.

Lemma elem_of_remove_first_ne {A} `{EqDecision A} (x y : A) (l : list A) :
  y ≠ x → y ∈ l → y ∈ remove_first x l.
Proof.
  intros Hne. induction l as [|z l IH]; cbn; [done|].
  rewrite elem_of_cons. destruct (decide (x = z)) as [->|Hxz].
  - intros [->|Hy]; [done | exact Hy].
  - rewrite elem_of_cons. intros [->|Hy]; [now left | right; auto].
Qed.

Lemma NoDup_remove_first {A} `{EqDecision A} (x : A) (l : list A) :
  NoDup l → NoDup (remove_first x l) ∧ x ∉ remove_first x l.
Proof.
  induction 1 as [|z l Hz Hl IH]; cbn.
  - split; [constructor | apply not_elem_of_nil].
  - destruct (decide (x = z)) as [->|Hne]; [done|].
    destruct IH as [IH1 IH2]. split.
    + constructor; [|exact IH1].
      intros Hin. apply Hz. eapply elem_of_remove_first, Hin.
    + rewrite elem_of_cons. intros [?|?]; [done|auto].
Qed.

Lemma NoDup_snoc {A} (x : A) (l : list A) :
  NoDup l → x ∉ l → NoDup (l ++ [x]).
Proof.
  intros Hl Hx. apply NoDup_app. repeat split; [exact Hl | | apply NoDup_singleton].
  intros y Hy Hy'. apply list_elem_of_singleton in Hy'. now subst.
Qed.

(** ** Preferences *)

Section Preferences.
Import FamilyPreferencesManager.

Lemma exclusive_init : exclusive init.
Proof.
  repeat split; try constructor. intros x Hx. now apply not_elem_of_nil in Hx.
Qed.

Lemma add_dislike_spec (self : t) (x : string) :
  exclusive self →
  let n := strip (lower x) in
  exclusive (add_dislike self x) ∧
  n ∈ dislikes (add_dislike self x) ∧ n ∉ loves (add_dislike self x).
Proof.
  intros (Hd & Hl & Hdl) n. unfold add_dislike. fold n.
  fold (dislikes self) (loves self).
  destruct (py_in n (dislikes self)) eqn:Ein; cbn [negb].
  - apply py_in_true in Ein. repeat split; auto.
  - apply py_in_false in Ein.
    destruct (py_in n (loves self)) eqn:El.
    + destruct (NoDup_remove_first n (loves self) Hl) as [Hl' Hn].
      unfold exclusive, dislikes, loves, set_disliked_loved; cbn.
      repeat split; auto.
      * now apply NoDup_snoc.
      * intros y Hy Hy'. apply elem_of_app in Hy as [Hy|Hy].
        -- apply (Hdl y Hy). eapply elem_of_remove_first, Hy'.
        -- apply list_elem_of_singleton in Hy. now subst.
      * apply elem_of_app. right. now apply list_elem_of_singleton.
    + apply py_in_false in El.
      unfold exclusive, dislikes, loves, set_disliked_loved; cbn.
      repeat split; auto.
      * now apply NoDup_snoc.
      * intros y Hy Hy'. apply elem_of_app in Hy as [Hy|Hy].
        -- now apply (Hdl y Hy).
        -- apply list_elem_of_singleton in Hy. now subst.
      * apply elem_of_app. right. now apply list_elem_of_singleton.
Qed.

Lemma add_love_spec (self : t) (x : string) :
  exclusive self →
  let n := strip (lower x) in
  exclusive (add_love self x) ∧
  n ∈ loves (add_love self x) ∧ n ∉ dislikes (add_love self x).
Proof.
  intros (Hd & Hl & Hdl) n. unfold add_love. fold n.
  fold (dislikes self) (loves self).
  destruct (py_in n (loves self)) eqn:Ein; cbn [negb].
  - apply py_in_true in Ein. repeat split; auto.
    intros Hn. now apply (Hdl n Hn).
  - apply py_in_false in Ein.
    destruct (py_in n (dislikes self)) eqn:Ed.
    + destruct (NoDup_remove_first n (dislikes self) Hd) as [Hd' Hn].
      unfold exclusive, dislikes, loves, set_disliked_loved; cbn.
      repeat split; auto.
      * now apply NoDup_snoc.
      * intros y Hy Hy'. apply elem_of_app in Hy' as [Hy'|Hy'].
        -- apply (Hdl y); [eapply elem_of_remove_first, Hy | exact Hy'].
        -- apply list_elem_of_singleton in Hy'. now subst.
      * apply elem_of_app. right. now apply list_elem_of_singleton.
    + apply py_in_false in Ed.
      unfold exclusive, dislikes, loves, set_disliked_loved; cbn.
      repeat split; auto.
      * now apply NoDup_snoc.
      * intros y Hy Hy'. apply elem_of_app in Hy' as [Hy'|Hy'].
        -- now apply (Hdl y Hy).
        -- apply list_elem_of_singleton in Hy'. now subst.
      * apply elem_of_app. right. now apply list_elem_of_singleton.
Qed.

Lemma exclusive_calls (cs : list Call) (self : t) :
  exclusive self → exclusive (calls cs self).
Proof.
  revert self. induction cs as [|c cs IH]; intros self Hs; [exact Hs|].
  cbn. apply IH. destruct c; cbn.
  - now apply add_dislike_spec.
  - now apply add_love_spec.
Qed.

(** C2.  From the initial, empty preferences, after any sequence of
    [add_dislike] and [add_love] calls with any strings, no ingredient is in
    both [disliked_ingredients] and [loved_ingredients]; a further
    [add_dislike(x)] leaves the lower-cased, stripped [x] among the dislikes
    and out of the loves, and a further [add_love(x)] leaves it among the
    loves and out of the dislikes. *)
Theorem dislikes_loves_exclusive (cs : list Call) :
  let self := calls cs init in
  (∀ x, ¬ (x ∈ dislikes self ∧ x ∈ loves self)) ∧
  (∀ x, strip (lower x) ∈ dislikes (add_dislike self x) ∧
        strip (lower x) ∉ loves (add_dislike self x)) ∧
  (∀ x, strip (lower x) ∈ loves (add_love self x) ∧
        strip (lower x) ∉ dislikes (add_love self x)).
Proof.
  cbv zeta. pose proof (exclusive_calls cs init exclusive_init) as Hex.
  split; [|split].
  - intros x [Hd Hl]. destruct Hex as (_ & _ & Hdl). now apply (Hdl x).
  - intros x. now apply add_dislike_spec.
  - intros x. now apply add_love_spec.
Qed.

Lemma log_meal_history (self : t) (title date : string) (all : list Meal) :
  history self = drop (length all - 28) all →
  history (log_meal self title date)
  = drop (length (all ++ [ {| recipe := title; date := date |} ]) - 28)
         (all ++ [ {| recipe := title; date := date |} ]).
Proof.
  intros Hh. unfold log_meal. fold (history self). rewrite Hh.
  set (m := {| recipe := title; date := date |}).
  rewrite length_app. cbn [length].
  unfold len. rewrite length_app, length_drop. cbn [length].
  destruct (Z.gtb_spec (Z.of_nat (length all - (length all - 28) + 1)) 28)
    as [Hgt|Hle]; unfold history, set_last_4_weeks; cbn.
  - unfold slice_from. cbn.
    rewrite length_app, length_drop. cbn [length].
    rewrite drop_app_le by (rewrite length_drop; lia).
    rewrite drop_drop.
    rewrite drop_app_le by lia.
    f_equal. f_equal. lia.
  - replace (length all - 28)%nat with 0%nat by lia.
    replace (length all + 1 - 28)%nat with 0%nat by lia.
    reflexivity.
Qed.

(** C7.  From the initial, empty history, after any sequence of
    [log_meal(title, date)] calls the history holds at most 28 entries, and
    they are the last 28 of the logged (title, date) pairs (all of them when
    fewer were logged), in the order of logging: the oldest entries are the
    ones dropped. *)
Theorem meal_history_last_28 (ms : list (string * string)) :
  let h := history (log_meals ms init) in
  (length h ≤ 28)%nat ∧
  h = drop (length ms - 28) (map to_meal ms).
Proof.
  cbv zeta.
  assert (H : history (log_meals ms init)
              = drop (length (map to_meal ms) - 28) (map to_meal ms)).
  { induction ms as [|m ms IH] using rev_ind; [reflexivity|].
    unfold log_meals. rewrite fold_left_app. cbn [fold_left].
    fold (log_meals ms init). rewrite map_app. cbn [map].
    now apply log_meal_history. }
  rewrite length_map in H. split; [|exact H].
  rewrite H, length_drop, length_map. lia.
Qed.

End Preferences.

(** ** Strings *)

Lemma prefix_iff (n h : string) :
  String.prefix n h = true ↔ ∃ post, h = n +:+ post.
Proof.
  revert h. induction n as [|a n IH]; intros h.
  - destruct h; cbn; split; eauto.
  - destruct h as [|b h]; cbn.
    + split; [done | intros [post Hp]; discriminate].
    + destruct (Ascii.ascii_dec a b) as [->|Hne].
      * rewrite IH. split; intros [post Hp].
        -- exists post. now rewrite Hp.
        -- exists post. cbn in Hp. now injection Hp.
      * split; [done | intros [post Hp]; cbn in Hp; injection Hp as Hb _; congruence].
Qed.

(** [contains] is the substring test: [needle in hay] holds exactly when
    [hay] is some text, then [needle], then some text. *)
Lemma contains_iff (n h : string) :
  contains n h = true ↔ ∃ pre post, h = pre +:+ n +:+ post.
Proof.
  induction h as [|b h IH]; cbn [contains].
  - rewrite orb_false_r, prefix_iff. split.
    + intros [post Hp]. now exists "", post.
    + intros (pre & post & Hp). destruct pre; [now exists post | discriminate].
  - rewrite orb_true_iff, prefix_iff, IH. split.
    + intros [[post Hp] | (pre & post & Hp)].
      * now exists "", post.
      * exists (String b pre), post. cbn. now rewrite Hp.
    + intros (pre & post & Hp). destruct pre as [|c pre]; cbn in Hp.
      * left. now exists post.
      * right. exists pre, post. now injection Hp.
Qed.

Lemma lower_char_idemp (c : ascii) : lower_char (lower_char c) = lower_char c.
Proof. destruct c as [[] [] [] [] [] [] [] []]; reflexivity. Qed.

Lemma lower_idemp (s : string) : lower (lower s) = lower s.
Proof.
  induction s as [|c s IH]; cbn; [done|]. now rewrite lower_char_idemp, IH.
Qed.

Lemma lower_lstrip (s : string) : lower s = s → lower (lstrip s) = lstrip s.
Proof.
  induction s as [|c s IH]; cbn; [done|].
  intros H. injection H as Hc Hs.
  destruct (is_space c); [now apply IH | cbn; now rewrite Hc, Hs].
Qed.

Lemma lower_rev_app (s acc : string) :
  lower s = s → lower acc = acc →
  lower (String.rev_app s acc) = String.rev_app s acc.
Proof.
  revert acc. induction s as [|c s IH]; intros acc Hs Hacc; cbn; [done|].
  cbn in Hs. injection Hs as Hc Hs. apply IH; [done|].
  cbn. now rewrite Hc, Hacc.
Qed.

(** What [add_dislike] and [add_love] store is in lower case. *)
Lemma lower_strip_lower (s : string) :
  lower (strip (lower s)) = strip (lower s).
Proof.
  unfold strip, rstrip, String.rev.
  apply lower_rev_app; [|done]. apply lower_lstrip.
  apply lower_rev_app; [|done]. apply lower_lstrip, lower_idemp.
Qed.

(** ** Dislikes in a recipe *)

Section Dislikes.
Import FamilyPreferencesManager.

Lemma any_ingredient_has_iff (d : string) (ings : list string) :
  any_ingredient_has d ings = true ↔ ∃ ing, ing ∈ ings ∧ contains d ing = true.
Proof.
  induction ings as [|i ings IH]; cbn.
  - split; [done | intros (ing & Hin & _); now apply elem_of_nil in Hin].
  - destruct (contains d i) eqn:E.
    + split; [|done]. intros _. exists i. split; [apply elem_of_cons; now left | done].
    + rewrite IH. split; intros (ing & Hin & Hc).
      * exists ing. split; [apply elem_of_cons; now right | done].
      * apply elem_of_cons in Hin as [->|Hin]; [congruence | eauto].
Qed.

Lemma any_disliked_in_iff (ds ings : list string) :
  any_disliked_in ds ings = true ↔
  ∃ d ing, d ∈ ds ∧ ing ∈ ings ∧ contains d ing = true.
Proof.
  induction ds as [|d0 ds IH]; cbn.
  - split; [done | intros (d & ing & Hin & _); now apply elem_of_nil in Hin].
  - destruct (any_ingredient_has d0 ings) eqn:E.
    + split; [|done]. intros _. apply any_ingredient_has_iff in E as (ing & Hin & Hc).
      exists d0, ing. split; [apply elem_of_cons; now left | done].
    + rewrite IH. split; intros (d & ing & Hd & Hin & Hc).
      * exists d, ing. split; [apply elem_of_cons; now right | done].
      * apply elem_of_cons in Hd as [->|Hd]; [|eauto 6].
        assert (any_ingredient_has d0 ings = true) by (apply any_ingredient_has_iff; eauto).
        congruence.
Qed.

(** The dislikes of every state that [add_dislike] and [add_love] reach
    are in lower case, and so are the loves. *)
Lemma calls_lower (cs : list Call) (self : t) :
  Forall (λ d, lower d = d) (dislikes self) →
  Forall (λ d, lower d = d) (loves self) →
  Forall (λ d, lower d = d) (dislikes (calls cs self)) ∧
  Forall (λ d, lower d = d) (loves (calls cs self)).
Proof.
  revert self. induction cs as [|c cs IH]; intros self Hd Hl; [done|].
  cbn. assert (Hrm : ∀ x l, Forall (λ d : string, lower d = d) l →
                       Forall (λ d, lower d = d) (remove_first x l)).
  { intros x l Hf. rewrite Forall_forall in *. intros y Hy.
    apply Hf. eapply elem_of_remove_first, Hy. }
  assert (Hsn : ∀ x l, Forall (λ d : string, lower d = d) l →
                       Forall (λ d, lower d = d) (l ++ [strip (lower x)])).
  { intros x l Hf. apply Forall_app. split; [done|].
    constructor; [apply lower_strip_lower | constructor]. }
  apply IH; destruct c as [x|x]; cbn; unfold add_dislike, add_love;
    fold (dislikes self) (loves self);
    repeat match goal with |- context [if ?b then _ else _] => destruct b end;
    cbn; auto.
Qed.

(** C8, as the code has it.  For every recipe and every preference state
    whose disliked entries are in lower case (what [add_dislike] stores), if
    some ingredient of the recipe's full list contains, case-insensitively, a
    disliked entry as a substring, then [recipe_contains_dislikes] returns
    [True]. *)
Theorem recipe_contains_dislikes_lower (self : t) (r : Recipe)
    (d ing : string) :
  Forall (λ d, lower d = d) (dislikes self) →
  d ∈ dislikes self →
  ing ∈ all_ingredients r →
  contains (lower d) (lower ing) = true →
  recipe_contains_dislikes self r = true.
Proof.
  intros Hlow Hd Hing Hc. unfold recipe_contains_dislikes.
  apply any_disliked_in_iff. exists d, (lower ing).
  split; [exact Hd|]. split.
  - apply list_elem_of_In, in_map, list_elem_of_In, Hing.
  - rewrite Forall_forall in Hlow. now rewrite <- (Hlow d Hd).
Qed.

(** C8, as stated, fails: the dislike ["Chicken"], which [add_dislike]
    would have stored as ["chicken"], is contained case-insensitively in the
    ingredient ["chicken breast"], and [recipe_contains_dislikes] returns
    [False], for it lowers the recipe's ingredients and not the dislike. *)
Lemma recipe_contains_dislikes_mixed_case :
  let self := set_disliked_loved init ["Chicken"] [] in
  let r := {| title := "Grilled Chicken"; main_ingredients := ["chicken"];
              all_ingredients := ["chicken breast"]; time := 20;
              calories := 380; tags := [] |} in
  "Chicken" ∈ dislikes self ∧
  "chicken breast" ∈ all_ingredients r ∧
  contains (lower "Chicken") (lower "chicken breast") = true ∧
  recipe_contains_dislikes self r = false.
Proof.
  cbv zeta. repeat split.
  - apply list_elem_of_singleton. reflexivity.
  - apply list_elem_of_singleton. reflexivity.
Qed.

Lemma recipe_contains_dislikes_lower_witness :
  recipe_contains_dislikes (add_dislike init " Chicken ")
    {| title := "Grilled Chicken"; main_ingredients := ["chicken"];
       all_ingredients := ["Chicken Breast"]; time := 20;
       calories := 380; tags := [] |} = true.
Proof.
  apply (recipe_contains_dislikes_lower _ _ "chicken" "Chicken Breast").
  - repeat constructor.
  - apply list_elem_of_singleton. reflexivity.
  - apply list_elem_of_singleton. reflexivity.
  - reflexivity.
Defined.

End Dislikes.

(** ** Classification of sale items *)

Section SaleMatching.
Import SaleBasedRecommendationEngine.

Lemma classify_filed (acc : SaleMatches) (item : SaleItem) (m : SaleMatch) :
  m ∈ filed (classify acc item) →
  m ∈ filed acc ∨ (sale_info m = item ∧ has_keyword item = true).
Proof.
  unfold classify, has_keyword, filed.
  destruct (any _ protein_keywords); [|destruct (any _ vegetable_keywords);
    [|destruct (any _ pantry_keywords)]]; cbn [proteins vegetables pantry];
    rewrite ?elem_of_app, ?list_elem_of_singleton; intros H;
    repeat match goal with
      | H : _ ∨ _ |- _ => destruct H
      | H : m = _ |- _ => subst m
      end; cbn; auto.
Qed.

Lemma fold_classify_filed (items : list SaleItem) (acc : SaleMatches)
    (m : SaleMatch) :
  m ∈ filed (fold_left classify items acc) →
  m ∈ filed acc ∨ (sale_info m ∈ items ∧ has_keyword (sale_info m) = true).
Proof.
  revert acc. induction items as [|item items IH]; intros acc; cbn.
  - now left.
  - intros H. apply IH in H as [H | [H1 H2]].
    + apply classify_filed in H as [H | [<- H]]; [now left | right].
      split; [apply elem_of_cons; now left | done].
    + right. split; [apply elem_of_cons; now right | done].
Qed.

Lemma classify_unmatched (acc : SaleMatches) (item : SaleItem) :
  has_keyword item = false → classify acc item = acc.
Proof.
  unfold has_keyword, classify. intros H.
  apply orb_false_iff in H as [H Hp]. apply orb_false_iff in H as [Hk Hv].
  now rewrite Hk, Hv, Hp.
Qed.

(** C10.  For every list of sale items, an item whose lower-cased name
    contains no protein keyword, no vegetable keyword and no pantry keyword
    is put in no bucket by [get_sale_ingredient_matches]: the three buckets
    are what they would be without the item, and no entry of them carries
    it. *)
Theorem unmatched_item_in_no_bucket (before after : list SaleItem)
    (item : SaleItem) :
  any (λ k, contains k (lower (name item))) protein_keywords = false →
  any (λ k, contains k (lower (name item))) vegetable_keywords = false →
  any (λ k, contains k (lower (name item))) pantry_keywords = false →
  let sale_matches := get_sale_ingredient_matches (before ++ item :: after) in
  sale_matches = get_sale_ingredient_matches (before ++ after) ∧
  (∀ m, m ∈ proteins sale_matches → sale_info m ≠ item) ∧
  (∀ m, m ∈ vegetables sale_matches → sale_info m ≠ item) ∧
  (∀ m, m ∈ pantry sale_matches → sale_info m ≠ item).
Proof.
  intros Hk Hv Hp. cbv zeta.
  assert (Hno : has_keyword item = false).
  { unfold has_keyword. now rewrite Hk, Hv, Hp. }
  assert (Hfiled : ∀ m,
    m ∈ filed (get_sale_ingredient_matches (before ++ item :: after)) →
    sale_info m ≠ item).
  { intros m Hm <-. apply fold_classify_filed in Hm as [Hm | [_ Hm]].
    - cbn in Hm. now apply elem_of_nil in Hm.
    - congruence. }
  split; [|repeat split].
  - unfold get_sale_ingredient_matches. rewrite !fold_left_app. cbn [fold_left].
    now rewrite classify_unmatched.
  - intros m Hm. apply Hfiled. unfold filed. rewrite !elem_of_app. auto.
  - intros m Hm. apply Hfiled. unfold filed. rewrite !elem_of_app. auto.
  - intros m Hm. apply Hfiled. unfold filed. rewrite !elem_of_app. auto.
Qed.

Lemma unmatched_item_in_no_bucket_witness :
  let milk := sale_item "Whole Milk" 4 3 "Dairy" in
  let chicken := sale_item "Chicken Breast" 6 4 "Meat" in
  let rice := sale_item "Brown Rice" 3 2 "Pantry" in
  let sale_matches := get_sale_ingredient_matches [chicken; milk; rice] in
  sale_matches = get_sale_ingredient_matches [chicken; rice] ∧
  (∀ m, m ∈ proteins sale_matches → sale_info m ≠ milk) ∧
  (∀ m, m ∈ vegetables sale_matches → sale_info m ≠ milk) ∧
  (∀ m, m ∈ pantry sale_matches → sale_info m ≠ milk).
Proof.
  exact (unmatched_item_in_no_bucket
           [sale_item "Chicken Breast" 6 4 "Meat"]
           [sale_item "Brown Rice" 3 2 "Pantry"]
           (sale_item "Whole Milk" 4 3 "Dairy")
           eq_refl eq_refl eq_refl).
Defined.

End SaleMatching.

(** ** Shuffling *)

Section Shuffle.
Import Random.
Context {A : Type}.

Lemma insert_Permutation (l : list A) (i : nat) (a b : A) :
  l !! i = Some a → <[i:=b]> l ≡ₚ b :: delete i l.
Proof.
  intros Hi. assert (Hlt : (i < length l)%nat) by (eapply lookup_lt_Some, Hi).
  rewrite insert_take_drop by exact Hlt. rewrite delete_take_drop.
  symmetry. apply Permutation_middle.
Qed.

Lemma swap_Permutation (x : list A) (i j : nat) : swap x i j ≡ₚ x.
Proof.
  unfold swap. destruct (x !! i) as [a|] eqn:Hi; [|done].
  destruct (x !! j) as [b|] eqn:Hj; [|done].
  assert (Hlt : (i < length x)%nat) by (eapply lookup_lt_Some, Hi).
  assert (Hj' : <[i:=b]> x !! j = Some b).
  { destruct (decide (i = j)) as [->|Hne].
    - now apply list_lookup_insert_eq.
    - now rewrite list_lookup_insert_ne. }
  etrans; [apply (insert_Permutation _ j b a Hj')|].
  etrans; [|symmetry; apply (delete_Permutation x i a Hi)].
  apply Permutation_skip.
  apply (Permutation_cons_inv (a := b)).
  etrans; [symmetry; apply (delete_Permutation _ j b Hj')|].
  now apply insert_Permutation with (a := a).
Qed.

Lemma shuffle_from_Permutation (i : nat) (x : list A) (g : Rng) :
  (shuffle_from i x g).1 ≡ₚ x.
Proof.
  revert x g. induction i as [|i IH]; intros x g; cbn [shuffle_from]; [done|].
  destruct (randbelow (S (S i)) g) as [j g'].
  rewrite IH. apply swap_Permutation.
Qed.

(** [random.shuffle] rearranges, whatever the draws. *)
Lemma shuffle_Permutation (x : list A) (g : Rng) : (shuffle x g).1 ≡ₚ x.
Proof. apply shuffle_from_Permutation. Qed.

End Shuffle.

(** ** Slices *)

Lemma slice_to_length {A} (l : list A) (j : Z) :
  0 ≤ j → len (slice_to j l) = Z.min j (len l).
Proof.
  intros Hj. unfold slice_to, len.
  destruct (Z.ltb_spec j 0); [lia|]. rewrite length_take. lia.
Qed.

Lemma slice_to_elem_of {A} (l : list A) (j : Z) (x : A) :
  x ∈ slice_to j l → x ∈ l.
Proof.
  unfold slice_to. destruct (j <? 0); intros Hx.
  - rewrite <- (take_drop (length l - Z.to_nat (- j)) l). apply elem_of_app; auto.
  - rewrite <- (take_drop (Z.to_nat j) l). apply elem_of_app; auto.
Qed.

Lemma slice_to_NoDup {A} (l : list A) (j : Z) : NoDup l → NoDup (slice_to j l).
Proof.
  unfold slice_to. intros Hl. destruct (j <? 0).
  - rewrite <- (take_drop (length l - Z.to_nat (- j)) l) in Hl.
    now apply NoDup_app in Hl as (? & _ & _).
  - rewrite <- (take_drop (Z.to_nat j) l) in Hl.
    now apply NoDup_app in Hl as (? & _ & _).
Qed.

(** ** Recipe selection *)

Section Selection.
Import SmartMealRotator.

Lemma fold_append_filter {A} (p : A → bool) (l acc : list A) :
  fold_left (λ acc x, if p x then acc ++ [x] else acc) l acc
  = acc ++ filter (λ x, p x = true) l.
Proof.
  revert acc. induction l as [|x l IH]; intros acc; cbn [fold_left].
  - now rewrite filter_nil, app_nil_r.
  - rewrite IH, filter_cons. destruct (p x) eqn:E.
    + rewrite decide_True by done. now rewrite <- app_assoc.
    + rewrite decide_False by congruence. done.
Qed.

Lemma first_pass_filter (prefs : Prefs.t) (recipes : list Recipe) :
  first_pass prefs recipes = filter (λ r, passes_first prefs r = true) recipes.
Proof. unfold first_pass. now rewrite fold_append_filter. Qed.

Lemma was_served_recently_2 (prefs : Prefs.t) (r : Recipe) :
  Prefs.was_served_recently prefs r 2 = true ↔ served_within_2_weeks prefs r.
Proof. unfold Prefs.was_served_recently. apply py_in_true. Qed.

Lemma recipe_is_banned_iff (prefs : Prefs.t) (r : Recipe) :
  Prefs.recipe_is_banned prefs r = true ↔ banned prefs r.
Proof. apply py_in_true. Qed.

(** The first loop keeps exactly the compliant recipes. *)
Lemma passes_first_compliant (prefs : Prefs.t) (r : Recipe) :
  passes_first prefs r = true ↔ compliant prefs r.
Proof.
  unfold passes_first, compliant.
  rewrite <- was_served_recently_2, <- recipe_is_banned_iff.
  destruct (Prefs.recipe_contains_dislikes prefs r),
    (Prefs.recipe_is_banned prefs r), (Prefs.was_served_recently prefs r 2);
    (split; [try discriminate; intros _; repeat split; congruence
            | intros (H1 & H2 & H3); congruence]).
Qed.

Lemma second_pass_elem_of (prefs : Prefs.t) (recipes acc : list Recipe)
    (r : Recipe) :
  r ∈ second_pass prefs recipes acc → r ∈ acc ∨ r ∈ recipes.
Proof.
  unfold second_pass. revert acc.
  induction recipes as [|x recipes IH]; intros acc; cbn [fold_left]; [auto|].
  intros H. apply IH in H as [H|H]; [|right; apply elem_of_cons; auto].
  destruct (passes_second prefs x); [|auto].
  destruct (py_in x acc); cbn [negb] in H; [auto|].
  apply elem_of_app in H as [H|H]; [auto|].
  apply list_elem_of_singleton in H as ->. right. apply elem_of_cons; auto.
Qed.

Lemma second_pass_NoDup (prefs : Prefs.t) (recipes acc : list Recipe) :
  NoDup acc → NoDup (second_pass prefs recipes acc).
Proof.
  unfold second_pass. revert acc.
  induction recipes as [|x recipes IH]; intros acc Hacc; cbn [fold_left]; [done|].
  apply IH. destruct (passes_second prefs x); [|done].
  destruct (py_in x acc) eqn:E; cbn [negb]; [done|].
  apply NoDup_snoc; [done | now apply py_in_false].
Qed.

Lemma filtered_pool_elem_of (prefs : Prefs.t) (recipes : list Recipe)
    (count : Z) (r : Recipe) :
  r ∈ filtered_pool prefs recipes count → r ∈ recipes.
Proof.
  unfold filtered_pool. rewrite first_pass_filter.
  destruct (_ <? _); intros H.
  - apply second_pass_elem_of in H as [H|H]; [|done].
    now apply list_elem_of_filter in H as [_ H].
  - now apply list_elem_of_filter in H as [_ H].
Qed.

Lemma filtered_pool_NoDup (prefs : Prefs.t) (recipes : list Recipe)
    (count : Z) :
  NoDup recipes → NoDup (filtered_pool prefs recipes count).
Proof.
  intros Hnd. unfold filtered_pool. rewrite first_pass_filter.
  destruct (_ <? _).
  - apply second_pass_NoDup. now apply NoDup_filter.
  - now apply NoDup_filter.
Qed.

Lemma fill_elem_of (count : Z) (non_favorites result : list Recipe)
    (r : Recipe) :
  r ∈ fill count result non_favorites → r ∈ result ∨ r ∈ non_favorites.
Proof.
  revert result. induction non_favorites as [|x rest IH]; intros result;
    cbn [fill]; [auto|].
  destruct (_ >=? _); [auto|].
  destruct (py_in x result); cbn [negb]; intros H; apply IH in H as [H|H].
  - auto.
  - right. apply elem_of_cons; auto.
  - apply elem_of_app in H as [H|H]; [auto|].
    apply list_elem_of_singleton in H as ->. right. apply elem_of_cons; auto.
  - right. apply elem_of_cons; auto.
Qed.

(** The shape of a call, with the two shuffles named. *)
Lemma get_smart_recommendations_eq (self : t) (prefs : Prefs.t)
    (g : Random.Rng) (meal_type day_type : string) (count : Z) :
  let pool := filtered_pool prefs (select_group self meal_type day_type) count in
  ∃ favorites non_favorites,
    favorites ≡ₚ pool_favorites prefs pool ∧
    non_favorites ≡ₚ pool_non_favorites prefs pool ∧
    (get_smart_recommendations self prefs g meal_type day_type count).1
    = slice_to count
        (fill count (slice_to (Z.max 1 (count / 3)) favorites) non_favorites).
Proof.
  cbv zeta. unfold get_smart_recommendations.
  set (pool := filtered_pool _ _ _).
  fold (pool_favorites prefs pool) (pool_non_favorites prefs pool).
  pose proof (shuffle_Permutation (pool_favorites prefs pool) g) as Hf.
  destruct (Random.shuffle (pool_favorites prefs pool) g) as [favorites g1].
  pose proof (shuffle_Permutation (pool_non_favorites prefs pool) g1) as Hn.
  destruct (Random.shuffle (pool_non_favorites prefs pool) g1)
    as [non_favorites g2].
  exists favorites, non_favorites. auto.
Qed.

(** Every recipe returned comes from the surviving pool. *)
Lemma get_smart_recommendations_pool (self : t) (prefs : Prefs.t)
    (g : Random.Rng) (meal_type day_type : string) (count : Z) (r : Recipe) :
  r ∈ (get_smart_recommendations self prefs g meal_type day_type count).1 →
  r ∈ filtered_pool prefs (select_group self meal_type day_type) count.
Proof.
  destruct (get_smart_recommendations_eq self prefs g meal_type day_type count)
    as (favorites & non_favorites & Hf & Hn & ->).
  intros H. apply slice_to_elem_of, fill_elem_of in H as [H|H].
  - apply slice_to_elem_of in H. rewrite Hf in H.
    now apply list_elem_of_filter in H as [_ H].
  - rewrite Hn in H. now apply list_elem_of_filter in H as [_ H].
Qed.

(** C1.  For every meal slot, day type and count of at least 1,
    [get_smart_recommendations] returns at most [count] recipes; and when
    the selected group holds at least [count] recipes that have no disliked
    ingredient, are not banned and were not served within the last 2 weeks
    (the 14 most recent entries of the history), no returned recipe is
    banned or was served within those 2 weeks. *)
Theorem recommendations_bounded_and_compliant (self : t) (prefs : Prefs.t)
    (g : Random.Rng) (meal_type day_type : string) (count : Z) :
  1 ≤ count →
  let recipes := select_group self meal_type day_type in
  let result :=
    (get_smart_recommendations self prefs g meal_type day_type count).1 in
  len result ≤ count ∧
  (count ≤ len (filter (compliant prefs) recipes) →
   ∀ r, r ∈ result → ¬ banned prefs r ∧ ¬ served_within_2_weeks prefs r).
Proof.
  intros Hcount. cbv zeta. split.
  - destruct (get_smart_recommendations_eq self prefs g meal_type day_type count)
      as (favorites & non_favorites & _ & _ & ->).
    rewrite slice_to_length by lia. lia.
  - intros Hmany r Hr. apply get_smart_recommendations_pool in Hr.
    unfold filtered_pool in Hr. rewrite first_pass_filter in Hr.
    rewrite (list_filter_iff _ (compliant prefs)) in Hr
      by (intros x; apply passes_first_compliant).
    destruct (Z.ltb_spec (len (filter (compliant prefs)
                (select_group self meal_type day_type))) count); [lia|].
    apply list_elem_of_filter in Hr as [(_ & Hb & Hs) _]. auto.
Qed.

Lemma recommendations_bounded_and_compliant_witness :
  let prefs := Prefs.ban_recipe Prefs.init "Sheet Pan Chicken Fajitas" in
  let result :=
    (get_smart_recommendations init prefs [3; 1; 2]%nat
       "dinner" "weekday" 2).1 in
  len result ≤ 2 ∧
  ∀ r, r ∈ result → ¬ banned prefs r ∧ ¬ served_within_2_weeks prefs r.
Proof.
  cbv zeta.
  destruct (recommendations_bounded_and_compliant init
              (Prefs.ban_recipe Prefs.init "Sheet Pan Chicken Fajitas")
              [3; 1; 2]%nat "dinner" "weekday" 2 ltac:(lia)) as [H1 H2].
  split; [exact H1 | apply H2; vm_compute; discriminate].
Defined.

(** The groups of the database repeat no recipe. *)
Lemma select_group_NoDup (meal_type day_type : string) :
  NoDup (select_group init meal_type day_type).
Proof. unfold select_group. repeat case_bool_decide; compute_done. Qed.

Lemma fill_length (count : Z) (non_favorites result : list Recipe) :
  NoDup non_favorites →
  (∀ r, r ∈ non_favorites → r ∉ result) →
  len result ≤ count →
  len (fill count result non_favorites)
  = Z.min count (len result + len non_favorites).
Proof.
  revert result. induction non_favorites as [|x rest IH];
    intros result Hnd Hdisj Hle; cbn [fill].
  - unfold len in *. cbn [length]. lia.
  - apply NoDup_cons in Hnd as [Hx Hrest].
    destruct (Z.geb_spec (len result) count) as [Hge|Hlt].
    + unfold len in *. cbn [length]. lia.
    + assert (Hxr : py_in x result = false).
      { apply py_in_false, Hdisj, elem_of_cons. now left. }
      rewrite Hxr. cbn [negb]. rewrite IH.
      * unfold len. rewrite length_app. cbn [length]. lia.
      * exact Hrest.
      * intros r Hr Hin. apply elem_of_app in Hin as [Hin|Hin].
        -- apply (Hdisj r); [apply elem_of_cons; now right | exact Hin].
        -- apply list_elem_of_singleton in Hin as ->. contradiction.
      * unfold len in *. rewrite length_app. cbn [length]. lia.
Qed.

(** How many recipes a call returns. *)
Lemma get_smart_recommendations_length (prefs : Prefs.t) (g : Random.Rng)
    (meal_type day_type : string) (count : Z) :
  1 ≤ count →
  let pool := filtered_pool prefs (select_group init meal_type day_type) count in
  len (get_smart_recommendations init prefs g meal_type day_type count).1
  = Z.min count
      (Z.min (Z.max 1 (count / 3)) (len (pool_favorites prefs pool))
       + len (pool_non_favorites prefs pool)).
Proof.
  intros Hcount. cbv zeta.
  destruct (get_smart_recommendations_eq init prefs g meal_type day_type count)
    as (favorites & non_favorites & Hf & Hn & ->).
  set (pool := filtered_pool _ _ _) in *.
  assert (Hpool : NoDup pool)
    by apply filtered_pool_NoDup, select_group_NoDup.
  assert (Hthird : 1 ≤ Z.max 1 (count / 3) ≤ count).
  { split; [lia|]. apply Z.max_lub; [lia|].
    apply Z.div_le_upper_bound; lia. }
  assert (Hstart : len (slice_to (Z.max 1 (count / 3)) favorites)
                   = Z.min (Z.max 1 (count / 3)) (len (pool_favorites prefs pool))).
  { rewrite slice_to_length by lia. unfold len. now rewrite Hf. }
  rewrite slice_to_length by lia.
  rewrite fill_length.
  - rewrite Hstart. unfold len. rewrite Hn. lia.
  - rewrite Hn. now apply NoDup_filter.
  - intros r Hr Hin. apply slice_to_elem_of in Hin.
    rewrite Hn in Hr. rewrite Hf in Hin.
    apply list_elem_of_filter in Hr as [Hr _].
    apply list_elem_of_filter in Hin as [Hin _]. congruence.
  - rewrite Hstart. lia.
Qed.

(** C5, as the code has it.  For every meal slot, day type and count of at
    least 1, the call returns exactly [count] recipes whenever the surviving
    non-favorites, together with at most [max(1, count // 3)] of the
    surviving favorites, number at least [count]; it returns fewer only when
    they number fewer than [count].  In every case it returns
    [min(count, min(max(1, count // 3), F) + N)] recipes, for [F] favorites
    and [N] non-favorites in the surviving pool. *)
Theorem recommendations_exactly_count (prefs : Prefs.t) (g : Random.Rng)
    (meal_type day_type : string) (count : Z) :
  1 ≤ count →
  let pool := filtered_pool prefs (select_group init meal_type day_type) count in
  let usable :=
    Z.min (Z.max 1 (count / 3)) (len (pool_favorites prefs pool))
    + len (pool_non_favorites prefs pool) in
  let result :=
    (get_smart_recommendations init prefs g meal_type day_type count).1 in
  len result = Z.min count usable ∧
  (count ≤ usable → len result = count) ∧
  (len result < count → usable < count).
Proof.
  intros Hcount. cbv zeta.
  pose proof (get_smart_recommendations_length prefs g meal_type day_type
                count Hcount) as H.
  cbv zeta in H. rewrite H. lia.
Qed.

Lemma recommendations_exactly_count_witness :
  let prefs := Prefs.add_favorite Prefs.init "Shrimp and Grits" in
  len (get_smart_recommendations init prefs [5; 0; 4]%nat
         "dinner" "weekend" 3).1 = 3.
Proof.
  cbv zeta.
  destruct (recommendations_exactly_count
              (Prefs.add_favorite Prefs.init "Shrimp and Grits")
              [5; 0; 4]%nat "dinner" "weekend" 3 ltac:(lia)) as (_ & H & _).
  apply H. vm_compute. discriminate.
Defined.

(** C5, as stated, fails.  With the four weekday dinners all marked as
    favorites and [count = 3], the surviving pool holds four recipes, yet
    only [max(1, 3 // 3) = 1] favorite is taken and there is no non-favorite
    to fill the rest: one recipe is returned. *)
Lemma recommendations_short_of_count :
  let prefs :=
    fold_left Prefs.add_favorite
      (map title (weekday_dinner _create_recipe_database)) Prefs.init in
  let pool := filtered_pool prefs (select_group init "dinner" "weekday") 3 in
  let result :=
    (get_smart_recommendations init prefs [] "dinner" "weekday" 3).1 in
  1 ≤ 3 ∧ len pool = 4 ∧ 3 ≤ len pool ∧ len result = 1.
Proof. cbv zeta. repeat split; vm_compute; congruence. Qed.

End Selection.

(** ** Ranking by sale score *)

Section SaleRanking.
Import SaleBasedRecommendationEngine.

Lemma on_sale_in_matches (r : Recipe) (m : SaleMatch) :
  on_sale_in (map lower (all_ingredients r)) m = true ↔ matches r m.
Proof.
  unfold on_sale_in, any, matches.
  induction (all_ingredients r) as [|ing l IH]; cbn.
  - split; [done | intros H; inversion H].
  - rewrite orb_true_iff, Exists_cons, IH. done.
Qed.

(** One loop over a bucket adds its points once per matching entry, and
    one benefit per matching entry, in order. *)
Lemma score_bucket_matched (points : Z) (kind : string) (r : Recipe)
    (bucket : list SaleMatch) (score : Z) (benefits : list SaleBenefit) :
  score_bucket points kind (map lower (all_ingredients r)) bucket
    (score, benefits)
  = (score + points * len (matched r bucket),
     benefits ++
     map (λ m, {| type := kind;
                  benefit_ingredient := ingredient m;
                  benefit_savings := savings (sale_info m);
                  discount := discount_percentage (sale_info m) |})
         (matched r bucket)).
Proof.
  unfold score_bucket, matched. revert score benefits.
  induction bucket as [|m bucket IH]; intros score benefits; cbn [fold_left].
  - rewrite filter_nil. cbn. now rewrite Z.mul_0_r, Z.add_0_r, app_nil_r.
  - rewrite filter_cons.
    destruct (on_sale_in (map lower (all_ingredients r)) m) eqn:E.
    + rewrite decide_True by now apply on_sale_in_matches.
      rewrite IH. unfold len. cbn [length map]. rewrite <- app_assoc.
      f_equal. lia.
    + rewrite decide_False
        by (rewrite <- on_sale_in_matches; congruence).
      apply IH.
Qed.

Lemma score_recipe_matched (sale_matches : SaleMatches) (r : Recipe) :
  sale_score (score_recipe sale_matches r)
  = 10 * len (matched r (proteins sale_matches))
    + 5 * len (matched r (vegetables sale_matches))
    + 3 * len (matched r (pantry sale_matches)) ∧
  total_sale_savings (score_recipe sale_matches r)
  = Qsum (map (λ m, savings (sale_info m))
              (matched r (proteins sale_matches)
               ++ matched r (vegetables sale_matches)
               ++ matched r (pantry sale_matches))).
Proof.
  unfold score_recipe. rewrite !score_bucket_matched.
  cbn [fst snd sale_score total_sale_savings]. split; [lia|].
  cbn [app]. now rewrite !map_app, !map_map, <- app_assoc.
Qed.

Lemma key_lt_false (a b : ScoredRecipe) :
  key_lt (key a) (key b) = false ↔ ranks_before a b.
Proof.
  unfold key_lt, key, ranks_before. cbn [fst snd].
  destruct (Z.eqb_spec (sale_score a) (sale_score b)) as [Heq|Hne]; cbn [negb].
  - rewrite Qltb_ge. split; [auto | intros [H|[_ H]]; [lia | done]].
  - rewrite Z.ltb_ge. split; [intros H; left; lia | intros [H|[H _]]; lia].
Qed.

Lemma key_lt_true (a b : ScoredRecipe) :
  key_lt (key a) (key b) = true → ranks_before b a.
Proof.
  unfold key_lt, key, ranks_before. cbn [fst snd].
  destruct (Z.eqb_spec (sale_score a) (sale_score b)) as [Heq|Hne]; cbn [negb].
  - rewrite Qltb_lt. intros H. right. split; [done | now apply Qlt_le_weak].
  - rewrite Z.ltb_lt. auto.
Qed.

#[local] Instance ranks_before_trans : Transitive ranks_before.
Proof.
  intros a b c [Hab|[Hab Vab]] [Hbc|[Hbc Vbc]]; unfold ranks_before.
  - left. lia.
  - left. lia.
  - left. lia.
  - right. split; [lia | eapply Qle_trans; eauto].
Qed.

Lemma insert_desc_Permutation (x : ScoredRecipe) (l : list ScoredRecipe) :
  insert_desc x l ≡ₚ x :: l.
Proof.
  induction l as [|y l IH]; cbn; [done|].
  destruct (key_lt (key x) (key y)); [|done].
  rewrite IH. apply Permutation_swap.
Qed.

Lemma sort_desc_Permutation (l : list ScoredRecipe) : sort_desc l ≡ₚ l.
Proof.
  induction l as [|x l IH]; cbn; [done|].
  now rewrite insert_desc_Permutation, IH.
Qed.

Lemma insert_desc_sorted (x : ScoredRecipe) (l : list ScoredRecipe) :
  StronglySorted ranks_before l → StronglySorted ranks_before (insert_desc x l).
Proof.
  induction 1 as [|y l Hl IH Hy]; cbn.
  - repeat constructor.
  - destruct (key_lt (key x) (key y)) eqn:E.
    + constructor; [exact IH|].
      rewrite insert_desc_Permutation. constructor; [|exact Hy].
      now apply key_lt_true.
    + apply key_lt_false in E. constructor; [now constructor|].
      constructor; [exact E|].
      eapply Forall_impl; [exact Hy|]. intros z Hz. now transitivity y.
Qed.

Lemma sort_desc_sorted (l : list ScoredRecipe) :
  StronglySorted ranks_before (sort_desc l).
Proof.
  induction l as [|x l IH]; cbn; [constructor | now apply insert_desc_sorted].
Qed.

Lemma StronglySorted_lookup {A} (R : relation A) (l : list A) (i j : nat)
    (a b : A) :
  StronglySorted R l → l !! i = Some a → l !! j = Some b → (i < j)%nat →
  R a b.
Proof.
  intros Hl. revert i j. induction Hl as [|x l Hl IH Hx]; intros i j Hi Hj Hij.
  - done.
  - destruct j as [|j]; [lia|]. cbn in Hj. destruct i as [|i]; cbn in Hi.
    + injection Hi as ->. rewrite Forall_forall in Hx.
      apply Hx. eapply list_elem_of_lookup_2, Hj.
    + apply (IH i j); [done | done | lia].
Qed.

(** The engine ranks the pool that the rotator hands it for twice the
    count. *)
Lemma get_sale_based_recommendations_rank (rotator : SmartMealRotator.t)
    (prefs : Prefs.t) (g : Random.Rng) (sale_items : list SaleItem)
    (meal_type day_type : string) (count : Z) :
  (get_sale_based_recommendations rotator prefs g sale_items
     meal_type day_type count).1
  = rank (get_sale_ingredient_matches sale_items)
      (SmartMealRotator.get_smart_recommendations rotator prefs g
         meal_type day_type (count * 2)).1
      count.
Proof.
  unfold get_sale_based_recommendations.
  now destruct (SmartMealRotator.get_smart_recommendations _ _ _ _ _ _).
Qed.

(** C3.  For every list of sale items and every candidate pool, each
    candidate's sale score is 10 per protein entry, 5 per vegetable entry
    and 3 per pantry entry whose normalized name is a substring of some
    ingredient of the recipe, and its total savings are the sum of the
    savings of those entries; the candidates returned are the first [count]
    of the pool sorted in descending order of (sale score, total savings),
    compared lexicographically.  In particular a recipe that matches a
    protein entry is returned before one that matches a single vegetable
    entry and nothing else, whatever their savings. *)
Theorem sale_recommendations_ranked (rotator : SmartMealRotator.t)
    (prefs : Prefs.t) (g : Random.Rng) (sale_items : list SaleItem)
    (meal_type day_type : string) (count : Z) :
  0 ≤ count →
  let sale_matches := get_sale_ingredient_matches sale_items in
  let all_recipes :=
    (SmartMealRotator.get_smart_recommendations rotator prefs g
       meal_type day_type (count * 2)).1 in
  let result :=
    (get_sale_based_recommendations rotator prefs g sale_items
       meal_type day_type count).1 in
  (∀ r,
     sale_score (score_recipe sale_matches r)
     = 10 * len (matched r (proteins sale_matches))
       + 5 * len (matched r (vegetables sale_matches))
       + 3 * len (matched r (pantry sale_matches)) ∧
     total_sale_savings (score_recipe sale_matches r)
     = Qsum (map (λ m, savings (sale_info m))
                 (matched r (proteins sale_matches)
                  ++ matched r (vegetables sale_matches)
                  ++ matched r (pantry sale_matches)))) ∧
  (∃ ranked,
     ranked ≡ₚ map (score_recipe sale_matches) all_recipes ∧
     StronglySorted ranks_before ranked ∧
     result = take (Z.to_nat count) ranked) ∧
  (∀ i j a b,
     result !! i = Some a → result !! j = Some b →
     1 ≤ len (matched (base a) (proteins sale_matches)) →
     len (matched (base b) (proteins sale_matches)) = 0 →
     len (matched (base b) (vegetables sale_matches)) = 1 →
     len (matched (base b) (pantry sale_matches)) = 0 →
     (i < j)%nat).
Proof.
  intros Hcount. cbv zeta. rewrite get_sale_based_recommendations_rank.
  set (sale_matches := get_sale_ingredient_matches sale_items).
  set (all_recipes := (SmartMealRotator.get_smart_recommendations _ _ _ _ _ _).1).
  assert (Hrank : rank sale_matches all_recipes count
                  = take (Z.to_nat count)
                      (sort_desc (map (score_recipe sale_matches) all_recipes))).
  { unfold rank, slice_to. destruct (Z.ltb_spec count 0); [lia | done]. }
  split; [|split].
  - intros r. apply score_recipe_matched.
  - exists (sort_desc (map (score_recipe sale_matches) all_recipes)).
    split; [apply sort_desc_Permutation|].
    split; [apply sort_desc_sorted | exact Hrank].
  - intros i j a b Hi Hj Ha Hbp Hbv Hbn.
    rewrite Hrank in Hi, Hj.
    apply lookup_take_Some in Hi as [Hi _], Hj as [Hj _].
    assert (Hscored : ∀ k x,
      sort_desc (map (score_recipe sale_matches) all_recipes) !! k = Some x →
      x = score_recipe sale_matches (base x)).
    { intros k x Hk. apply list_elem_of_lookup_2 in Hk.
      rewrite sort_desc_Permutation in Hk.
      apply list_elem_of_In, in_map_iff in Hk as (r & <- & _). reflexivity. }
    assert (Hsa : 10 ≤ sale_score a).
    { rewrite (Hscored i a Hi).
      destruct (score_recipe_matched sale_matches (base a)) as [-> _].
      unfold len in *. lia. }
    assert (Hsb : sale_score b = 5).
    { rewrite (Hscored j b Hj).
      destruct (score_recipe_matched sale_matches (base b)) as [-> _].
      lia. }
    destruct (Nat.lt_trichotomy i j) as [Hlt|[->|Hgt]]; [exact Hlt | |].
    + rewrite Hi in Hj. injection Hj as ->. lia.
    + pose proof (StronglySorted_lookup ranks_before _ j i b a
                    (sort_desc_sorted _) Hj Hi Hgt) as [H|[H _]]; lia.
Qed.

(** Salmon and bell peppers on sale, five dollars off each, and the four
    weekday dinners as the pool. *)
Lemma sale_recommendations_ranked_witness :
  let sale_items :=
    [ sale_item "Fresh Bell Pepper" 8 3 "Produce";
      sale_item "Atlantic Salmon Fillet" 15 10 "Seafood" ] in
  let sale_matches := get_sale_ingredient_matches sale_items in
  let all_recipes :=
    (SmartMealRotator.get_smart_recommendations SmartMealRotator.init
       Prefs.init [2; 0; 1]%nat "dinner" "weekday" (4 * 2)).1 in
  let result :=
    (get_sale_based_recommendations SmartMealRotator.init Prefs.init
       [2; 0; 1]%nat sale_items "dinner" "weekday" 4).1 in
  map (λ x, (title (base x), sale_score x)) result
  = [ ("Baked Salmon with Roasted Vegetables", 10);
      ("Sheet Pan Chicken Fajitas", 5);
      ("Grilled Chicken with Quinoa", 0);
      ("Turkey Meatballs with Zucchini Noodles", 0) ] ∧
  ∃ ranked,
    ranked ≡ₚ map (score_recipe sale_matches) all_recipes ∧
    StronglySorted ranks_before ranked ∧
    result = take (Z.to_nat 4) ranked.
Proof.
  cbv zeta. split; [vm_compute; reflexivity|].
  refine (proj1 (proj2 (sale_recommendations_ranked SmartMealRotator.init
            Prefs.init [2; 0; 1]%nat
            [ sale_item "Fresh Bell Pepper" 8 3 "Produce";
              sale_item "Atlantic Salmon Fillet" 15 10 "Seafood" ]
            "dinner" "weekday" 4 _))).
  lia.
Defined.

End SaleRanking.

(** ** The week's schedule *)

Section WeeklySchedule.
Import CalendarIntegrator.

Lemma analyze_day_cooking_mono (self : t) (acc : WeeklyAnalysis)
    (item : string * DayInfo) (n : string) :
  n ∈ cooking_project_days acc →
  n ∈ cooking_project_days (analyze_day self acc item).
Proof.
  unfold analyze_day. intros Hn.
  destruct (is_busy _); cbn [cooking_project_days]; [done|].
  destruct (py_in _ _); [done|].
  destruct (Qltb _ _); [|done]. apply elem_of_app. now left.
Qed.

Lemma analyze_day_prep_mono (self : t) (acc : WeeklyAnalysis)
    (item : string * DayInfo) (n : string) :
  n ∈ best_prep_days acc → n ∈ best_prep_days (analyze_day self acc item).
Proof.
  unfold analyze_day. intros Hn.
  destruct (is_busy _); cbn [best_prep_days]; [done|].
  destruct (py_in _ _); [|done]. apply elem_of_app. now left.
Qed.

Lemma fold_analyze_day_cooking_mono (self : t)
    (plan : list (string * DayInfo)) (acc : WeeklyAnalysis) (n : string) :
  n ∈ cooking_project_days acc →
  n ∈ cooking_project_days (fold_left (analyze_day self) plan acc).
Proof.
  revert acc. induction plan as [|item plan IH]; intros acc Hn; [done|].
  cbn [fold_left]. now apply IH, analyze_day_cooking_mono.
Qed.

Lemma fold_analyze_day_prep_mono (self : t)
    (plan : list (string * DayInfo)) (acc : WeeklyAnalysis) (n : string) :
  n ∈ best_prep_days acc →
  n ∈ best_prep_days (fold_left (analyze_day self) plan acc).
Proof.
  revert acc. induction plan as [|item plan IH]; intros acc Hn; [done|].
  cbn [fold_left]. now apply IH, analyze_day_prep_mono.
Qed.

Lemma weekend_name_iff (n : string) :
  py_in n ["Sunday"; "Saturday"] = true ↔ n = "Sunday" ∨ n = "Saturday".
Proof.
  rewrite py_in_true, !elem_of_cons, elem_of_nil. tauto.
Qed.

(** What one turn of the loop does with a light day. *)
Lemma analyze_day_light (self : t) (acc : WeeklyAnalysis)
    (item : string * DayInfo) :
  let date_str := default "" (date (snd item)) in
  let n := default "" (day_name (snd item)) in
  is_busy (is_busy_day self date_str) = false →
  (n = "Sunday" ∨ n = "Saturday" →
   n ∈ best_prep_days (analyze_day self acc item)) ∧
  (n ≠ "Sunday" → n ≠ "Saturday" →
   (total_hours (is_busy_day self date_str) < 2)%Q →
   n ∈ cooking_project_days (analyze_day self acc item)).
Proof.
  cbv zeta. intros Hlight. unfold analyze_day. rewrite Hlight.
  cbn [best_prep_days cooking_project_days]. split.
  - intros Hn. apply weekend_name_iff in Hn. rewrite Hn.
    apply elem_of_app. right. now apply list_elem_of_singleton.
  - intros Hsun Hsat Hlt.
    destruct (py_in _ ["Sunday"; "Saturday"]) eqn:E.
    + apply weekend_name_iff in E. tauto.
    + apply Qltb_lt in Hlt. rewrite Hlt.
      apply elem_of_app. right. now apply list_elem_of_singleton.
Qed.

Lemma fold_analyze_day_light (self : t) (plan : list (string * DayInfo))
    (acc : WeeklyAnalysis) (item : string * DayInfo) :
  item ∈ plan →
  let date_str := default "" (date (snd item)) in
  let n := default "" (day_name (snd item)) in
  is_busy (is_busy_day self date_str) = false →
  (n = "Sunday" ∨ n = "Saturday" →
   n ∈ best_prep_days (fold_left (analyze_day self) plan acc)) ∧
  (n ≠ "Sunday" → n ≠ "Saturday" →
   (total_hours (is_busy_day self date_str) < 2)%Q →
   n ∈ cooking_project_days (fold_left (analyze_day self) plan acc)).
Proof.
  cbv zeta. revert acc. induction plan as [|x plan IH]; intros acc Hin Hlight.
  - now apply elem_of_nil in Hin.
  - cbn [fold_left]. apply elem_of_cons in Hin as [->|Hin]; [|now apply IH].
    destruct (analyze_day_light self acc x Hlight) as [Hprep Hcook].
    split.
    + intros Hn. now apply fold_analyze_day_prep_mono, Hprep.
    + intros Hsun Hsat Hlt. now apply fold_analyze_day_cooking_mono, Hcook.
Qed.

(** No turn of the loop files a Saturday or a Sunday as a cooking project
    day. *)
Lemma fold_analyze_day_no_weekend (self : t) (plan : list (string * DayInfo))
    (acc : WeeklyAnalysis) :
  (∀ n, n ∈ cooking_project_days acc → n ≠ "Sunday" ∧ n ≠ "Saturday") →
  ∀ n, n ∈ cooking_project_days (fold_left (analyze_day self) plan acc) →
       n ≠ "Sunday" ∧ n ≠ "Saturday".
Proof.
  revert acc. induction plan as [|x plan IH]; intros acc Hacc; [done|].
  cbn [fold_left]. apply IH. intros n. unfold analyze_day.
  destruct (is_busy _); cbn [cooking_project_days]; [apply Hacc|].
  destruct (py_in _ ["Sunday"; "Saturday"]) eqn:E; [apply Hacc|].
  destruct (Qltb _ _); [|apply Hacc].
  intros Hn. apply elem_of_app in Hn as [Hn|Hn]; [now apply Hacc|].
  apply list_elem_of_singleton in Hn as ->.
  split; intros Heq; rewrite Heq in E; discriminate E.
Qed.

(** C6, as the code has it.  For every weekly meal plan and every
    calendar, a day of the plan that is classified as light, has fewer than
    2 busy hours and is not named Saturday or Sunday appears in
    [cooking_project_days]; a light day named Saturday or Sunday appears in
    [best_prep_days], and no Saturday or Sunday is ever among the
    [cooking_project_days]. *)
Theorem light_weekdays_are_cooking_project_days (self : t)
    (week_meal_plan : list (string * DayInfo)) (item : string * DayInfo) :
  item ∈ week_meal_plan →
  let date_str := default "" (date (snd item)) in
  let n := default "" (day_name (snd item)) in
  let weekly_analysis := analyze_weekly_schedule self week_meal_plan in
  is_busy (is_busy_day self date_str) = false →
  (n ≠ "Sunday" → n ≠ "Saturday" →
   (total_hours (is_busy_day self date_str) < 2)%Q →
   n ∈ cooking_project_days weekly_analysis) ∧
  (n = "Sunday" ∨ n = "Saturday" → n ∈ best_prep_days weekly_analysis) ∧
  (∀ m, m ∈ cooking_project_days weekly_analysis →
        m ≠ "Sunday" ∧ m ≠ "Saturday").
Proof.
  intros Hin. cbv zeta. intros Hlight.
  unfold analyze_weekly_schedule. cbn [cooking_project_days best_prep_days].
  destruct (fold_analyze_day_light self week_meal_plan
              {| busy_days := []; light_days := []; best_prep_days := [];
                 late_night_needed := []; cooking_project_days := [];
                 weekly_recommendations := None |} item Hin Hlight)
    as [Hprep Hcook].
  split; [exact Hcook | split; [exact Hprep|]].
  apply fold_analyze_day_no_weekend. cbn. intros m Hm.
  now apply elem_of_nil in Hm.
Qed.

(** A week with meetings on Monday and a long Tuesday. *)
Lemma light_weekdays_are_cooking_project_days_witness :
  let self :=
    add_mock_events
      (add_mock_events init "2024-01-08"
         [ {| event_name := "Work meetings"; duration_hours := Some 6%Q |};
           {| event_name := "Commute"; duration_hours := Some (3 # 2)%Q |} ])
      "2024-01-09"
      [ {| event_name := "Work"; duration_hours := Some 8%Q |};
        {| event_name := "Evening event"; duration_hours := Some 2%Q |} ] in
  let week_meal_plan :=
    [ ("day_0", plan_day "2024-01-06" "Saturday");
      ("day_1", plan_day "2024-01-07" "Sunday");
      ("day_2", plan_day "2024-01-08" "Monday");
      ("day_3", plan_day "2024-01-09" "Tuesday");
      ("day_4", plan_day "2024-01-10" "Wednesday") ] in
  let weekly_analysis := analyze_weekly_schedule self week_meal_plan in
  "Wednesday" ∈ cooking_project_days weekly_analysis ∧
  "Saturday" ∈ best_prep_days weekly_analysis.
Proof.
  cbv zeta. split.
  - refine (proj1 (light_weekdays_are_cooking_project_days _ _
              ("day_4", plan_day "2024-01-10" "Wednesday") _ _) _ _ _).
    + do 4 apply list_elem_of_further. apply list_elem_of_here.
    + vm_compute. reflexivity.
    + discriminate.
    + discriminate.
    + vm_compute. reflexivity.
  - refine (proj1 (proj2 (light_weekdays_are_cooking_project_days _ _
              ("day_0", plan_day "2024-01-06" "Saturday") _ _)) _).
    + apply list_elem_of_here.
    + vm_compute. reflexivity.
    + now right.
Defined.

(** C6, as stated, fails: a Saturday with no event is light and has 0 busy
    hours, and it is filed under [best_prep_days] only. *)
Lemma light_saturday_is_no_cooking_project_day :
  let week_meal_plan := [ ("day_0", plan_day "2024-01-06" "Saturday") ] in
  let weekly_analysis := analyze_weekly_schedule init week_meal_plan in
  is_busy (is_busy_day init "2024-01-06") = false ∧
  (total_hours (is_busy_day init "2024-01-06") < 2)%Q ∧
  map day (light_days weekly_analysis) = ["Saturday"] ∧
  map busy_hours (light_days weekly_analysis) = [0%Q] ∧
  cooking_project_days weekly_analysis = [] ∧
  best_prep_days weekly_analysis = ["Saturday"].
Proof. cbv zeta. repeat split; vm_compute; reflexivity. Qed.

End WeeklySchedule.

(** * Further properties *)

(** ** What a recommendation never contains *)

Section SelectionSound.
Import SmartMealRotator.

Lemma drop_elem_of_le {A} (l : list A) (a b : nat) (x : A) :
  (b ≤ a)%nat → x ∈ drop a l → x ∈ drop b l.
Proof.
  intros Hle Hx. replace a with (b + (a - b))%nat in Hx by lia.
  rewrite <- drop_drop in Hx.
  rewrite <- (take_drop (a - b) (drop b l)). apply elem_of_app. now right.
Qed.

Lemma was_served_recently_1 (prefs : Prefs.t) (r : Recipe) :
  Prefs.was_served_recently prefs r 1 = true ↔ served_within_1_week prefs r.
Proof. unfold Prefs.was_served_recently. apply py_in_true. Qed.

Lemma served_1_week_2_weeks (prefs : Prefs.t) (r : Recipe) :
  served_within_1_week prefs r → served_within_2_weeks prefs r.
Proof.
  unfold served_within_1_week, served_within_2_weeks.
  rewrite !list_elem_of_In, !in_map_iff.
  intros (m & Hm & Hin). exists m. split; [done|].
  apply list_elem_of_In. apply list_elem_of_In in Hin.
  eapply drop_elem_of_le; [|exact Hin]. lia.
Qed.

Lemma passes_first_acceptable (prefs : Prefs.t) (r : Recipe) :
  passes_first prefs r = true → acceptable prefs r.
Proof.
  intros H. apply passes_first_compliant in H as (Hd & Hb & Hs).
  repeat split; [done | done |]. intros H1. now apply Hs, served_1_week_2_weeks.
Qed.

Lemma passes_second_acceptable (prefs : Prefs.t) (r : Recipe) :
  passes_second prefs r = true ↔ acceptable prefs r.
Proof.
  unfold passes_second, acceptable.
  rewrite <- was_served_recently_1, <- recipe_is_banned_iff.
  destruct (Prefs.recipe_contains_dislikes prefs r),
    (Prefs.recipe_is_banned prefs r), (Prefs.was_served_recently prefs r 1);
    cbn; (split; [try discriminate; intros _; repeat split; congruence
                 | intros (H1 & H2 & H3); congruence]).
Qed.

Lemma second_pass_acceptable (prefs : Prefs.t) (recipes acc : list Recipe) :
  Forall (acceptable prefs) acc →
  Forall (acceptable prefs) (second_pass prefs recipes acc).
Proof.
  unfold second_pass. revert acc.
  induction recipes as [|x recipes IH]; intros acc Hacc; cbn [fold_left]; [done|].
  apply IH. destruct (passes_second prefs x) eqn:E; [|done].
  destruct (py_in x acc); cbn [negb]; [done|].
  apply Forall_app. split; [done|].
  constructor; [now apply passes_second_acceptable | constructor].
Qed.

Lemma filtered_pool_acceptable (prefs : Prefs.t) (recipes : list Recipe)
    (count : Z) :
  Forall (acceptable prefs) (filtered_pool prefs recipes count).
Proof.
  assert (H1 : Forall (acceptable prefs) (first_pass prefs recipes)).
  { rewrite first_pass_filter. apply Forall_forall. intros r Hr.
    apply list_elem_of_filter in Hr as [Hr _]. now apply passes_first_acceptable. }
  unfold filtered_pool. destruct (_ <? _); [now apply second_pass_acceptable | done].
Qed.

(** Every recipe of a result is a recipe of the selected group that both
    loops accept. *)
Lemma get_smart_recommendations_acceptable (self : t) (prefs : Prefs.t)
    (g : Random.Rng) (meal_type day_type : string) (count : Z) (r : Recipe) :
  r ∈ (get_smart_recommendations self prefs g meal_type day_type count).1 →
  r ∈ select_group self meal_type day_type ∧ acceptable prefs r.
Proof.
  intros Hr. apply get_smart_recommendations_pool in Hr. split.
  - eapply filtered_pool_elem_of, Hr.
  - pose proof (filtered_pool_acceptable prefs
                  (select_group self meal_type day_type) count) as H.
    rewrite Forall_forall in H. now apply H.
Qed.

(** X1.  Whatever the count, the preferences and the shuffles, every
    recipe [get_smart_recommendations] returns belongs to the selected group,
    contains no disliked ingredient, is not banned and is not among the 7
    most recent entries of the history: the second, looser loop relaxes the
    recency window and nothing else. *)
Theorem recommendations_never_banned_or_disliked (self : t) (prefs : Prefs.t)
    (g : Random.Rng) (meal_type day_type : string) (count : Z) :
  ∀ r,
    r ∈ (get_smart_recommendations self prefs g meal_type day_type count).1 →
    r ∈ select_group self meal_type day_type ∧
    Prefs.recipe_contains_dislikes prefs r = false ∧
    ¬ banned prefs r ∧
    ¬ served_within_1_week prefs r.
Proof.
  intros r Hr. apply get_smart_recommendations_acceptable in Hr as [Hg Ha].
  split; [exact Hg | exact Ha].
Qed.

Lemma recommendations_never_banned_or_disliked_witness :
  let prefs :=
    Prefs.add_dislike (Prefs.ban_recipe Prefs.init "Shrimp and Grits")
      "Cheese" in
  Forall (λ r, Prefs.recipe_contains_dislikes prefs r = false ∧
               ¬ banned prefs r)
    (get_smart_recommendations init prefs [2; 1]%nat "dinner" "weekend" 3).1.
Proof.
  cbv zeta. apply Forall_forall. intros r Hr.
  apply recommendations_never_banned_or_disliked in Hr
    as (_ & Hd & Hb & _).
  split; [exact Hd | exact Hb].
Defined.

(** X2.  Once [ban_recipe(title)] has been called, no call of
    [get_smart_recommendations] returns a recipe of that title, whatever the
    state before the ban. *)
Theorem banned_title_never_recommended (self : t) (prefs : Prefs.t)
    (recipe_title : string) (g : Random.Rng) (meal_type day_type : string)
    (count : Z) :
  ∀ r,
    r ∈ (get_smart_recommendations self (Prefs.ban_recipe prefs recipe_title)
           g meal_type day_type count).1 →
    title r ≠ recipe_title.
Proof.
  intros r Hr Heq.
  apply get_smart_recommendations_acceptable in Hr as [_ (_ & Hb & _)].
  apply Hb. unfold banned, Prefs.ban_recipe. rewrite Heq.
  destruct (py_in recipe_title _) eqn:E; cbn [negb].
  - now apply py_in_true in E.
  - cbn. apply elem_of_app. right. now apply list_elem_of_singleton.
Qed.

Lemma banned_title_never_recommended_witness :
  Forall (λ r, title r ≠ "Quinoa Power Bowl")
    (get_smart_recommendations init
       (Prefs.ban_recipe Prefs.init "Quinoa Power Bowl")
       [1; 3; 0]%nat "lunch" "weekday" 4).1.
Proof.
  apply Forall_forall. intros r Hr.
  exact (banned_title_never_recommended _ _ _ _ _ _ _ r Hr).
Defined.

Lemma log_meal_last (prefs : Prefs.t) (recipe_title date : string) :
  ∃ older,
    Prefs.history (Prefs.log_meal prefs recipe_title date)
    = older ++ [ Prefs.to_meal (recipe_title, date) ].
Proof.
  unfold Prefs.log_meal, Prefs.history, Prefs.to_meal. cbn [fst snd].
  set (h := Prefs.last_4_weeks (Prefs.meal_history prefs)).
  set (m := {| Prefs.recipe := recipe_title; Prefs.date := date |}).
  destruct (len (h ++ [m]) >? 28); cbn.
  - unfold slice_from. cbn. rewrite length_app. cbn [length].
    exists (drop (length h + 1 - 28) h). rewrite drop_app_le by lia. done.
  - now exists h.
Qed.

(** X3.  Once [log_meal(title, date)] has recorded a meal, the next call of
    [get_smart_recommendations] returns no recipe of that title: the new
    entry is among the 7 most recent, which both loops exclude. *)
Theorem logged_meal_not_recommended_next (self : t) (prefs : Prefs.t)
    (recipe_title date : string) (g : Random.Rng)
    (meal_type day_type : string) (count : Z) :
  ∀ r,
    r ∈ (get_smart_recommendations self
           (Prefs.log_meal prefs recipe_title date)
           g meal_type day_type count).1 →
    title r ≠ recipe_title.
Proof.
  intros r Hr Heq.
  apply get_smart_recommendations_acceptable in Hr as [_ (_ & _ & Hs)].
  apply Hs. unfold served_within_1_week.
  destruct (log_meal_last prefs recipe_title date) as [older ->].
  rewrite length_app. cbn [length].
  rewrite drop_app_le by lia. rewrite map_app. cbn [map].
  apply elem_of_app. right. apply list_elem_of_singleton. now rewrite Heq.
Qed.

Lemma logged_meal_not_recommended_next_witness :
  Forall (λ r, title r ≠ "Baked Salmon with Roasted Vegetables")
    (get_smart_recommendations init
       (Prefs.log_meal Prefs.init "Baked Salmon with Roasted Vegetables"
          "2024-01-08")
       [0; 2; 1]%nat "dinner" "weekday" 4).1.
Proof.
  apply Forall_forall. intros r Hr.
  exact (logged_meal_not_recommended_next _ _ _ _ _ _ _ _ r Hr).
Defined.

Lemma fill_NoDup (count : Z) (non_favorites result : list Recipe) :
  NoDup result → NoDup (fill count result non_favorites).
Proof.
  revert result. induction non_favorites as [|x rest IH]; intros result Hnd;
    cbn [fill]; [done|].
  destruct (_ >=? _); [done|].
  destruct (py_in x result) eqn:E; cbn [negb]; apply IH; [done|].
  apply NoDup_snoc; [done | now apply py_in_false].
Qed.

(** X4.  With the application's database, a result never lists a recipe
    twice. *)
Theorem recommendations_NoDup (prefs : Prefs.t) (g : Random.Rng)
    (meal_type day_type : string) (count : Z) :
  NoDup (get_smart_recommendations init prefs g meal_type day_type count).1.
Proof.
  destruct (get_smart_recommendations_eq init prefs g meal_type day_type count)
    as (favorites & non_favorites & Hf & _ & ->).
  apply slice_to_NoDup, fill_NoDup, slice_to_NoDup.
  rewrite Hf. apply NoDup_filter, filtered_pool_NoDup, select_group_NoDup.
Qed.

(** X5.  When every recipe of the selected group is banned or contains a
    disliked ingredient, the call returns the empty list; it does not
    fail. *)
Theorem recommendations_empty_when_all_excluded (self : t) (prefs : Prefs.t)
    (g : Random.Rng) (meal_type day_type : string) (count : Z) :
  (∀ r, r ∈ select_group self meal_type day_type →
        banned prefs r ∨ Prefs.recipe_contains_dislikes prefs r = true) →
  (get_smart_recommendations self prefs g meal_type day_type count).1 = [].
Proof.
  intros Hall.
  destruct (get_smart_recommendations self prefs g meal_type day_type count).1
    as [|r rest] eqn:E; [done|].
  assert (Hr : r ∈ (get_smart_recommendations self prefs g meal_type day_type
                      count).1) by (rewrite E; apply list_elem_of_here).
  apply get_smart_recommendations_acceptable in Hr as [Hg (Hd & Hb & _)].
  destruct (Hall r Hg) as [H|H]; [contradiction | congruence].
Qed.

Lemma recommendations_empty_when_all_excluded_witness :
  let prefs :=
    Prefs.add_dislike
      (Prefs.ban_recipe Prefs.init
         "Southern Fried Chicken with Mac and Cheese") "Onions" in
  (get_smart_recommendations init prefs [4; 1]%nat "dinner" "weekend" 5).1
  = [].
Proof.
  cbv zeta.
  apply (recommendations_empty_when_all_excluded init
           (Prefs.add_dislike
              (Prefs.ban_recipe Prefs.init
                 "Southern Fried Chicken with Mac and Cheese")
              "Onions")).
  intros r Hr. apply list_elem_of_In in Hr. vm_compute in Hr.
  destruct Hr as [<-|[<-|[<-|[]]]].
  - left. apply py_in_true. vm_compute. reflexivity.
  - right. vm_compute. reflexivity.
  - right. vm_compute. reflexivity.
Defined.

(** X6.  [get_recipes_by_day_type] hands out the group that
    [get_smart_recommendations] draws from, for the three meals; the two
    part ways on any other meal of a weekday, where the first answers with
    the empty list and the second falls back on the weekday dinners. *)
Theorem get_recipes_by_day_type_select_group (self : t)
    (day_type meal : string) :
  (meal = "breakfast" ∨ meal = "lunch" ∨ meal = "dinner" ∨
   day_type = "weekend" →
   get_recipes_by_day_type self day_type meal
   = select_group self meal day_type) ∧
  (meal ≠ "breakfast" → meal ≠ "lunch" → meal ≠ "dinner" →
   day_type ≠ "weekend" →
   get_recipes_by_day_type self day_type meal = [] ∧
   select_group self meal day_type = weekday_dinner (expanded_recipes self)).
Proof.
  unfold get_recipes_by_day_type, select_group. split.
  - intros H. repeat case_bool_decide; try reflexivity.
    destruct H as [?|[?|[?|?]]]; congruence.
  - intros Hb Hl Hd Hw. repeat case_bool_decide; try congruence. done.
Qed.

End SelectionSound.

(** ** The preference state under every call *)

Section PreferenceState.
Import FamilyPreferencesManager.

(** Each call leaves alone the lists it is not about. *)
Lemma add_dislike_frame (self : t) (x : string) :
  bans (add_dislike self x) = bans self ∧
  favorites (add_dislike self x) = favorites self ∧
  history (add_dislike self x) = history self.
Proof.
  unfold add_dislike.
  repeat match goal with |- context [if ?b then _ else _] => destruct b end;
    done.
Qed.

Lemma add_love_frame (self : t) (x : string) :
  bans (add_love self x) = bans self ∧
  favorites (add_love self x) = favorites self ∧
  history (add_love self x) = history self.
Proof.
  unfold add_love.
  repeat match goal with |- context [if ?b then _ else _] => destruct b end;
    done.
Qed.

Lemma ban_recipe_frame (self : t) (x : string) :
  dislikes (ban_recipe self x) = dislikes self ∧
  loves (ban_recipe self x) = loves self ∧
  favorites (ban_recipe self x) = favorites self ∧
  history (ban_recipe self x) = history self.
Proof. unfold ban_recipe. now destruct (negb _). Qed.

Lemma add_favorite_frame (self : t) (x : string) :
  dislikes (add_favorite self x) = dislikes self ∧
  loves (add_favorite self x) = loves self ∧
  bans (add_favorite self x) = bans self ∧
  history (add_favorite self x) = history self.
Proof. unfold add_favorite. now destruct (negb _). Qed.

Lemma log_meal_frame (self : t) (x d : string) :
  dislikes (log_meal self x d) = dislikes self ∧
  loves (log_meal self x d) = loves self ∧
  bans (log_meal self x d) = bans self ∧
  favorites (log_meal self x d) = favorites self.
Proof. unfold log_meal. now destruct (_ >? _). Qed.

Lemma ban_recipe_bans (self : t) (x : string) :
  (NoDup (bans self) → NoDup (bans (ban_recipe self x))) ∧
  ∀ y, y ∈ bans (ban_recipe self x) ↔ y ∈ bans self ∨ y = x.
Proof.
  unfold ban_recipe. fold (bans self).
  destruct (py_in x (bans self)) eqn:E; cbn [negb].
  - apply py_in_true in E. split; [done|]. intros y. split; [auto|].
    intros [H | ->]; done.
  - apply py_in_false in E. unfold bans. cbn. split.
    + intros H. now apply NoDup_snoc.
    + intros y. now rewrite elem_of_app, list_elem_of_singleton.
Qed.

Lemma add_favorite_favorites (self : t) (x : string) :
  (NoDup (favorites self) → NoDup (favorites (add_favorite self x))) ∧
  ∀ y, y ∈ favorites (add_favorite self x) ↔ y ∈ favorites self ∨ y = x.
Proof.
  unfold add_favorite. fold (favorites self).
  destruct (py_in x (favorites self)) eqn:E; cbn [negb].
  - apply py_in_true in E. split; [done|]. intros y. split; [auto|].
    intros [H | ->]; done.
  - apply py_in_false in E. unfold favorites. cbn. split.
    + intros H. now apply NoDup_snoc.
    + intros y. now rewrite elem_of_app, list_elem_of_singleton.
Qed.

Lemma log_meal_length (self : t) (x d : string) :
  (length (history self) ≤ 28)%nat →
  (length (history (log_meal self x d)) ≤ 28)%nat.
Proof.
  intros H. unfold log_meal. fold (history self).
  destruct (Z.gtb_spec (len (history self ++ [ {| recipe := x; date := d |} ]))
              28) as [Hgt|Hle]; unfold history, set_last_4_weeks; cbn.
  - unfold slice_from. cbn. rewrite length_drop, length_app. cbn.
    change (Z.to_nat (- (-28))) with 28%nat. lia.
  - unfold len, history in Hle. rewrite length_app in Hle |- *.
    cbn [length] in *. lia.
Qed.

(** The state every run of calls reaches from a state that has it. *)
Lemma run_sound (actions : list Action) (self : t) :
  exclusive self → NoDup (bans self) → NoDup (favorites self) →
  (length (history self) ≤ 28)%nat →
  exclusive (run actions self) ∧ NoDup (bans (run actions self)) ∧
  NoDup (favorites (run actions self)) ∧
  (length (history (run actions self)) ≤ 28)%nat.
Proof.
  revert self. induction actions as [|a actions IH];
    intros self Hex Hb Hf Hh; [done|].
  cbn [run fold_left]. fold (run actions (act self a)).
  assert (Hstep : exclusive (act self a) ∧ NoDup (bans (act self a)) ∧
                  NoDup (favorites (act self a)) ∧
                  (length (history (act self a)) ≤ 28)%nat).
  { destruct a as [x|x|x|x|x d]; cbn [act].
    - destruct (add_dislike_frame self x) as (Hb' & Hf' & Hh').
      rewrite Hb', Hf', Hh'. split; [now apply add_dislike_spec | done].
    - destruct (add_love_frame self x) as (Hb' & Hf' & Hh').
      rewrite Hb', Hf', Hh'. split; [now apply add_love_spec | done].
    - destruct (ban_recipe_frame self x) as (Hd' & Hl' & Hf' & Hh').
      rewrite Hf', Hh'. unfold exclusive. rewrite Hd', Hl'.
      split; [exact Hex | split; [now apply ban_recipe_bans | done]].
    - destruct (add_favorite_frame self x) as (Hd' & Hl' & Hb' & Hh').
      rewrite Hb', Hh'. unfold exclusive. rewrite Hd', Hl'.
      split; [exact Hex | split; [done | split; [|done]]].
      now apply add_favorite_favorites.
    - destruct (log_meal_frame self x d) as (Hd' & Hl' & Hb' & Hf').
      rewrite Hb', Hf'. unfold exclusive. rewrite Hd', Hl'.
      split; [exact Hex | split; [done | split; [done|]]].
      now apply log_meal_length. }
  destruct Hstep as (? & ? & ? & ?). now apply IH.
Qed.

(** X7.  From the initial state, every interleaving of [add_dislike],
    [add_love], [ban_recipe], [add_favorite] and [log_meal] keeps the four
    lists free of repeats, the dislikes and the loves without a common
    entry, and the history at 28 entries at most. *)
Theorem preference_state_sound (actions : list Action) :
  let self := run actions init in
  NoDup (dislikes self) ∧ NoDup (loves self) ∧
  (∀ x, x ∈ dislikes self → x ∉ loves self) ∧
  NoDup (bans self) ∧ NoDup (favorites self) ∧
  (length (history self) ≤ 28)%nat.
Proof.
  cbv zeta.
  destruct (run_sound actions init) as ((Hd & Hl & Hdl) & Hb & Hf & Hh).
  - apply exclusive_init.
  - constructor.
  - constructor.
  - cbn. lia.
  - repeat split; assumption.
Qed.

Lemma run_snoc (actions : list Action) (a : Action) (self : t) :
  run (actions ++ [a]) self = act (run actions self) a.
Proof. unfold run. now rewrite fold_left_app. Qed.

(** X8.  No call lifts a ban or drops a favorite: after any run of calls
    from the initial state, the never-suggest list holds exactly the titles
    the run banned, and the favorites exactly the titles it marked. *)
Theorem bans_and_favorites_accumulate (actions : list Action) :
  let self := run actions init in
  (∀ x, x ∈ bans self ↔ x ∈ banned_in actions) ∧
  (∀ x, x ∈ favorites self ↔ x ∈ favorites_in actions).
Proof.
  cbv zeta. induction actions as [|a actions [IHb IHf]] using rev_ind.
  - split; intros x; cbn; split; intros H; now apply elem_of_nil in H.
  - rewrite run_snoc. unfold banned_in, favorites_in. rewrite !omap_app.
    fold (banned_in actions) (favorites_in actions).
    split; intros x; rewrite elem_of_app; destruct a as [y|y|y|y|y d];
      cbn [act omap list_omap]; rewrite ?elem_of_nil, ?list_elem_of_singleton.
    + destruct (add_dislike_frame (run actions init) y) as (-> & _).
      rewrite IHb. tauto.
    + destruct (add_love_frame (run actions init) y) as (-> & _).
      rewrite IHb. tauto.
    + destruct (ban_recipe_bans (run actions init) y) as [_ ->].
      now rewrite IHb.
    + destruct (add_favorite_frame (run actions init) y) as (_ & _ & -> & _).
      rewrite IHb. tauto.
    + destruct (log_meal_frame (run actions init) y d) as (_ & _ & -> & _).
      rewrite IHb. tauto.
    + destruct (add_dislike_frame (run actions init) y) as (_ & -> & _).
      rewrite IHf. tauto.
    + destruct (add_love_frame (run actions init) y) as (_ & -> & _).
      rewrite IHf. tauto.
    + destruct (ban_recipe_frame (run actions init) y) as (_ & _ & -> & _).
      rewrite IHf. tauto.
    + destruct (add_favorite_favorites (run actions init) y) as [_ ->].
      now rewrite IHf.
    + destruct (log_meal_frame (run actions init) y d) as (_ & _ & _ & ->).
      rewrite IHf. tauto.
Qed.

End PreferenceState.

(** ** The buckets of sale items *)

Section SaleBuckets.
Import SaleBasedRecommendationEngine.

Lemma fold_classify_buckets (items : list SaleItem) (acc : SaleMatches) :
  let sale_matches := fold_left classify items acc in
  map sale_info (proteins sale_matches)
  = map sale_info (proteins acc)
    ++ filter (λ item, names_protein item = true) items ∧
  map sale_info (vegetables sale_matches)
  = map sale_info (vegetables acc)
    ++ filter (λ item, names_protein item = false ∧
                       names_vegetable item = true) items ∧
  map sale_info (pantry sale_matches)
  = map sale_info (pantry acc)
    ++ filter (λ item, names_protein item = false ∧
                       names_vegetable item = false ∧
                       names_pantry item = true) items.
Proof.
  cbv zeta. revert acc. induction items as [|item items IH]; intros acc.
  - cbn [fold_left]. rewrite !filter_nil, !app_nil_r. done.
  - cbn [fold_left]. destruct (IH (classify acc item)) as (-> & -> & ->).
    rewrite !filter_cons. unfold classify.
    fold (names_protein item) (names_vegetable item) (names_pantry item).
    destruct (names_protein item); [|destruct (names_vegetable item);
      [|destruct (names_pantry item)]];
      cbn [proteins vegetables pantry];
      repeat (rewrite decide_True by done);
      repeat (rewrite decide_False by (intros H; decompose [and] H; congruence));
      rewrite ?map_app; cbn [map sale_info]; rewrite <- ?app_assoc; done.
Qed.

(** X9.  [get_sale_ingredient_matches] files every item once at most, in
    the order of the list, by the first of the three keyword lists that its
    lower-cased name meets: the proteins bucket carries exactly the items
    that name a protein, the vegetables bucket those that name no protein
    but a vegetable, the pantry bucket those that name neither but a pantry
    keyword. *)
Theorem buckets_by_first_keyword (sale_items : list SaleItem) :
  let sale_matches := get_sale_ingredient_matches sale_items in
  map sale_info (proteins sale_matches)
  = filter (λ item, names_protein item = true) sale_items ∧
  map sale_info (vegetables sale_matches)
  = filter (λ item, names_protein item = false ∧
                    names_vegetable item = true) sale_items ∧
  map sale_info (pantry sale_matches)
  = filter (λ item, names_protein item = false ∧
                    names_vegetable item = false ∧
                    names_pantry item = true) sale_items.
Proof.
  cbv zeta. unfold get_sale_ingredient_matches.
  destruct (fold_classify_buckets sale_items
              {| proteins := []; vegetables := []; pantry := [] |})
    as (-> & -> & ->). done.
Qed.

Lemma classify_filed_by (acc : SaleMatches) (item : SaleItem) :
  filed_by_classify acc → filed_by_classify (classify acc item).
Proof.
  intros (Hp & Hv & Hn). unfold classify.
  fold (names_protein item) (names_vegetable item) (names_pantry item).
  assert (Hsnoc : ∀ (P : SaleMatch → Prop) l m,
            Forall P l → P m → Forall P (l ++ [m])).
  { intros P l m Hl Hm. apply Forall_app. split; [done|]. now constructor. }
  destruct (names_protein item) eqn:Ep; [|destruct (names_vegetable item) eqn:Ev;
    [|destruct (names_pantry item) eqn:En]];
    unfold filed_by_classify; cbn [proteins vegetables pantry].
  - split; [|done]. apply Hsnoc; [done|]. cbn. auto.
  - split; [done|]. split; [|done]. apply Hsnoc; [done|]. cbn. auto.
  - split; [done|]. split; [done|]. apply Hsnoc; [done|]. cbn. auto.
  - done.
Qed.

Lemma get_sale_ingredient_matches_filed_by (sale_items : list SaleItem) :
  filed_by_classify (get_sale_ingredient_matches sale_items).
Proof.
  unfold get_sale_ingredient_matches.
  assert (H : filed_by_classify
                {| proteins := []; vegetables := []; pantry := [] |})
    by (repeat split; constructor).
  revert H. generalize {| proteins := []; vegetables := []; pantry := [] |}.
  induction sale_items as [|item items IH]; intros acc Hacc; [done|].
  cbn [fold_left]. now apply IH, classify_filed_by.
Qed.

Ltac case_contains n :=
  repeat match goal with
  | |- context [contains ?k n] => destruct (contains k n) eqn:?
  end.

Ltac in_list :=
  repeat first [apply list_elem_of_here | apply list_elem_of_further].

Lemma _extract_vegetable_type_keyword (n : string) :
  any (λ veg, contains veg n) vegetable_keywords = true →
  _extract_vegetable_type n ∈ vegetable_keywords ∧
  contains (_extract_vegetable_type n) n = true.
Proof.
  unfold any, vegetable_keywords, _extract_vegetable_type, veg_map.
  cbn [existsb first_in_map].
  case_contains n; cbn; intros H; try discriminate H; (split; [in_list | assumption]).
Qed.

Lemma _extract_pantry_type_keyword (n : string) :
  any (λ p, contains p n) pantry_keywords = true →
  _extract_pantry_type n ∈ pantry_keywords ∧
  contains (_extract_pantry_type n) n = true.
Proof.
  unfold any, pantry_keywords, _extract_pantry_type. cbn [existsb].
  case_contains n; cbn; intros H; try discriminate H; (split; [in_list | assumption]).
Qed.

Lemma _extract_protein_type_label (n : string) :
  any (λ protein, contains protein n) protein_keywords = true →
  _extract_protein_type n ∈ protein_labels ∧
  (_extract_protein_type n = "protein" → contains "fish" n = true).
Proof.
  unfold any, protein_keywords, _extract_protein_type, protein_labels.
  cbn [existsb].
  case_contains n; cbn; intros H; try discriminate H;
    (split; [in_list | intros E; first [discriminate E | reflexivity]]).
Qed.

(** X10.  The labels of the entries [get_sale_ingredient_matches] files.
    A vegetable or a pantry entry is labelled with a keyword of its bucket
    that occurs in the item's lower-cased name: the fallback labels
    ["vegetables"] and ["pantry item"] are never given.  A protein entry
    carries one of seven labels, and the generic ["protein"] only when the
    name says "fish". *)
Theorem sale_entry_labels (sale_items : list SaleItem) :
  let sale_matches := get_sale_ingredient_matches sale_items in
  (∀ m, m ∈ vegetables sale_matches →
        ingredient m ∈ vegetable_keywords ∧
        contains (ingredient m) (lower (name (sale_info m))) = true) ∧
  (∀ m, m ∈ pantry sale_matches →
        ingredient m ∈ pantry_keywords ∧
        contains (ingredient m) (lower (name (sale_info m))) = true) ∧
  (∀ m, m ∈ proteins sale_matches →
        ingredient m ∈ protein_labels ∧
        (ingredient m = "protein" →
         contains "fish" (lower (name (sale_info m))) = true)).
Proof.
  cbv zeta.
  destruct (get_sale_ingredient_matches_filed_by sale_items) as (Hp & Hv & Hn).
  rewrite Forall_forall in Hp, Hv, Hn.
  split; [|split]; intros m Hm.
  - destruct (Hv m Hm) as [Hk ->]. now apply _extract_vegetable_type_keyword.
  - destruct (Hn m Hm) as [Hk ->]. now apply _extract_pantry_type_keyword.
  - destruct (Hp m Hm) as [Hk ->]. now apply _extract_protein_type_label.
Qed.

End SaleBuckets.

(** ** Ranking: ties, and nothing on sale *)

Section SaleTies.
Import SaleBasedRecommendationEngine.

Lemma key_lt_ties (k : Z * Q) (x y : ScoredRecipe) :
  ties_with k x → ties_with k y → key_lt (key x) (key y) = false.
Proof.
  intros [Hx Vx] [Hy Vy]. apply key_lt_false. right.
  split; [congruence|]. rewrite Vx, Vy. apply Qle_refl.
Qed.

Lemma insert_desc_ties (k : Z * Q) (x : ScoredRecipe)
    (l : list ScoredRecipe) :
  filter (ties_with k) (insert_desc x l) = filter (ties_with k) (x :: l).
Proof.
  induction l as [|y l IH]; cbn [insert_desc]; [done|].
  destruct (key_lt (key x) (key y)) eqn:E; [|done].
  rewrite filter_cons, IH, !filter_cons.
  destruct (decide (ties_with k y)) as [Hy|Hy];
    destruct (decide (ties_with k x)) as [Hx|Hx]; try done.
  rewrite (key_lt_ties k x y Hx Hy) in E. discriminate E.
Qed.

Lemma sort_desc_ties (k : Z * Q) (l : list ScoredRecipe) :
  filter (ties_with k) (sort_desc l) = filter (ties_with k) l.
Proof.
  induction l as [|x l IH]; [done|].
  cbn [sort_desc foldr]. fold (sort_desc l).
  now rewrite insert_desc_ties, !filter_cons, IH.
Qed.

(** A list already in rank order is left as it is. *)
Lemma sort_desc_sorted_id (l : list ScoredRecipe) :
  StronglySorted ranks_before l → sort_desc l = l.
Proof.
  induction 1 as [|x l Hl IH Hx]; [done|].
  cbn [sort_desc foldr]. fold (sort_desc l). rewrite IH.
  destruct l as [|y l']; [done|]. cbn [insert_desc].
  apply Forall_cons in Hx as [Hxy _]. apply key_lt_false in Hxy.
  now rewrite Hxy.
Qed.

Lemma slice_to_map {A B} (f : A → B) (l : list A) (j : Z) :
  slice_to j (map f l) = map f (slice_to j l).
Proof.
  unfold slice_to. rewrite length_map. destruct (j <? 0); apply firstn_map.
Qed.

(** X11.  Candidates that tie on (sale score, total savings) keep the order
    in which the rotator handed them over: for every key, the candidates
    with that key appear in the ranking in their order of the pool. *)
Theorem ranking_keeps_order_of_ties (sale_matches : SaleMatches)
    (all_recipes : list Recipe) (k : Z * Q) :
  filter (ties_with k)
    (sort_desc (map (score_recipe sale_matches) all_recipes))
  = filter (ties_with k) (map (score_recipe sale_matches) all_recipes).
Proof. apply sort_desc_ties. Qed.

Lemma score_recipe_no_sale (r : Recipe) :
  score_recipe (get_sale_ingredient_matches []) r = unscored r.
Proof. reflexivity. Qed.

(** X12.  With no item on sale, [get_sale_based_recommendations] returns
    the rotator's candidates for twice the count, cut to [count], in the
    rotator's order, each with sale score 0, no benefit and savings 0. *)
Theorem no_sale_keeps_rotator_order (rotator : SmartMealRotator.t)
    (prefs : Prefs.t) (g : Random.Rng) (meal_type day_type : string)
    (count : Z) :
  (get_sale_based_recommendations rotator prefs g [] meal_type day_type
     count).1
  = map unscored
      (slice_to count
         (SmartMealRotator.get_smart_recommendations rotator prefs g
            meal_type day_type (count * 2)).1).
Proof.
  rewrite get_sale_based_recommendations_rank. unfold rank.
  set (pool := (SmartMealRotator.get_smart_recommendations _ _ _ _ _ _).1).
  rewrite (map_ext _ unscored) by apply score_recipe_no_sale.
  rewrite sort_desc_sorted_id; [apply slice_to_map|].
  induction pool as [|r pool IH]; cbn [map]; constructor; [exact IH|].
  apply Forall_forall. intros x Hx.
  apply list_elem_of_In, in_map_iff in Hx as (r' & <- & _).
  right. split; [reflexivity | apply Qle_refl].
Qed.

(** X13.  Every recipe [get_sale_based_recommendations] returns is a recipe
    of the selected group, scored against the items on sale, that contains
    no disliked ingredient, is not banned and is not among the 7 most recent
    entries of the history; and for a count of 0 or more, at most [count]
    are returned. *)
Theorem sale_recommendations_sound (rotator : SmartMealRotator.t)
    (prefs : Prefs.t) (g : Random.Rng) (sale_items : list SaleItem)
    (meal_type day_type : string) (count : Z) :
  let result :=
    (get_sale_based_recommendations rotator prefs g sale_items
       meal_type day_type count).1 in
  (∀ x, x ∈ result →
        x = score_recipe (get_sale_ingredient_matches sale_items) (base x) ∧
        base x ∈ SmartMealRotator.select_group rotator meal_type day_type ∧
        Prefs.recipe_contains_dislikes prefs (base x) = false ∧
        ¬ SmartMealRotator.banned prefs (base x) ∧
        ¬ SmartMealRotator.served_within_1_week prefs (base x)) ∧
  (0 ≤ count → len result ≤ count).
Proof.
  cbv zeta. rewrite get_sale_based_recommendations_rank. unfold rank. split.
  - intros x Hx. apply slice_to_elem_of in Hx.
    rewrite sort_desc_Permutation in Hx.
    apply list_elem_of_In, in_map_iff in Hx as (r & <- & Hr).
    apply list_elem_of_In, get_smart_recommendations_acceptable in Hr
      as [Hg Ha].
    split; [reflexivity | split; [exact Hg | exact Ha]].
  - intros Hcount. rewrite slice_to_length by lia. lia.
Qed.

End SaleTies.

(** ** The weekly savings summary *)

Section WeeklySavings.
Import PurchaseTimingAnalyzer.

Lemma filter_length_le {A} (P : A → Prop) `{∀ x, Decision (P x)}
    (l : list A) :
  0 ≤ len (filter P l) ≤ len l.
Proof. unfold len. pose proof (length_filter P l). lia. Qed.

(** X14.  For every list of sale items [analyze_weekly_savings] returns a
    summary: the total is the sum of the savings, the high-value count is
    the number of items at 20% or more (between 0 and the length of the
    list), the average discount of a list that is not empty is the sum of
    the discounts over its length, and the message depends on the total
    alone, with strict thresholds: above 20 a great week, above 10 decent
    savings, otherwise (10 included) a light week. *)
Theorem weekly_savings_summary (sale_items : list SaleItem) :
  ∃ r,
    analyze_weekly_savings init sale_items = Ok r ∧
    total_possible_savings r = Qsum (map savings sale_items) ∧
    high_value_count r
    = len (filter (λ item, Qgeb (discount_percentage item) 20 = true)
                  sale_items) ∧
    0 ≤ high_value_count r ≤ len sale_items ∧
    (sale_items ≠ [] →
     average_discount r
     = (Qsum (map discount_percentage sale_items)
        / inject_Z (len sale_items))%Q) ∧
    ((20 < total_possible_savings r)%Q →
     recommendation r
     = "Great week for savings! Focus on items with 20%+ discounts.") ∧
    ((10 < total_possible_savings r)%Q ∧ (total_possible_savings r <= 20)%Q →
     recommendation r
     = "Decent savings available. Consider stocking up on non-perishables.") ∧
    ((total_possible_savings r <= 10)%Q →
     recommendation r
     = "Light sales week. Good time to use up what you have at home.").
Proof.
  unfold analyze_weekly_savings.
  set (total := Qsum (map savings sale_items)).
  set (high := filter _ sale_items).
  assert (Hstrategy :
    ((20 < total)%Q → _get_weekly_strategy init total (len high)
       = "Great week for savings! Focus on items with 20%+ discounts.") ∧
    ((10 < total)%Q ∧ (total <= 20)%Q → _get_weekly_strategy init total (len high)
       = "Decent savings available. Consider stocking up on non-perishables.") ∧
    ((total <= 10)%Q → _get_weekly_strategy init total (len high)
       = "Light sales week. Good time to use up what you have at home.")).
  { unfold _get_weekly_strategy, Qgtb. repeat split.
    - intros H. apply Qltb_lt in H. now rewrite H.
    - intros [H10 H20]. apply Qltb_lt in H10. apply Qltb_ge in H20.
      now rewrite H20, H10.
    - intros H10. assert (H20 : (total <= 20)%Q)
        by (eapply Qle_trans; [exact H10 | discriminate]).
      apply Qltb_ge in H10, H20. now rewrite H20, H10. }
  assert (Hhigh : 0 ≤ len high ≤ len sale_items) by apply filter_length_le.
  destruct sale_items as [|item rest].
  - eexists. split; [reflexivity|]. cbn [total_possible_savings
      high_value_count average_discount recommendation].
    repeat split; try tauto; try lia; apply Hstrategy.
  - unfold truediv.
    destruct (Z.eqb_spec (len (item :: rest)) 0) as [H0|_];
      [unfold len in H0; cbn [length] in H0; lia|].
    eexists. split; [reflexivity|]. cbn [total_possible_savings
      high_value_count average_discount recommendation].
    repeat split; try tauto; try lia; apply Hstrategy.
Qed.

(** X15.  An item that [analyze_weekly_savings] counts as high-value (20%
    or more) is never advised against by [get_recommendation]: the advice is
    to buy now or to buy for this week, with high or medium confidence. *)
Theorem high_value_items_are_bought (item_name : string) (d : Q) :
  Qgeb d 20 = true →
  let r := get_recommendation init item_name d in
  (action r = "🛒 Buy Now & Stock Up" ∧ confidence r = "High") ∨
  (action r = "🛒 Buy for This Week" ∧ confidence r = "Medium").
Proof.
  intros H. cbv zeta. unfold get_recommendation, init.
  cbn [buy_thresholds_excellent buy_thresholds_good buy_thresholds_modest].
  change (inject_Z 25) with 25%Q. change (inject_Z 15) with 15%Q.
  destruct (Qgeb d 25); [now left|].
  apply Qgeb_ge in H.
  assert (H15 : Qgeb d 15 = true).
  { apply Qgeb_ge. eapply Qle_trans; [|exact H]. discriminate. }
  rewrite H15. now right.
Qed.

Lemma high_value_items_are_bought_witness :
  action (get_recommendation init "Chicken Breast" (200 # 9))
  = "🛒 Buy for This Week".
Proof.
  destruct (high_value_items_are_bought "Chicken Breast" (200 # 9) eq_refl)
    as [[H _]|[H _]]; [discriminate H | exact H].
Defined.

End WeeklySavings.

(** ** Busy days *)

Section BusyDays.
Import CalendarIntegrator.

(** X16.  A date for which the calendar holds no entry is a light day: no
    event, 0 hours, not busy, and any style of meal is recommended.  The
    look-up does not fail. *)
Theorem is_busy_day_unknown_date (self : t) (date_str : string) :
  calendar_events self !! date_str = None →
  0 < busy_day_threshold self →
  is_busy_day self date_str
  = {| is_busy := false; total_hours := 0; event_count := 0; events := [];
       recommendation := _get_meal_recommendation false 0 |} ∧
  meal_style (recommendation (is_busy_day self date_str)) = "any_style".
Proof.
  intros Hnone Hpos. unfold is_busy_day. rewrite Hnone. cbn [default fold_left].
  assert (Hq : Qgeb 0 (inject_Z (busy_day_threshold self)) = false).
  { apply Qgeb_lt. rewrite Zlt_Qlt in Hpos. exact Hpos. }
  rewrite Hq. done.
Qed.

Lemma is_busy_day_unknown_date_witness :
  is_busy (is_busy_day
             (add_mock_events init "2024-01-09"
                [ {| event_name := "Work"; duration_hours := Some 8%Q |} ])
             "2024-01-10") = false.
Proof.
  destruct (is_busy_day_unknown_date
              (add_mock_events init "2024-01-09"
                 [ {| event_name := "Work"; duration_hours := Some 8%Q |} ])
              "2024-01-10") as [H _].
  - vm_compute. reflexivity.
  - vm_compute. reflexivity.
  - rewrite H. reflexivity.
Defined.

(** X17.  [add_mock_events] replaces the events of its date and touches no
    other date: the day then analysed has exactly the events given (earlier
    ones for that date are gone, not added to), every other date is analysed
    as before, and of two calls for one date the second alone counts. *)
Theorem add_mock_events_lookup (self : t) (date_str : string)
    (events1 events2 : list Event) :
  events (is_busy_day (add_mock_events self date_str events1) date_str)
  = events1 ∧
  total_hours (is_busy_day (add_mock_events self date_str events1) date_str)
  = hours_of events1 ∧
  (∀ other, other ≠ date_str →
     is_busy_day (add_mock_events self date_str events1) other
     = is_busy_day self other) ∧
  add_mock_events (add_mock_events self date_str events1) date_str events2
  = add_mock_events self date_str events2.
Proof.
  unfold is_busy_day, add_mock_events.
  cbn [calendar_events busy_day_threshold events total_hours].
  rewrite lookup_insert_eq. cbn [default]. repeat split.
  - intros other Hne. now rewrite lookup_insert_ne.
  - now rewrite insert_insert_eq.
Qed.

(** X18.  A day is flagged busy on the number of its events alone, while
    the meal recommendation looks at the hours alone: a day of four events
    or more that total under 4 hours is busy and still gets the
    light-schedule message. *)
Theorem busy_by_count_light_message (self : t) (date_str : string)
    (day_events : list Event) :
  calendar_events self !! date_str = Some day_events →
  4 ≤ len day_events →
  (hours_of day_events < 4)%Q →
  is_busy (is_busy_day self date_str) = true ∧
  message (recommendation (is_busy_day self date_str))
  = "Light schedule - perfect day for cooking projects!".
Proof.
  intros Hsome Hcount Hhours. unfold is_busy_day. rewrite Hsome.
  change (default [] (Some day_events)) with day_events.
  cbn [is_busy recommendation]. fold (hours_of day_events).
  destruct (Z.geb_spec (len day_events) 4) as [_|?]; [|lia].
  rewrite orb_true_r. split; [reflexivity|].
  unfold _get_meal_recommendation.
  assert (H8 : Qgeb (hours_of day_events) 8 = false).
  { apply Qgeb_lt. eapply Qlt_trans; [exact Hhours | reflexivity]. }
  assert (H6 : Qgeb (hours_of day_events) 6 = false).
  { apply Qgeb_lt. eapply Qlt_trans; [exact Hhours | reflexivity]. }
  apply Qgeb_lt in Hhours. now rewrite H8, H6, Hhours.
Qed.

Lemma busy_by_count_light_message_witness :
  let quarter n := {| event_name := n; duration_hours := Some (1 # 2)%Q |} in
  let self :=
    add_mock_events init "2024-01-11"
      [ quarter "School run"; quarter "Call"; quarter "Errand";
        quarter "Pick-up" ] in
  is_busy (is_busy_day self "2024-01-11") = true ∧
  message (recommendation (is_busy_day self "2024-01-11"))
  = "Light schedule - perfect day for cooking projects!".
Proof.
  cbv zeta.
  refine (busy_by_count_light_message _ "2024-01-11" _ _ _ _).
  - vm_compute. reflexivity.
  - vm_compute. discriminate.
  - vm_compute. reflexivity.
Defined.

(** One turn of the weekly loop, by what it reads of the day. *)
Lemma analyze_day_eq (self : t) (acc : WeeklyAnalysis)
    (item : string * DayInfo) :
  analyze_day self acc item
  = if busy_on self item then
      {| busy_days := busy_days acc ++ [entry_of self item];
         light_days := light_days acc;
         best_prep_days := best_prep_days acc;
         late_night_needed :=
           if Qgeb (hours_on self item) 8
           then late_night_needed acc ++ [name_of item]
           else late_night_needed acc;
         cooking_project_days := cooking_project_days acc;
         weekly_recommendations := weekly_recommendations acc |}
    else
      {| busy_days := busy_days acc;
         light_days := light_days acc ++ [entry_of self item];
         best_prep_days :=
           if weekend_named item
           then best_prep_days acc ++ [name_of item]
           else best_prep_days acc;
         late_night_needed := late_night_needed acc;
         cooking_project_days :=
           if weekend_named item then cooking_project_days acc
           else if Qltb (hours_on self item) 2
           then cooking_project_days acc ++ [name_of item]
           else cooking_project_days acc;
         weekly_recommendations := weekly_recommendations acc |}.
Proof. reflexivity. Qed.

Lemma fold_analyze_day_lists (self : t) (plan : list (string * DayInfo))
    (acc : WeeklyAnalysis) :
  let a := fold_left (analyze_day self) plan acc in
  busy_days a
  = busy_days acc
    ++ map (entry_of self) (filter (λ i, busy_on self i = true) plan) ∧
  light_days a
  = light_days acc
    ++ map (entry_of self) (filter (λ i, busy_on self i = false) plan) ∧
  late_night_needed a
  = late_night_needed acc
    ++ map name_of
         (filter (λ i, busy_on self i = true ∧
                       Qgeb (hours_on self i) 8 = true) plan) ∧
  best_prep_days a
  = best_prep_days acc
    ++ map name_of
         (filter (λ i, busy_on self i = false ∧ weekend_named i = true) plan) ∧
  cooking_project_days a
  = cooking_project_days acc
    ++ map name_of
         (filter (λ i, busy_on self i = false ∧ weekend_named i = false ∧
                       Qltb (hours_on self i) 2 = true) plan).
Proof.
  cbv zeta. revert acc. induction plan as [|item plan IH]; intros acc.
  - cbn [fold_left]. rewrite !filter_nil. cbn [map]. rewrite !app_nil_r. done.
  - cbn [fold_left].
    destruct (IH (analyze_day self acc item)) as (-> & -> & -> & -> & ->).
    rewrite analyze_day_eq, !filter_cons.
    destruct (busy_on self item) eqn:Eb;
      [destruct (Qgeb (hours_on self item) 8) eqn:E8
      |destruct (weekend_named item) eqn:Ew;
        [|destruct (Qltb (hours_on self item) 2) eqn:E2]];
      cbn [busy_days light_days late_night_needed best_prep_days
           cooking_project_days];
      repeat (rewrite decide_True by done);
      repeat (rewrite decide_False by (intros H; decompose [and] H; congruence));
      cbn [map]; rewrite <- ?app_assoc; done.
Qed.

(** X19.  [analyze_weekly_schedule] sorts the days of the plan, in the
    plan's order, into busy days and light days, one entry per day; the
    late-night list names the busy days of 8 hours or more, the prep list
    the light days named Saturday or Sunday, the cooking-project list the
    other light days under 2 hours. *)
Theorem weekly_analysis_lists (self : t)
    (week_meal_plan : list (string * DayInfo)) :
  let a := analyze_weekly_schedule self week_meal_plan in
  busy_days a
  = map (entry_of self) (filter (λ i, busy_on self i = true) week_meal_plan) ∧
  light_days a
  = map (entry_of self) (filter (λ i, busy_on self i = false) week_meal_plan) ∧
  len (busy_days a) + len (light_days a) = len week_meal_plan ∧
  late_night_needed a
  = map name_of
      (filter (λ i, busy_on self i = true ∧ Qgeb (hours_on self i) 8 = true)
              week_meal_plan) ∧
  best_prep_days a
  = map name_of
      (filter (λ i, busy_on self i = false ∧ weekend_named i = true)
              week_meal_plan) ∧
  cooking_project_days a
  = map name_of
      (filter (λ i, busy_on self i = false ∧ weekend_named i = false ∧
                    Qltb (hours_on self i) 2 = true) week_meal_plan).
Proof.
  cbv zeta. unfold analyze_weekly_schedule.
  cbn [busy_days light_days late_night_needed best_prep_days
       cooking_project_days].
  destruct (fold_analyze_day_lists self week_meal_plan
              {| busy_days := []; light_days := []; best_prep_days := [];
                 late_night_needed := []; cooking_project_days := [];
                 weekly_recommendations := None |})
    as (-> & -> & -> & -> & ->).
  cbn [busy_days light_days late_night_needed best_prep_days
       cooking_project_days app].
  repeat split.
  unfold len. rewrite !length_map.
  induction week_meal_plan as [|item plan IH]; [done|].
  rewrite !filter_cons. destruct (busy_on self item);
    repeat case_decide; try congruence; cbn [length]; lia.
Qed.

(** X20.  With a busy threshold of 8 hours or less (it is 6), a day of 8
    hours or more is always busy, so the late-night list names every day of
    the plan with 8 hours or more. *)
Theorem long_days_need_late_night (self : t)
    (week_meal_plan : list (string * DayInfo)) :
  busy_day_threshold self ≤ 8 →
  let a := analyze_weekly_schedule self week_meal_plan in
  late_night_needed a
  = map name_of
      (filter (λ i, Qgeb (hours_on self i) 8 = true) week_meal_plan).
Proof.
  intros Hthr. cbv zeta. unfold analyze_weekly_schedule.
  cbn [late_night_needed].
  destruct (fold_analyze_day_lists self week_meal_plan
              {| busy_days := []; light_days := []; best_prep_days := [];
                 late_night_needed := []; cooking_project_days := [];
                 weekly_recommendations := None |})
    as (_ & _ & -> & _). cbn [late_night_needed app].
  f_equal. apply list_filter_iff. intros item. split; [tauto|].
  intros H8. split; [|exact H8].
  unfold busy_on, hours_on, is_busy_day in *. cbn [is_busy total_hours] in *.
  apply orb_true_iff. left. apply Qgeb_ge. apply Qgeb_ge in H8.
  eapply Qle_trans; [|exact H8]. change 8%Q with (inject_Z 8).
  rewrite <- Zle_Qle. exact Hthr.
Qed.

Lemma long_days_need_late_night_witness :
  let self :=
    add_mock_events
      (add_mock_events init "2024-01-08"
         [ {| event_name := "Work meetings"; duration_hours := Some 6%Q |};
           {| event_name := "Commute"; duration_hours := Some (3 # 2)%Q |} ])
      "2024-01-09"
      [ {| event_name := "Work"; duration_hours := Some 8%Q |};
        {| event_name := "Evening event"; duration_hours := Some 2%Q |} ] in
  late_night_needed
    (analyze_weekly_schedule self
       [ ("day_0", plan_day "2024-01-08" "Monday");
         ("day_1", plan_day "2024-01-09" "Tuesday");
         ("day_2", plan_day "2024-01-10" "Wednesday") ])
  = ["Tuesday"].
Proof.
  cbv zeta.
  rewrite long_days_need_late_night; [|vm_compute; discriminate].
  vm_compute. reflexivity.
Defined.

(** X21.  The weekly recommendations follow the lists of the analysis:
    heavy prep from 4 busy days, moderate prep for 2 or 3, minimal prep
    below; a shopping strategy exactly when some day needs a late-night
    meal, a cooking strategy exactly when there is a cooking-project day;
    and between one and four suggestions. *)
Theorem weekly_recommendations_follow_lists (self : t)
    (week_meal_plan : list (string * DayInfo)) :
  let a := analyze_weekly_schedule self week_meal_plan in
  ∃ r,
    weekly_recommendations a = Some r ∧
    (4 ≤ len (busy_days a) →
     meal_prep_strategy r
     = "Heavy prep recommended - prep 3-4 meals on Sunday") ∧
    (2 ≤ len (busy_days a) < 4 →
     meal_prep_strategy r = "Moderate prep - focus on proteins and grains") ∧
    (len (busy_days a) < 2 →
     meal_prep_strategy r = "Minimal prep needed - cook fresh most days") ∧
    (shopping_strategy r = "" ↔ late_night_needed a = []) ∧
    (cooking_strategy r = "" ↔ cooking_project_days a = []) ∧
    1 ≤ len (specific_suggestions r) ≤ 4.
Proof.
  cbv zeta. unfold analyze_weekly_schedule.
  cbn [weekly_recommendations busy_days late_night_needed
       cooking_project_days].
  set (wa := fold_left (analyze_day self) week_meal_plan _).
  eexists. split; [reflexivity|].
  unfold _generate_weekly_recommendations.
  destruct (Z.geb_spec (len (busy_days wa)) 4) as [H4|H4];
    [|destruct (Z.geb_spec (len (busy_days wa)) 2) as [H2|H2]];
    destruct (late_night_needed wa) as [|n1 late];
    destruct (cooking_project_days wa) as [|c1 cook];
    cbn [meal_prep_strategy shopping_strategy cooking_strategy
         specific_suggestions];
    unfold len in *; rewrite ?length_app; cbn [length];
    (repeat split; try lia; try done; try (intros; lia)).
Qed.

End BusyDays.

(** ** The prep plan of a week *)

Section PrepPlanning.
Import MealPrepScheduler.

Lemma categorize_ingredient_cases (self : t) (x : string) :
  categorize_ingredient self x = "proteins" ∨
  categorize_ingredient self x = "vegetables" ∨
  categorize_ingredient self x = "grains" ∨
  categorize_ingredient self x = "sauces_dressings" ∨
  categorize_ingredient self x = "other".
Proof.
  unfold categorize_ingredient.
  repeat match goal with |- context [if ?b then _ else _] => destruct b end;
    auto 6.
Qed.

Lemma gather_day_ingredients (self : t) (acc : Gathered)
    (item : string * Cal.DayInfo) :
  all_ingredients (gather_day self acc item)
  = all_ingredients acc
    ++ flat_map (meal_ingredients self) (meals_of (snd item)).
Proof.
  unfold gather_day. destruct (Cal.late_night (snd item));
    cbn [all_ingredients meals_of fold_left flat_map];
    unfold gather_meal, meal_ingredients;
    repeat case_bool_decide; rewrite ?app_nil_r, <- ?app_assoc; done.
Qed.

Lemma gather_ingredients (self : t) (plan : list (string * Cal.DayInfo))
    (acc : Gathered) :
  all_ingredients (fold_left (gather_day self) plan acc)
  = all_ingredients acc ++ planned_ingredients self plan.
Proof.
  revert acc. induction plan as [|item plan IH]; intros acc; cbn [fold_left].
  - cbn. now rewrite app_nil_r.
  - rewrite IH, gather_day_ingredients. unfold planned_ingredients.
    cbn [flat_map]. now rewrite <- app_assoc.
Qed.

(** The second loop files each ingredient under its category, in the order
    of the walk, and none under ["other"]. *)
Lemma fold_file_ingredient (self : t) (l : list string)
    (c : IngredientsByCategory) :
  let c' := fold_left (file_ingredient self) l c in
  proteins c'
  = proteins c ++ filter (λ x, categorize_ingredient self x = "proteins") l ∧
  vegetables c'
  = vegetables c
    ++ filter (λ x, categorize_ingredient self x = "vegetables") l ∧
  grains c'
  = grains c ++ filter (λ x, categorize_ingredient self x = "grains") l ∧
  sauces_dressings c'
  = sauces_dressings c
    ++ filter (λ x, categorize_ingredient self x = "sauces_dressings") l ∧
  other c' = other c.
Proof.
  cbv zeta. revert c. induction l as [|x l IH]; intros c; cbn [fold_left].
  - rewrite !filter_nil, !app_nil_r. done.
  - destruct (IH (file_ingredient self c x)) as (-> & -> & -> & -> & ->).
    rewrite !filter_cons. unfold file_ingredient, append_to_category.
    destruct (categorize_ingredient_cases self x) as [E|[E|[E|[E|E]]]];
      rewrite E; repeat case_bool_decide; try congruence;
      repeat case_decide; try congruence;
      cbn [proteins vegetables grains sauces_dressings other];
      rewrite <- ?app_assoc; done.
Qed.

Lemma analyze_week_schedule_ingredients (self : t)
    (set_iter : list string → list string)
    (plan : list (string * Cal.DayInfo)) :
  let c := ingredients_by_category (analyze_week_schedule self set_iter plan) in
  let walk := set_iter (planned_ingredients self plan) in
  proteins c = filter (λ x, categorize_ingredient self x = "proteins") walk ∧
  vegetables c
  = filter (λ x, categorize_ingredient self x = "vegetables") walk ∧
  grains c = filter (λ x, categorize_ingredient self x = "grains") walk ∧
  sauces_dressings c
  = filter (λ x, categorize_ingredient self x = "sauces_dressings") walk ∧
  other c = [].
Proof.
  cbv zeta. unfold analyze_week_schedule. cbn [ingredients_by_category].
  rewrite gather_ingredients. cbn [all_ingredients app].
  destruct (fold_file_ingredient self
              (set_iter (planned_ingredients self plan))
              {| proteins := []; vegetables := []; grains := [];
                 sauces_dressings := []; other := [] |})
    as (-> & -> & -> & -> & ->). done.
Qed.

(** X22.  Whatever the order in which the set of ingredients is walked,
    [analyze_week_schedule] lists under each of the four categories exactly
    the ingredients of the week's meals that [categorize_ingredient] puts
    there, each once, and never lists anything under ["other"]. *)
Theorem week_ingredients_by_category (self : t)
    (set_iter : list string → list string)
    (week_meal_plan : list (string * Cal.DayInfo)) :
  walks_set set_iter →
  let c :=
    ingredients_by_category
      (analyze_week_schedule self set_iter week_meal_plan) in
  let planned := planned_ingredients self week_meal_plan in
  (∀ x, x ∈ proteins c ↔
        x ∈ planned ∧ categorize_ingredient self x = "proteins") ∧
  (∀ x, x ∈ vegetables c ↔
        x ∈ planned ∧ categorize_ingredient self x = "vegetables") ∧
  (∀ x, x ∈ grains c ↔
        x ∈ planned ∧ categorize_ingredient self x = "grains") ∧
  (∀ x, x ∈ sauces_dressings c ↔
        x ∈ planned ∧ categorize_ingredient self x = "sauces_dressings") ∧
  NoDup (proteins c) ∧ NoDup (vegetables c) ∧ NoDup (grains c) ∧
  NoDup (sauces_dressings c) ∧
  other c = [].
Proof.
  intros Hwalk. cbv zeta.
  destruct (analyze_week_schedule_ingredients self set_iter week_meal_plan)
    as (-> & -> & -> & -> & ->).
  destruct (Hwalk (planned_ingredients self week_meal_plan)) as [Hnd Hin].
  assert (Hmem : ∀ label x,
    x ∈ filter (λ x, categorize_ingredient self x = label)
               (set_iter (planned_ingredients self week_meal_plan)) ↔
    x ∈ planned_ingredients self week_meal_plan ∧
    categorize_ingredient self x = label).
  { intros label x. rewrite list_elem_of_filter, Hin. tauto. }
  do 4 (split; [apply Hmem|]).
  do 4 (split; [now apply NoDup_filter|]). reflexivity.
Qed.

Lemma first_seen_walks_set : walks_set first_seen.
Proof.
  intros l. split; [apply NoDup_remove_dups | intros x; apply elem_of_remove_dups].
Qed.

Lemma week_ingredients_by_category_witness :
  let plan :=
    [ ("day_0",
       {| Cal.date := Some "2024-01-08"; Cal.day_name := Some "Monday";
          Cal.is_weekend := false;
          Cal.breakfast := "Turkey Sausage and Egg Scramble";
          Cal.lunch := "";
          Cal.dinner := "Grilled Chicken with Quinoa";
          Cal.late_night := false; Cal.prep_needed := false |});
      ("day_1",
       {| Cal.date := Some "2024-01-09"; Cal.day_name := Some "Tuesday";
          Cal.is_weekend := false;
          Cal.breakfast := "";
          Cal.lunch := "Quinoa Power Bowl";
          Cal.dinner := "Baked Salmon with Roasted Vegetables";
          Cal.late_night := true; Cal.prep_needed := false |}) ] in
  let c :=
    ingredients_by_category (analyze_week_schedule init first_seen plan) in
  NoDup (proteins c) ∧ NoDup (vegetables c) ∧ NoDup (grains c) ∧
  NoDup (sauces_dressings c) ∧ other c = [].
Proof.
  cbv zeta.
  refine (proj2 (proj2 (proj2 (proj2
            (week_ingredients_by_category init first_seen _
               first_seen_walks_set))))).
Defined.

Lemma gather_day_tasks (self : t) (acc : Gathered)
    (item : string * Cal.DayInfo) (n : string) :
  gathered_tasks (gather_day self acc item) !! n
  = if Cal.late_night (snd item) && bool_decide (prep_name_of item = n)
    then Some late_night_task
    else gathered_tasks acc !! n.
Proof.
  unfold gather_day. fold (prep_name_of item).
  destruct (Cal.late_night (snd item)); cbn [gathered_tasks andb]; [|done].
  case_bool_decide as E.
  - rewrite E. apply lookup_insert_eq.
  - now apply lookup_insert_ne.
Qed.

Lemma gather_tasks (self : t) (plan : list (string * Cal.DayInfo))
    (acc : Gathered) (n : string) :
  gathered_tasks (fold_left (gather_day self) plan acc) !! n
  = if existsb (λ item, Cal.late_night (snd item)
                        && bool_decide (prep_name_of item = n)) plan
    then Some late_night_task
    else gathered_tasks acc !! n.
Proof.
  revert acc. induction plan as [|item plan IH]; intros acc;
    cbn [fold_left existsb]; [done|].
  rewrite IH, gather_day_tasks.
  destruct (existsb _ plan); [now rewrite orb_true_r|].
  now rewrite orb_false_r.
Qed.

(** X23.  [daily_tasks] has an entry for a day name exactly when some day
    of the plan with that name (["Unknown"] for a day without a name) is
    flagged late-night, and the entry is always the slow-cooker routine;
    two late-night days of one name share one entry. *)
Theorem daily_tasks_are_late_night_days (self : t)
    (set_iter : list string → list string)
    (week_meal_plan : list (string * Cal.DayInfo)) (n : string) :
  let tasks := daily_tasks (analyze_week_schedule self set_iter week_meal_plan) in
  ((∃ item, item ∈ week_meal_plan ∧ Cal.late_night (snd item) = true ∧
            prep_name_of item = n) →
   tasks !! n = Some late_night_task) ∧
  ((∀ item, item ∈ week_meal_plan → Cal.late_night (snd item) = true →
            prep_name_of item ≠ n) →
   tasks !! n = None).
Proof.
  cbv zeta. unfold analyze_week_schedule. cbn [daily_tasks].
  rewrite gather_tasks. cbn [gathered_tasks]. rewrite lookup_empty. split.
  - intros (item & Hin & Hlate & Hname).
    assert (H : existsb (λ item, Cal.late_night (snd item)
                  && bool_decide (prep_name_of item = n)) week_meal_plan = true).
    { apply existsb_exists. exists item. split; [now apply list_elem_of_In|].
      rewrite Hlate. cbn. now apply bool_decide_eq_true. }
    now rewrite H.
  - intros Hnone.
    destruct (existsb _ week_meal_plan) eqn:E; [|done].
    apply existsb_exists in E as (item & Hin & H).
    apply andb_true_iff in H as [Hlate Hname].
    apply bool_decide_eq_true in Hname. apply list_elem_of_In in Hin.
    now destruct (Hnone item Hin Hlate).
Qed.

Lemma sum_minutes_snoc (tasks : list Task) (t : Task) :
  sum_minutes (tasks ++ [t]) = sum_minutes tasks + time_minutes t.
Proof. unfold sum_minutes. now rewrite fold_left_app. Qed.

(** X24.  The total of a schedule is the sum of the minutes of its tasks:
    whatever the plan, and whatever its mid-week list already holds,
    [total_prep_time] equals the minutes of [sunday_prep] plus the minutes
    of [mid_week_prep]. *)
Theorem total_prep_time_is_sum_of_tasks (self : t) (prep_plan : PrepPlan) :
  let schedule := (create_prep_schedule self prep_plan).1 in
  total_prep_time schedule
  = sum_minutes (sunday_prep schedule) + sum_minutes (mid_week_prep schedule).
Proof.
  cbv zeta. unfold create_prep_schedule.
  destruct (proteins (ingredients_by_category prep_plan));
    destruct (grains (ingredients_by_category prep_plan));
    destruct (vegetables (ingredients_by_category prep_plan)) as [|v vs];
    try destruct (slice_to _ (v :: vs));
    try destruct (slice_from _ (v :: vs));
    cbn [fst total_prep_time sunday_prep mid_week_prep app];
    unfold sum_minutes at 2; cbn [fold_left time_minutes]; lia.
Qed.


Lemma slice_from_half (v : list string) :
  v ≠ [] → ∃ a r, slice_from (len v / 2) v = a :: r.
Proof.
  intros Hv. unfold slice_from, len.
  destruct (Z.ltb_spec (Z.of_nat (length v) / 2) 0) as [Hneg|_].
  - pose proof (Z.div_pos (Z.of_nat (length v)) 2). lia.
  - assert (Hlt : (Z.to_nat (Z.of_nat (length v) / 2) < length v)%nat).
    { destruct v as [|a v]; [done|]. cbn [length].
      assert (Z.of_nat (S (length v)) / 2 < Z.of_nat (S (length v)))
        by (apply Z.div_lt; lia).
      pose proof (Z.div_pos (Z.of_nat (S (length v))) 2). lia. }
    destruct (drop _ v) as [|a r] eqn:E; [|eauto].
    apply (f_equal length) in E. rewrite length_drop in E. cbn in E. lia.
Qed.



(** The plan as a call leaves it: its mid-week list is the schedule's. *)
Lemma create_prep_schedule_argument (self : t) (prep_plan : PrepPlan) :
  (create_prep_schedule self prep_plan).2
  = {| sunday_prep := sunday_prep prep_plan;
       mid_week_prep := mid_week_prep (create_prep_schedule self prep_plan).1;
       daily_tasks := daily_tasks prep_plan;
       total_prep_time := total_prep_time prep_plan;
       ingredients_by_category := ingredients_by_category prep_plan |}.
Proof.
  unfold create_prep_schedule.
  destruct (proteins _), (grains _), (vegetables _) as [|v vs];
    try destruct (slice_to _ (v :: vs));
    try destruct (slice_from _ (v :: vs)); reflexivity.
Qed.

Lemma create_prep_schedule_mid_week (self : t) (prep_plan : PrepPlan) :
  vegetables (ingredients_by_category prep_plan) ≠ [] →
  mid_week_prep (create_prep_schedule self prep_plan).1
  = mid_week_prep prep_plan
    ++ [midweek_task self (ingredients_by_category prep_plan)].
Proof.
  intros Hv. unfold midweek_task.
  destruct (slice_from_half _ Hv) as (b & r & Hfrom).
  unfold create_prep_schedule.
  destruct (vegetables (ingredients_by_category prep_plan)) as [|v vs];
    [done|].
  rewrite Hfrom.
  destruct (proteins _), (grains _), (slice_to _ (v :: vs)); reflexivity.
Qed.

(** The Sunday tasks and their minutes depend on the categories alone. *)
Lemma create_prep_schedule_sunday (self : t) (p p' : PrepPlan) :
  ingredients_by_category p = ingredients_by_category p' →
  sunday_prep (create_prep_schedule self p).1
  = sunday_prep (create_prep_schedule self p').1 ∧
  total_prep_time (create_prep_schedule self p).1
  - sum_minutes (mid_week_prep (create_prep_schedule self p).1)
  = total_prep_time (create_prep_schedule self p').1
    - sum_minutes (mid_week_prep (create_prep_schedule self p').1).
Proof.
  intros Hc. unfold create_prep_schedule. rewrite Hc.
  destruct (proteins _), (grains _), (vegetables _) as [|v vs];
    try destruct (slice_to _ (v :: vs));
    try destruct (slice_from _ (v :: vs));
    cbn [fst sunday_prep total_prep_time mid_week_prep];
    (split; [reflexivity | lia]).
Qed.

(** X26.  [create_prep_schedule] writes through its argument: the
    mid-week list of the plan passed in is the list of the schedule handed
    back.  So a second call on the same plan, when a vegetable is planned,
    appends the mid-week vegetable task a second time and counts its
    minutes again; without a vegetable the plan is left as it was and the
    second schedule equals the first. *)
Theorem create_prep_schedule_writes_through (self : t) (prep_plan : PrepPlan) :
  let first := create_prep_schedule self prep_plan in
  let second := create_prep_schedule self first.2 in
  let t := midweek_task self (ingredients_by_category prep_plan) in
  mid_week_prep first.2 = mid_week_prep first.1 ∧
  (vegetables (ingredients_by_category prep_plan) = [] →
   first.2 = prep_plan ∧ second.1 = first.1) ∧
  (vegetables (ingredients_by_category prep_plan) ≠ [] →
   mid_week_prep first.1 = mid_week_prep prep_plan ++ [t] ∧
   mid_week_prep second.1 = mid_week_prep prep_plan ++ [t; t] ∧
   sunday_prep second.1 = sunday_prep first.1 ∧
   total_prep_time second.1 = total_prep_time first.1 + time_minutes t).
Proof.
  cbv zeta. split; [|split].
  - now rewrite create_prep_schedule_argument.
  - intros Hv.
    assert (Hsame : (create_prep_schedule self prep_plan).2 = prep_plan).
    { unfold create_prep_schedule. rewrite Hv.
      destruct (proteins _), (grains _); cbn [snd]; now destruct prep_plan. }
    split; [exact Hsame | now rewrite Hsame].
  - intros Hv.
    pose proof (create_prep_schedule_mid_week self prep_plan Hv) as H1.
    set (p1 := (create_prep_schedule self prep_plan).2).
    assert (Hc : ingredients_by_category p1
                 = ingredients_by_category prep_plan)
      by (unfold p1; now rewrite create_prep_schedule_argument).
    assert (Hm : mid_week_prep p1
                 = mid_week_prep (create_prep_schedule self prep_plan).1)
      by (unfold p1; now rewrite create_prep_schedule_argument).
    assert (H2 : mid_week_prep (create_prep_schedule self p1).1
                 = mid_week_prep prep_plan
                   ++ [midweek_task self (ingredients_by_category prep_plan);
                       midweek_task self (ingredients_by_category prep_plan)]).
    { rewrite create_prep_schedule_mid_week by now rewrite Hc.
      rewrite Hm, H1, Hc, <- app_assoc. reflexivity. }
    destruct (create_prep_schedule_sunday self p1 prep_plan Hc) as [Hs Ht].
    split; [exact H1 | split; [exact H2 | split; [exact Hs|]]].
    rewrite H2, H1 in Ht.
    replace (mid_week_prep prep_plan
             ++ [midweek_task self (ingredients_by_category prep_plan);
                 midweek_task self (ingredients_by_category prep_plan)])
      with ((mid_week_prep prep_plan
             ++ [midweek_task self (ingredients_by_category prep_plan)])
            ++ [midweek_task self (ingredients_by_category prep_plan)])
      in Ht by now rewrite <- app_assoc.
    rewrite !sum_minutes_snoc in Ht. lia.
Qed.

Lemma filter_none {A} (P : A → Prop) `{∀ x, Decision (P x)} (l : list A) :
  (∀ x, x ∈ l → ¬ P x) → filter P l = [].
Proof.
  induction l as [|x l IH]; intros Hno; [done|].
  rewrite filter_cons, decide_False by (apply Hno, list_elem_of_here).
  apply IH. intros y Hy. apply Hno. now apply list_elem_of_further.
Qed.

Lemma plain_meal_ingredients (self : t) (meal : string) :
  meal = "" ∨ plain_meal meal →
  ∀ x, x ∈ meal_ingredients self meal →
       x ∈ ["protein"; "vegetables"; "seasonings"].
Proof.
  unfold meal_ingredients. intros [->|(H1 & H2 & H3 & H4 & H5)] x.
  - rewrite bool_decide_eq_false_2 by (intros H; now apply H).
    intros H. now apply elem_of_nil in H.
  - case_bool_decide as Hne; [|intros H; now apply elem_of_nil in H].
    unfold _get_basic_ingredients_for_meal. now rewrite H1, H2, H3, H4, H5.
Qed.

(** X27.  A week whose meal slots are all empty, or filled with meals that
    name none of the dishes the scheduler knows, gives an empty schedule: no
    Sunday task, no mid-week task, 0 minutes.  The default ingredients of
    such meals fall under no category but the sauces, for which no task is
    made. *)
Theorem plain_week_has_no_prep (self : t)
    (set_iter : list string → list string)
    (week_meal_plan : list (string * Cal.DayInfo)) :
  walks_set set_iter →
  (∀ item meal, item ∈ week_meal_plan → meal ∈ meals_of (snd item) →
                meal = "" ∨ plain_meal meal) →
  let schedule :=
    (create_prep_schedule self
       (analyze_week_schedule self set_iter week_meal_plan)).1 in
  sunday_prep schedule = [] ∧ mid_week_prep schedule = [] ∧
  total_prep_time schedule = 0.
Proof.
  intros Hwalk Hplain. cbv zeta.
  destruct (analyze_week_schedule_ingredients self set_iter week_meal_plan)
    as (Hp & Hv & Hg & _).
  assert (Hdefault : ∀ x,
    x ∈ set_iter (planned_ingredients self week_meal_plan) →
    x ∈ ["protein"; "vegetables"; "seasonings"]).
  { intros x Hx.
    destruct (Hwalk (planned_ingredients self week_meal_plan)) as [_ Hin].
    apply Hin in Hx. unfold planned_ingredients in Hx.
    apply list_elem_of_In, in_flat_map in Hx as (item & Hitem & Hx).
    apply in_flat_map in Hx as (meal & Hmeal & Hx).
    apply (plain_meal_ingredients self meal).
    - apply Hplain with item; now apply list_elem_of_In.
    - now apply list_elem_of_In. }
  assert (Hcat : ∀ x,
    x ∈ set_iter (planned_ingredients self week_meal_plan) →
    categorize_ingredient self x = "other" ∨
    categorize_ingredient self x = "sauces_dressings").
  { intros x Hx. apply Hdefault in Hx.
    rewrite !elem_of_cons, elem_of_nil in Hx.
    destruct Hx as [->|[->|[->|[]]]]; vm_compute; auto. }
  rewrite filter_none in Hp, Hv, Hg
    by (intros x Hx E; destruct (Hcat x Hx) as [E'|E']; congruence).
  unfold create_prep_schedule. rewrite Hp, Hg, Hv.
  cbn [fst sunday_prep mid_week_prep total_prep_time analyze_week_schedule].
  repeat split.
Qed.

Lemma plain_week_has_no_prep_witness :
  let plan :=
    [ ("day_0", Cal.plan_day "2024-01-08" "Monday");
      ("day_1",
       {| Cal.date := Some "2024-01-09"; Cal.day_name := Some "Tuesday";
          Cal.is_weekend := false;
          Cal.breakfast := "Greek Yogurt Parfait with Granola";
          Cal.lunch := "Black Bean and Rice Bowl";
          Cal.dinner := "Shrimp and Grits";
          Cal.late_night := false; Cal.prep_needed := false |}) ] in
  total_prep_time
    (create_prep_schedule init
       (analyze_week_schedule init first_seen plan)).1 = 0.
Proof.
  cbv zeta.
  refine (proj2 (proj2 (plain_week_has_no_prep init first_seen _
            first_seen_walks_set _))).
  intros item meal Hitem Hmeal.
  apply list_elem_of_In in Hitem. cbn in Hitem.
  destruct Hitem as [<-|[<-|[]]]; apply list_elem_of_In in Hmeal;
    cbn in Hmeal; destruct Hmeal as [<-|[<-|[<-|[]]]];
    first [left; reflexivity | right; vm_compute; repeat split].
Defined.

End PrepPlanning.
